(** * Nova number scanner: rule engine, worker and batch scheduler

    A shallow embedding of [scanner.py].  Python [str] values are modelled by
    [string], the sequence of bytes of their UTF-8 encoding: substring search
    on the encodings agrees with substring search on the code points, and the
    candidates classified here are phone numbers, made of ASCII digits.  (A
    text with a lone surrogate has no such encoding and is not modelled.)
    White space is that of [str.strip]: the ASCII white space and the
    Unicode white space characters, in their encodings.  The class [\d] of
    the two patterns is taken on the ASCII range, ['0'..'9']: this is what it
    is on every text without a character outside ASCII (beyond it the digits
    are those of the Unicode tables of the runtime), and the theorems that
    rest on a run of digits being absent say so ([ascii_only]).
    [str.lower] maps ['A'..'Z'] to ['a'..'z'], which decides the one
    comparison made of its result, with ["q"], as the runtime does: no other
    character than ['Q'] has ['q'] as its lower case. *)

From Stdlib Require Import Bool Arith ZArith List Lia.
From Stdlib Require Import Strings.Ascii Strings.String Numbers.DecimalString.
Import ListNotations.

Local Open Scope string_scope.
Local Open Scope list_scope.

(** ** Python values and the operations the scanner applies to them *)

Module Py.

(** Values that reach the scanner: the decoded JSON documents of
    [response.json()] and Python's [None].  JSON numbers are integers here. *)
#[local] Set Warnings "-register-all".
Inductive value : Type :=
| VNone
| VBool (b : bool)
| VInt (z : Z)
| VStr (s : string)
| VList (l : list value)
| VDict (d : list (string * value)).

(** Exceptions (all subclasses of [Exception]) raised by these operations. *)
Inductive exn : Type :=
| TypeError
| KeyError
| IndexError
| HTTPError
| ConnectionError
| Timeout
| JSONDecodeError
| EOFError
| ValueError.

(** A computation that returns or raises. *)
Definition M (A : Type) : Type := (exn + A)%type.

Definition ret {A} (a : A) : M A := inr a.
Definition raise {A} (e : exn) : M A := inl e.
Definition bind {A B} (m : M A) (k : A -> M B) : M B :=
  match m with
  | inl e => inl e
  | inr a => k a
  end.

(** [bool(v)]: Python truthiness. *)
Definition truthy (v : value) : bool :=
  match v with
  | VNone => false
  | VBool b => b
  | VInt z => negb (z =? 0)%Z
  | VStr s => negb (s =? "")
  | VList l => match l with [] => false | _ :: _ => true end
  | VDict d => match d with [] => false | _ :: _ => true end
  end.

(** [hay] begins with [needle]. *)
Fixpoint starts_with (needle hay : string) : bool :=
  match needle with
  | EmptyString => true
  | String a needle' =>
      match hay with
      | EmptyString => false
      | String b hay' => (a =? b)%char && starts_with needle' hay'
      end
  end.

(** [needle in hay] on two [str]: [needle] occurs at some offset of [hay]
    ([""] is in every string). *)
Fixpoint str_in (needle hay : string) : bool :=
  starts_with needle hay ||
  match hay with
  | EmptyString => false
  | String _ rest => str_in needle rest
  end.

(** Lookup of a key in a decoded JSON object. *)
Fixpoint dict_get (k : string) (d : list (string * value)) : option value :=
  match d with
  | [] => None
  | (k', v) :: rest => if k =? k' then Some v else dict_get k rest
  end.

(** [v == s] for a [str] [s]: only an equal [str] compares equal. *)
Definition eq_str (v : value) (s : string) : bool :=
  match v with
  | VStr s' => s' =? s
  | _ => false
  end.

(** [k in v] for a [str] key [k]. *)
Definition contains (k : string) (v : value) : M bool :=
  match v with
  | VStr s => ret (str_in k s)
  | VList l => ret (existsb (fun x => eq_str x k) l)
  | VDict d => ret (match dict_get k d with Some _ => true | None => false end)
  | VNone | VBool _ | VInt _ => raise TypeError
  end.

(** [v[k]] for a [str] key [k]. *)
Definition getitem_str (v : value) (k : string) : M value :=
  match v with
  | VDict d => match dict_get k d with Some x => ret x | None => raise KeyError end
  | _ => raise TypeError
  end.

(** [v[0]]: the keys of a decoded JSON object are strings, so [0] is never
    one of them. *)
Definition getitem_0 (v : value) : M value :=
  match v with
  | VList l => match l with x :: _ => ret x | [] => raise IndexError end
  | VStr s => match s with
              | String c _ => ret (VStr (String c EmptyString))
              | EmptyString => raise IndexError
              end
  | VDict _ => raise KeyError
  | VNone | VBool _ | VInt _ => raise TypeError
  end.

(** [len(v)]. *)
Definition len (v : value) : M nat :=
  match v with
  | VStr s => ret (String.length s)
  | VList l => ret (List.length l)
  | VDict d => ret (List.length d)
  | VNone | VBool _ | VInt _ => raise TypeError
  end.

(** [str(z)] for an [int]. *)
Definition str_of_int (z : Z) : string := NilZero.string_of_int (Z.to_int z).

Section Str.
(** [str] of a list or dict is their [repr]; it belongs to the Python
    runtime and is left abstract. *)
Variable repr_container : value -> string.

(** [str(v)]. *)
Definition str (v : value) : string :=
  match v with
  | VStr s => s
  | VNone => "None"
  | VBool true => "True"
  | VBool false => "False"
  | VInt z => str_of_int z
  | VList _ | VDict _ => repr_container v
  end.
End Str.

(** ASCII character classes. *)
Definition is_digit (c : ascii) : bool :=
  let n := nat_of_ascii c in ((48 <=? n) && (n <=? 57))%nat.

Definition is_space (c : ascii) : bool :=
  let n := nat_of_ascii c in
  (((9 <=? n) && (n <=? 13)) || ((28 <=? n) && (n <=? 32)))%nat.

Definition lower_char (c : ascii) : ascii :=
  let n := nat_of_ascii c in
  if ((65 <=? n) && (n <=? 90))%nat then ascii_of_nat (n + 32) else c.

Fixpoint lower (s : string) : string :=
  match s with
  | EmptyString => EmptyString
  | String c rest => String (lower_char c) (lower rest)
  end.

(** The white space characters of two bytes, U+0085 and U+00A0. *)
Definition space2 (c1 c2 : ascii) : bool :=
  let n1 := nat_of_ascii c1 in
  let n2 := nat_of_ascii c2 in
  ((n1 =? 194) && ((n2 =? 133) || (n2 =? 160)))%nat.

(** The white space characters of three bytes: U+1680, U+2000 to U+200A,
    U+2028, U+2029, U+202F, U+205F and U+3000. *)
Definition space3 (c1 c2 c3 : ascii) : bool :=
  let n1 := nat_of_ascii c1 in
  let n2 := nat_of_ascii c2 in
  let n3 := nat_of_ascii c3 in
  (((n1 =? 225) && (n2 =? 154) && (n3 =? 128)) ||
   ((n1 =? 226) && (n2 =? 128) &&
    (((128 <=? n3) && (n3 <=? 138)) || (n3 =? 168) || (n3 =? 169) || (n3 =? 175))) ||
   ((n1 =? 226) && (n2 =? 129) && (n3 =? 159)) ||
   ((n1 =? 227) && (n2 =? 128) && (n3 =? 128)))%nat.

(** [s.lstrip()]: the white space characters at the head are dropped. *)
Fixpoint lstrip (s : string) : string :=
  match s with
  | EmptyString => EmptyString
  | String c1 s1 =>
      if is_space c1 then lstrip s1
      else
        match s1 with
        | EmptyString => s
        | String c2 s2 =>
            if space2 c1 c2 then lstrip s2
            else
              match s2 with
              | EmptyString => s
              | String c3 s3 => if space3 c1 c2 c3 then lstrip s3 else s
              end
        end
  end.

(** [s] is made of white space characters only. *)
Definition blank (s : string) : bool :=
  match lstrip s with
  | EmptyString => true
  | String _ _ => false
  end.

(** [s.rstrip()]: what is left when the longest blank tail is dropped. *)
Fixpoint rstrip (s : string) : string :=
  match s with
  | EmptyString => EmptyString
  | String c rest => if blank s then EmptyString else String c (rstrip rest)
  end.

Definition strip (s : string) : string := rstrip (lstrip s).

End Py.

Notation "x <- m ;; k" := (Py.bind m (fun x => k))
  (at level 61, m at next level, right associativity).
Notation "' p <- m ;; k" := (Py.bind m (fun x => let p := x in k))
  (at level 61, p pattern, m at next level, right associativity).


(** ** Configuration ([scanner.py], lines 17-41) *)

Record config : Type := {
  CONCURRENT_WORKERS : nat;
  BATCH_DELAY : nat;
  ENABLE_A4 : bool;
  ENABLE_A3 : bool;
  ENABLE_ABC : bool;
  ENABLE_ABCD : bool;
  CUSTOM_TARGETS : list string
}.

(** The values the module assigns. *)
Definition default_config : config := {|
  CONCURRENT_WORKERS := 100;
  BATCH_DELAY := 2;
  ENABLE_A4 := true;
  ENABLE_A3 := true;
  ENABLE_ABC := false;
  ENABLE_ABCD := true;
  CUSTOM_TARGETS := ["888"; "666"; "520"; "1314"]
|}.

Definition with_toggles (cfg : config) (a4 a3 abc abcd : bool) : config := {|
  CONCURRENT_WORKERS := CONCURRENT_WORKERS cfg;
  BATCH_DELAY := BATCH_DELAY cfg;
  ENABLE_A4 := a4;
  ENABLE_A3 := a3;
  ENABLE_ABC := abc;
  ENABLE_ABCD := abcd;
  CUSTOM_TARGETS := CUSTOM_TARGETS cfg
|}.

(** ** The rule engine ([check_number_rules], lines 68-120) *)

Module Rules.

(** [k] further copies of [c] at the head of [s]: the [\1{k,}] of the two
    patterns, whose greedy tail never changes whether a match exists. *)
Fixpoint repeats (c : ascii) (k : nat) (s : string) : bool :=
  match k with
  | O => true
  | S k' =>
      match s with
      | EmptyString => false
      | String c' rest => (c' =? c)%char && repeats c k' rest
      end
  end.

(** [(\d)\1{k,}] matched at the head of [s], with [\d] on the ASCII
    range. *)
Definition match_run (k : nat) (s : string) : bool :=
  match s with
  | EmptyString => false
  | String c rest => Py.is_digit c && repeats c k rest
  end.

(** [re.search(r'(\d)\1{k,}', s)] as a truth value: a match at some offset. *)
Fixpoint re_search_run (k : nat) (s : string) : bool :=
  match_run k s ||
  match s with
  | EmptyString => false
  | String _ rest => re_search_run k rest
  end.

Definition forward_seq : string := "0123456789".
Definition backward_seq : string := "9876543210".

(** The slices [seq_[i:i+k]] for [i in range(len(seq_) - (k - 1))]. *)
Definition windows (seq_ : string) (k : nat) : list string :=
  map (fun i => substring i k seq_) (seq 0 (String.length seq_ - (k - 1))).

(** The first slice of the loop that occurs in the number. *)
Definition first_window (seq_ : string) (k : nat) (phone_number : string)
  : option string :=
  find (fun w => Py.str_in w phone_number) (windows seq_ k).

(** The reason strings, as the source writes them. *)
Definition reason_empty : string := "号码为空".
Definition reason_ordinary : string := "普通号码".
Definition reason_custom (target : string) : string :=
  "符合自定义目标: 包含 '" ++ target ++ "'".
Definition reason_a4 : string := "符合规则: A4连号 (发现连续4位重复数字)".
Definition reason_a3 : string := "符合规则: A3连号 (发现连续3位重复数字)".
Definition reason_forward5 (w : string) : string := "符合规则: 正向5位连号 (" ++ w ++ ")".
Definition reason_backward5 (w : string) : string := "符合规则: 反向5位连号 (" ++ w ++ ")".
Definition reason_forward4 (w : string) : string := "符合规则: 正向4位连号 (" ++ w ++ ")".
Definition reason_backward4 (w : string) : string := "符合规则: 反向4位连号 (" ++ w ++ ")".
Definition reason_forward3 (w : string) : string := "符合规则: 正向3位连号 (" ++ w ++ ")".
Definition reason_backward3 (w : string) : string := "符合规则: 反向3位连号 (" ++ w ++ ")".

Section Engine.
Variable repr_container : Py.value -> string.
Variable cfg : config.

(** Rules 4 to 6 on the converted number. *)
Definition check_sequences (phone_number : string) : bool * string :=
  match first_window forward_seq 5 phone_number with
  | Some w => (true, reason_forward5 w)
  | None =>
  match first_window backward_seq 5 phone_number with
  | Some w => (true, reason_backward5 w)
  | None =>
  match (if ENABLE_ABCD cfg then first_window forward_seq 4 phone_number else None) with
  | Some w => (true, reason_forward4 w)
  | None =>
  match (if ENABLE_ABCD cfg then first_window backward_seq 4 phone_number else None) with
  | Some w => (true, reason_backward4 w)
  | None =>
  match (if ENABLE_ABC cfg then first_window forward_seq 3 phone_number else None) with
  | Some w => (true, reason_forward3 w)
  | None =>
  match (if ENABLE_ABC cfg then first_window backward_seq 3 phone_number else None) with
  | Some w => (true, reason_backward3 w)
  | None => (false, reason_ordinary)
  end end end end end end.

Definition check_number_rules (phone_number : Py.value) : bool * string :=
  if negb (Py.truthy phone_number) then (false, reason_empty)
  else
    let phone_number := Py.str repr_container phone_number in
    match find (fun target => Py.str_in target phone_number) (CUSTOM_TARGETS cfg) with
    | Some target => (true, reason_custom target)
    | None =>
        if ENABLE_A4 cfg && re_search_run 3 phone_number then (true, reason_a4)
        else if ENABLE_A3 cfg && re_search_run 2 phone_number then (true, reason_a3)
        else check_sequences phone_number
    end.

End Engine.
End Rules.


(** ** The API client ([NovaClient], lines 126-196) *)

Module NovaClient.

(** What [session.post] gives for one request: it raises (time-out, refused
    connection, retries used up), or a response arrives with a status code
    and a body that decodes as JSON or does not. *)
Inductive http_reply : Type :=
| NoResponse (e : Py.exn)
| Response (status_code : Z) (json : option Py.value).

(** [response.raise_for_status()] of [requests]: client and server error
    codes raise. *)
Definition raise_for_status (status_code : Z) : Py.M unit :=
  if ((400 <=? status_code) && (status_code <? 600))%Z
  then Py.raise Py.HTTPError else Py.ret tt.

(** The [try] block of [post_graphql]. *)
Definition post_graphql_try (reply : http_reply) : Py.M Py.value :=
  match reply with
  | NoResponse e => Py.raise e
  | Response status_code json =>
      _ <- raise_for_status status_code ;;
      match json with
      | Some v => Py.ret v
      | None => Py.raise Py.JSONDecodeError
      end
  end.

(** [post_graphql]: every exception becomes [None]. *)
Definition post_graphql (reply : http_reply) : Py.value :=
  match post_graphql_try reply with
  | inl _ => Py.VNone
  | inr v => v
  end.

(** [search_single_number]: the pair [(phoneNumber, data)] or [(None, None)];
    the subscripts and [in] tests on a document of another shape raise. *)
Definition search_single_number (reply : http_reply) : Py.M (Py.value * Py.value) :=
  let data := post_graphql reply in
  has_numbers <-
    (if Py.truthy data then
       has_data <- Py.contains "data" data ;;
       if has_data then
         inner <- Py.getitem_str data "data" ;;
         Py.contains "availablePhoneNumbers" inner
       else Py.ret false
     else Py.ret false) ;;
  if has_numbers then
    inner <- Py.getitem_str data "data" ;;
    numbers_list <- Py.getitem_str inner "availablePhoneNumbers" ;;
    non_empty <-
      (if Py.truthy numbers_list then
         n <- Py.len numbers_list ;; Py.ret (0 <? n)%nat
       else Py.ret false) ;;
    if non_empty then
      first <- Py.getitem_0 numbers_list ;;
      number <- Py.getitem_str first "phoneNumber" ;;
      Py.ret (number, data)
    else Py.ret (Py.VNone, Py.VNone)
  else Py.ret (Py.VNone, Py.VNone).

(** *** The checkout methods ([create_cart_and_lock], lines 203-300, and
    [update_cart_item], lines 351-426)

    These write to the terminal and send requests; a call gives the lines
    printed and the payloads posted, in order, with what it returns or
    raises.  The reply to each request it may send is an argument. *)

Inductive effect : Type :=
| Printed (line : string)
| Posted (payload : Py.value).

Definition IO (A : Type) : Type := (list effect * Py.M A)%type.

Definition io_ret {A} (a : A) : IO A := ([], inr a).
Definition io_bind {A B} (m : IO A) (k : A -> IO B) : IO B :=
  match m with
  | (log, inl e) => (log, inl e)
  | (log, inr a) => let '(log', r) := k a in (log ++ log', r)
  end.
Definition lift {A} (m : Py.M A) : IO A := ([], m).
Definition print (line : string) : IO unit := ([Printed line], inr tt).

(** [self.post_graphql(payload)], answered by [reply]. *)
Definition post (payload : Py.value) (reply : http_reply) : IO Py.value :=
  ([Posted payload], inr (post_graphql reply)).

Notation "x <<- m ;; k" := (io_bind m (fun x => k))
  (at level 61, m at next level, right associativity).

Definition query_new_cart : string := "mutation addMobileSignupToCart($input: AddToCartInput!) {
              addToCart(input: $input) {
                cart {
                  id
                  items { id }
                }
              }
            }".
Definition query_lock : string := "mutation addMobileSignupToCart($input: AddToCartInput!) {
              addToCart(input: $input) {
                cart {
                  id
                  isValid
                  items {
                    purchaseInfo {
                      service {
                        phoneNumber
                      }
                    }
                  }
                }
                error {
                  message
                }
              }
            }".
Definition query_update : string := "mutation updateCartItem($input: UpdateCartItemInput!) {
              updateCartItem(input: $input) {
                cart {
                  id
                  isValid
                  items {
                    id
                  }
                }
                error {
                  code
                  message
                }
              }
            }".

Definition init_payload : Py.value :=
  Py.VDict
    [("operationName", Py.VStr "addMobileSignupToCart");
     ("variables",
      Py.VDict
        [("input",
          Py.VDict
            [("item",
              Py.VDict [("variantId", Py.VStr "frelsi-oskrad-ferdamadur");
                        ("quantity", Py.VInt 1);
                        ("purchaseInfo", Py.VDict [])]);
             ("cartId", Py.VStr "")])]);
     ("query", Py.VStr query_new_cart)].

Definition lock_payload (phone_number item_id cart_id : Py.value) : Py.value :=
  Py.VDict
    [("operationName", Py.VStr "addMobileSignupToCart");
     ("variables",
      Py.VDict
        [("input",
          Py.VDict
            [("item",
              Py.VDict
                [("variantId", Py.VStr "farsimi-otakmarkad-ferdamadur-1");
                 ("quantity", Py.VInt 1);
                 ("purchaseInfo",
                  Py.VDict
                    [("service",
                      Py.VDict
                        [("mobileSignupRightHolder", Py.VNone);
                         ("phoneNumber", phone_number);
                         ("isNewNumber", Py.VBool true);
                         ("type", Py.VStr "Mobile");
                         ("isUnregistered", Py.VBool true);
                         ("user",
                          Py.VDict [("name", Py.VStr "Distant Traveller");
                                    ("nationalId", Py.VStr "9999999999");
                                    ("phoneNumber", phone_number)])]);
                     ("contract",
                      Py.VDict [("cartItemId", item_id);
                                ("type", Py.VStr "New")])])]);
             ("cartId", cart_id)])]);
     ("query", Py.VStr query_lock)].

Definition update_payload (cart_id main_item_id contract_item_id phone_number email
                           : Py.value) : Py.value :=
  Py.VDict
    [("operationName", Py.VStr "updateCartItem");
     ("variables",
      Py.VDict
        [("input",
          Py.VDict
            [("cartId", cart_id);
             ("item",
              Py.VDict
                [("quantity", Py.VInt 1);
                 ("variantId", Py.VStr "farsimi-otakmarkad-ferdamadur-1");
                 ("id", main_item_id);
                 ("purchaseInfo",
                  Py.VDict
                    [("contract",
                      Py.VDict [("cartItemId", contract_item_id);
                                ("type", Py.VStr "New")]);
                     ("service",
                      Py.VDict
                        [("type", Py.VStr "Mobile");
                         ("phoneNumber", phone_number);
                         ("isNewNumber", Py.VBool true);
                         ("isUnregistered", Py.VBool true);
                         ("portInDate", Py.VStr "0001-01-01T00:00:00");
                         ("roofAmount", Py.VNone);
                         ("departmentId", Py.VNone);
                         ("invoiceExplanation", Py.VNone);
                         ("mobileSignupRightHolder", Py.VNone);
                         ("user",
                          Py.VDict [("name", Py.VStr "Distant Traveller");
                                    ("nationalId", Py.VStr "9999999999");
                                    ("email", email);
                                    ("phoneNumber", phone_number)])])])])])]);
     ("query", Py.VStr query_update)].

(** The default of the [email] argument. *)
Definition default_email : Py.value := Py.VStr "2002xuanying@gmail.com".

Section Checkout.
Variable repr_container : Py.value -> string.

(** Lines 236-243: the ids read from the answer to the first request,
    [(cart_id, item_id)], each [None] when it is not set. *)
Definition cart_ids (init_data : Py.value) : Py.M (Py.value * Py.value) :=
  has_cart <-
    (if Py.truthy init_data then
       has_data <- Py.contains "data" init_data ;;
       if has_data then
         inner <- Py.getitem_str init_data "data" ;;
         Py.contains "addToCart" inner
       else Py.ret false
     else Py.ret false) ;;
  if has_cart then
    inner <- Py.getitem_str init_data "data" ;;
    added <- Py.getitem_str inner "addToCart" ;;
    cart_data <- Py.getitem_str added "cart" ;;
    cart_id <- Py.getitem_str cart_data "id" ;;
    items <- Py.getitem_str cart_data "items" ;;
    if Py.truthy items then
      first <- Py.getitem_0 items ;;
      item_id <- Py.getitem_str first "id" ;;
      Py.ret (cart_id, item_id)
    else Py.ret (cart_id, Py.VNone)
  else Py.ret (Py.VNone, Py.VNone).

Definition create_cart_and_lock (init_reply lock_reply : http_reply)
    (phone_number : Py.value) : IO (Py.value * Py.value) :=
  _ <<- print ("[*] [锁定阶段] 正在为号码 " ++ Py.str repr_container phone_number
               ++ " 创建独立购物车...") ;;
  init_data <<- post init_payload init_reply ;;
  ids <<- lift (cart_ids init_data) ;;
  let '(cart_id, item_id) := ids in
  if negb (Py.truthy cart_id) then
    _ <<- print "[-] 购物车创建失败，无法锁定。" ;;
    io_ret (Py.VNone, Py.VNone)
  else
    lock_data <<- post (lock_payload phone_number item_id cart_id) lock_reply ;;
    io_ret (lock_data, cart_id).

(** The body of the loop of [update_cart_item] for one item, a JSON object:
    [ids] is [(main_item_id, contract_item_id)]. *)
Definition scan_item (ids : Py.value * Py.value) (item : list (string * Py.value))
  : Py.M (Py.value * Py.value) :=
  let vid := match Py.dict_get "variantId" item with
             | Some v => v
             | None => Py.VStr ""
             end in
  is_main <- Py.contains "farsimi-otakmarkad-ferdamadur" vid ;;
  if is_main then
    id <- Py.getitem_str (Py.VDict item) "id" ;; Py.ret (id, snd ids)
  else
    is_contract <- Py.contains "frelsi-oskrad-ferdamadur" vid ;;
    if is_contract then
      id <- Py.getitem_str (Py.VDict item) "id" ;; Py.ret (fst ids, id)
    else Py.ret ids.

(** [for item in cart_items], over a list of JSON objects. *)
Fixpoint scan_items (cart_items : list (list (string * Py.value)))
    (ids : Py.value * Py.value) : Py.M (Py.value * Py.value) :=
  match cart_items with
  | [] => Py.ret ids
  | item :: rest => ids' <- scan_item ids item ;; scan_items rest ids'
  end.

Definition update_cart_item (reply : http_reply) (cart_id : Py.value)
    (cart_items : list (list (string * Py.value)))
    (phone_number email : Py.value) : IO Py.value :=
  _ <<- print "[*] [确认订单] 正在更新购物车条目..." ;;
  ids <<- lift (scan_items cart_items (Py.VNone, Py.VNone)) ;;
  let '(main_item_id, contract_item_id) := ids in
  if negb (Py.truthy main_item_id) || negb (Py.truthy contract_item_id) then
    _ <<- print ("[-] 自动解析 Item ID 失败。Main: "
                 ++ Py.str repr_container main_item_id ++ ", Contract: "
                 ++ Py.str repr_container contract_item_id) ;;
    io_ret Py.VNone
  else
    post (update_payload cart_id main_item_id contract_item_id phone_number email)
         reply.

End Checkout.

End NovaClient.

(** ** The worker ([worker_task], lines 432-451) *)

Module Worker.
Section Task.
Variable repr_container : Py.value -> string.
Variable cfg : config.

Definition found (number : Py.value) (reason : string) (response : Py.value)
  : Py.value :=
  Py.VDict [("status", Py.VStr "FOUND"); ("number", number);
            ("reason", Py.VStr reason); ("response", response)].
Definition retry : Py.value := Py.VDict [("status", Py.VStr "RETRY")].
Definition error : Py.value := Py.VDict [("status", Py.VStr "ERROR")].

(** The [try] block. *)
Definition worker_task_try (reply : NovaClient.http_reply) : Py.M Py.value :=
  '(number, raw_response) <- NovaClient.search_single_number reply ;;
  if Py.truthy number then
    let '(is_good, reason) :=
      Rules.check_number_rules repr_container cfg number in
    if is_good then Py.ret (found number reason raw_response)
    else Py.ret retry
  else Py.ret retry.

(** [worker_task]: the [except Exception] clause turns every exception of
    the block into the ["ERROR"] dict. *)
Definition worker_task (reply : NovaClient.http_reply) : Py.value :=
  match worker_task_try reply with
  | inl _ => error
  | inr result => result
  end.

End Task.
End Worker.



(** ** The batch scheduler ([main], lines 462-513)

    The loop of [main] runs in one thread, and the workers reach it only
    through the results that [as_completed] yields.  An execution is
    determined by the reply each worker received, numbered in the order in
    which the loop consumes the results (the reply behind attempt [n]), and by
    what the operator types at the prompt raised by attempt [n] ([None]: the
    input stream is closed).  The pool is created before the loop, with
    [CONCURRENT_WORKERS] as its [max_workers]: [ThreadPoolExecutor] raises
    [ValueError] when that is not positive.  The banner lines written before
    the loop are left out. *)

Module Scheduler.

(** The variables of the loop. *)
Record state : Type := {
  total_attempts : nat;
  completed_in_batch : nat;
  allow_printing : bool
}.

Inductive action : Type :=
| Submit (workers : nat)
| Progress (total completed : nat)
| ShowMatch (number reason response : Py.value)
| Input (answer : option string)
| Shutdown
| Exit (code : Z)
| Resume
| Sleep (seconds : nat).

(** One entry per action, with the variables as they are when it is done. *)
Definition trace : Type := list (state * action).

Inductive halt : Type :=
| Exited (code : Z)
| Crashed (e : Py.exn).

Section Loop.
Variable repr_container : Py.value -> string.
Variable cfg : config.
Variable network : nat -> NovaClient.http_reply.
Variable operator : nat -> option string.

Definition count (st : state) : state := {|
  total_attempts := S (total_attempts st);
  completed_in_batch := S (completed_in_batch st);
  allow_printing := allow_printing st
|}.

Definition set_printing (b : bool) (st : state) : state := {|
  total_attempts := total_attempts st;
  completed_in_batch := completed_in_batch st;
  allow_printing := b
|}.

Definition new_batch (st : state) : state := {|
  total_attempts := total_attempts st;
  completed_in_batch := 0;
  allow_printing := allow_printing st
|}.

(** The three fields read from a ["FOUND"] result. *)
Definition match_fields (result : Py.value)
  : Py.M (Py.value * Py.value * Py.value) :=
  number <- Py.getitem_str result "number" ;;
  reason <- Py.getitem_str result "reason" ;;
  response <- Py.getitem_str result "response" ;;
  Py.ret (number, reason, response).

(** The pause on a match (lines 485-510). *)
Definition gate (result : Py.value) (st : state) : trace * state * option halt :=
  let st := set_printing false st in
  match match_fields result with
  | inl e => ([], st, Some (Crashed e))
  | inr (number, reason, response) =>
      let shown := [(st, ShowMatch number reason response)] in
      match operator (total_attempts st) with
      | None => (shown ++ [(st, Input None)], st, Some (Crashed Py.EOFError))
      | Some answer =>
          let user_input := Py.lower (Py.strip answer) in
          if user_input =? "q" then
            (shown ++ [(st, Input (Some answer)); (st, Shutdown); (st, Exit 0)],
             st, Some (Exited 0))
          else
            let st' := set_printing true st in
            (shown ++ [(st, Input (Some answer)); (st', Resume)], st', None)
      end
  end.

(** The body of [for future in as_completed(futures)] for one result. *)
Definition consume (result : Py.value) (st : state) : trace * state * option halt :=
  let st := count st in
  let progress :=
    if allow_printing st
    then [(st, Progress (total_attempts st) (completed_in_batch st))]
    else [] in
  match Py.getitem_str result "status" with
  | inl e => (progress, st, Some (Crashed e))
  | inr status =>
      if Py.eq_str status "FOUND" then
        let '(tr, st', h) := gate result st in (progress ++ tr, st', h)
      else (progress, st, None)
  end.

(** The [for] loop over the [pending] results that are still to come. *)
Fixpoint collect (pending : nat) (st : state) : trace * state * option halt :=
  match pending with
  | O => ([], st, None)
  | S pending' =>
      let result :=
        Worker.worker_task repr_container cfg (network (S (total_attempts st))) in
      match consume result st with
      | (tr, st', Some h) => (tr, st', Some h)
      | (tr, st', None) =>
          let '(tr', st'', h) := collect pending' st' in (tr ++ tr', st'', h)
      end
  end.

(** [rounds] iterations of [while True]: the trace, and how the process
    ended if it did. *)
Fixpoint batches (rounds : nat) (st : state) : trace * option halt :=
  match rounds with
  | O => ([], None)
  | S rounds' =>
      let st0 := new_batch st in
      let submitted := (st, Submit (CONCURRENT_WORKERS cfg)) in
      match collect (CONCURRENT_WORKERS cfg) st0 with
      | (tr, st', Some h) => (submitted :: tr, Some h)
      | (tr, st', None) =>
          let '(tr', h) := batches rounds' st' in
          (submitted :: tr ++ (st', Sleep (BATCH_DELAY cfg)) :: tr', h)
      end
  end.

Definition initial : state := {|
  total_attempts := 0;
  completed_in_batch := 0;
  allow_printing := true
|}.

(** [main]: the pool is created (line 465), then the loop runs. *)
Definition main (rounds : nat) : trace * option halt :=
  if (CONCURRENT_WORKERS cfg =? 0)%nat then ([], Some (Crashed Py.ValueError))
  else batches rounds initial.

End Loop.
End Scheduler.


(** ** Vocabulary of the properties *)

Local Open Scope string_scope.

(** [t] occurs in [s] as a contiguous substring. *)
Definition occurs (t s : string) : Prop :=
  exists before after, s = before ++ t ++ after.

(** [n] copies of the character [c]. *)
Fixpoint run (c : ascii) (n : nat) : string :=
  match n with
  | O => EmptyString
  | S n' => String c (run c n')
  end.

(** [s] has [n] consecutive occurrences of one digit. *)
Definition has_run (n : nat) (s : string) : Prop :=
  exists c, Py.is_digit c = true /\ occurs (run c n) s.

(** [w] is an ascending or descending run of [k] digits. *)
Definition step_run (k : nat) (w : string) : Prop :=
  String.length w = k /\
  (occurs w Rules.forward_seq \/ occurs w Rules.backward_seq).

(** No configured literal target occurs in [s]. *)
Definition no_target (cfg : config) (s : string) : Prop :=
  forall t, In t (CUSTOM_TARGETS cfg) -> ~ occurs t s.

(** Whether the sequence rule of window size [k] is switched on: size 5
    always is. *)
Definition sequence_enabled (cfg : config) (k : nat) : Prop :=
  k = 5 \/ (k = 4 /\ ENABLE_ABCD cfg = true) \/ (k = 3 /\ ENABLE_ABC cfg = true).

(** The rules of the engine, in their order of precedence. *)
Inductive direction : Type := Forward | Backward.
Inductive width : Type := W5 | W4 | W3.

Inductive rule : Type :=
| Literal (target : string)
| Run4
| Run3
| Sequence (d : direction) (k : width) (w : string).

Definition digits (k : width) : nat :=
  match k with W5 => 5 | W4 => 4 | W3 => 3 end.

Definition sequence_of (d : direction) : string :=
  match d with Forward => Rules.forward_seq | Backward => Rules.backward_seq end.

Definition rank (r : rule) : nat :=
  match r with
  | Literal _ => 0
  | Run4 => 1
  | Run3 => 2
  | Sequence Forward W5 _ => 3
  | Sequence Backward W5 _ => 4
  | Sequence Forward W4 _ => 5
  | Sequence Backward W4 _ => 6
  | Sequence Forward W3 _ => 7
  | Sequence Backward W3 _ => 8
  end.

(** The condition of a rule holds on [s] and its toggle, if it has one, is on. *)
Definition applies (cfg : config) (s : string) (r : rule) : Prop :=
  match r with
  | Literal t => In t (CUSTOM_TARGETS cfg) /\ occurs t s
  | Run4 => ENABLE_A4 cfg = true /\ has_run 4 s
  | Run3 => ENABLE_A3 cfg = true /\ has_run 3 s
  | Sequence d k w =>
      sequence_enabled cfg (digits k) /\ String.length w = digits k /\
      occurs w (sequence_of d) /\ occurs w s
  end.

(** [r] applies and no rule that is checked before it does. *)
Definition fired (cfg : config) (s : string) (r : rule) : Prop :=
  applies cfg s r /\ forall r', rank r' < rank r -> ~ applies cfg s r'.

(** The reason string the engine returns for a rule. *)
Definition reason_of (r : rule) : string :=
  match r with
  | Literal t => Rules.reason_custom t
  | Run4 => Rules.reason_a4
  | Run3 => Rules.reason_a3
  | Sequence Forward W5 w => Rules.reason_forward5 w
  | Sequence Backward W5 w => Rules.reason_backward5 w
  | Sequence Forward W4 w => Rules.reason_forward4 w
  | Sequence Backward W4 w => Rules.reason_backward4 w
  | Sequence Forward W3 w => Rules.reason_forward3 w
  | Sequence Backward W3 w => Rules.reason_backward3 w
  end.

(** [s] is made of white space only. *)
Definition all_space (s : string) : bool := Py.blank s.

(** [s] has no character outside the ASCII range, as every string of
    digits: each of its bytes is below 128. *)
Fixpoint ascii_only (s : string) : bool :=
  match s with
  | EmptyString => true
  | String c rest => (nat_of_ascii c <? 128)%nat && ascii_only rest
  end.

(** How the prompt answered [ans] in state [s] is followed up: [post] is the
    rest of the trace and [h] the way the process ends.  The stream of input
    is closed, the answer is the stop token, or the scan resumes. *)
Definition resolved (s : Scheduler.state) (ans : option string)
    (post : Scheduler.trace) (h : option Scheduler.halt) : Prop :=
  match ans with
  | None => post = [] /\ h = Some (Scheduler.Crashed Py.EOFError)
  | Some a =>
      if Py.lower (Py.strip a) =? "q"
      then post = [(s, Scheduler.Shutdown); (s, Scheduler.Exit 0)] /\
           h = Some (Scheduler.Exited 0)
      else exists post',
          post = (Scheduler.set_printing true s, Scheduler.Resume) :: post'
  end.

(** The prompt shown in state [s] within a batch of [pending] results that
    began with the counters [total] and [completed]: it is raised by result
    number [S j] of the batch, a ["FOUND"] one, the counters have counted
    the results up to that one and no other, and when the scan resumes with
    results of the batch still to come the next one is counted then. *)
Definition gate_at (repr : Py.value -> string) (cfg : config)
    (network : nat -> NovaClient.http_reply)
    (total completed pending : nat) (s : Scheduler.state) (ans : option string)
    (post : Scheduler.trace) (h : option Scheduler.halt) : Prop :=
  exists j,
    j < pending /\
    Scheduler.total_attempts s = total + S j /\
    Scheduler.completed_in_batch s = completed + S j /\
    Scheduler.allow_printing s = false /\
    Py.getitem_str
      (Worker.worker_task repr cfg (network (Scheduler.total_attempts s))) "status"
    = inr (Py.VStr "FOUND") /\
    resolved s ans post h /\
    (forall post',
        post = (Scheduler.set_printing true s, Scheduler.Resume) :: post' ->
        S j < pending ->
        exists s' rest,
          post' = (s', Scheduler.Progress (S (Scheduler.total_attempts s))
                                          (S (Scheduler.completed_in_batch s)))
                  :: rest).

(** No enabled sequence rule applies to [s]. *)
Definition no_sequence (cfg : config) (s : string) : Prop :=
  forall k w, sequence_enabled cfg k -> step_run k w -> ~ occurs w s.

(** The configuration with the 3-run toggle set to [b]. *)
Definition with_a3 (cfg : config) (b : bool) : config :=
  with_toggles cfg (ENABLE_A4 cfg) b (ENABLE_ABC cfg) (ENABLE_ABCD cfg).

(** At every prompt all the results of the batch have been counted (which
    the loop does not ensure). *)
Definition batch_counted_at_gate (cfg : config) (tr : Scheduler.trace) : Prop :=
  forall pre s ans post,
    tr = (pre ++ (s, Scheduler.Input ans) :: post)%list ->
    Scheduler.completed_in_batch s = CONCURRENT_WORKERS cfg.

(** [cfg'] has every rule of [cfg] switched on and every literal target of
    [cfg]. *)
Definition extends (cfg cfg' : config) : Prop :=
  (ENABLE_A4 cfg = true -> ENABLE_A4 cfg' = true) /\
  (ENABLE_A3 cfg = true -> ENABLE_A3 cfg' = true) /\
  (ENABLE_ABC cfg = true -> ENABLE_ABC cfg' = true) /\
  (ENABLE_ABCD cfg = true -> ENABLE_ABCD cfg' = true) /\
  incl (CUSTOM_TARGETS cfg) (CUSTOM_TARGETS cfg').

(** No character of [s] is a digit. *)
Definition digit_free (s : string) : Prop :=
  forall c, occurs (String c "") s -> Py.is_digit c = false.

(** The status codes for which [raise_for_status] raises. *)
Definition error_status (status_code : Z) : Prop :=
  (400 <= status_code < 600)%Z.

(** The result is a dict whose ["status"] is ["FOUND"]. *)
Definition is_found (result : Py.value) : Prop :=
  Py.getitem_str result "status" = inr (Py.VStr "FOUND").

(** The progress line written in state [s]. *)
Definition progress_of (s : Scheduler.state) : Scheduler.state * Scheduler.action :=
  (s, Scheduler.Progress (Scheduler.total_attempts s) (Scheduler.completed_in_batch s)).

(** The scheduler as a state machine: which entry of the trace can follow
    which.  A batch is submitted, its results are consumed one by one, a
    ["FOUND"] one opens the pause, the answer to the prompt stops the
    process or resumes the batch, and a finished batch is followed by the
    delay and the next batch. *)
Inductive step (repr : Py.value -> string) (cfg : config)
    (network : nat -> NovaClient.http_reply) (operator : nat -> option string)
  : Scheduler.state * Scheduler.action -> Scheduler.state * Scheduler.action -> Prop :=
| step_first_result s :
    0 < CONCURRENT_WORKERS cfg ->
    step repr cfg network operator
      (s, Scheduler.Submit (CONCURRENT_WORKERS cfg))
      (progress_of (Scheduler.count (Scheduler.new_batch s)))
| step_next_result s :
    ~ is_found (Worker.worker_task repr cfg (network (Scheduler.total_attempts s))) ->
    Scheduler.completed_in_batch s < CONCURRENT_WORKERS cfg ->
    step repr cfg network operator (progress_of s) (progress_of (Scheduler.count s))
| step_batch_done s :
    ~ is_found (Worker.worker_task repr cfg (network (Scheduler.total_attempts s))) ->
    Scheduler.completed_in_batch s = CONCURRENT_WORKERS cfg ->
    step repr cfg network operator (progress_of s)
      (s, Scheduler.Sleep (BATCH_DELAY cfg))
| step_match s number reason response :
    Worker.worker_task repr cfg (network (Scheduler.total_attempts s))
    = Worker.found number reason response ->
    step repr cfg network operator (progress_of s)
      (Scheduler.set_printing false s,
       Scheduler.ShowMatch number (Py.VStr reason) response)
| step_prompt s number reason response :
    step repr cfg network operator
      (s, Scheduler.ShowMatch number reason response)
      (s, Scheduler.Input (operator (Scheduler.total_attempts s)))
| step_stop s a :
    Py.lower (Py.strip a) = "q" ->
    step repr cfg network operator
      (s, Scheduler.Input (Some a)) (s, Scheduler.Shutdown)
| step_exit s :
    step repr cfg network operator (s, Scheduler.Shutdown) (s, Scheduler.Exit 0)
| step_resume s a :
    Py.lower (Py.strip a) <> "q" ->
    step repr cfg network operator
      (s, Scheduler.Input (Some a))
      (Scheduler.set_printing true s, Scheduler.Resume)
| step_after_resume s :
    Scheduler.completed_in_batch s < CONCURRENT_WORKERS cfg ->
    step repr cfg network operator
      (s, Scheduler.Resume) (progress_of (Scheduler.count s))
| step_resume_done s :
    Scheduler.completed_in_batch s = CONCURRENT_WORKERS cfg ->
    step repr cfg network operator
      (s, Scheduler.Resume) (s, Scheduler.Sleep (BATCH_DELAY cfg))
| step_next_batch s :
    step repr cfg network operator
      (s, Scheduler.Sleep (BATCH_DELAY cfg))
      (s, Scheduler.Submit (CONCURRENT_WORKERS cfg)).

(** [x] is the entry before the next result (or the delay) of a batch in
    state [st]. *)
Definition ready (repr : Py.value -> string) (cfg : config)
    (network : nat -> NovaClient.http_reply) (operator : nat -> option string)
    (x : Scheduler.state * Scheduler.action) (st : Scheduler.state) : Prop :=
  (Scheduler.completed_in_batch st < CONCURRENT_WORKERS cfg ->
   step repr cfg network operator x (progress_of (Scheduler.count st))) /\
  (Scheduler.completed_in_batch st = CONCURRENT_WORKERS cfg ->
   step repr cfg network operator x (st, Scheduler.Sleep (BATCH_DELAY cfg))).

(** Every entry of [tr] follows the one before it by [R], from [x] on. *)
Fixpoint chain {A} (R : A -> A -> Prop) (x : A) (tr : list A) : Prop :=
  match tr with
  | nil => True
  | y :: tr' => R x y /\ chain R y tr'
  end.

(** The last entry of [x :: tr]. *)
Fixpoint final {A} (x : A) (tr : list A) : A :=
  match tr with
  | nil => x
  | y :: tr' => final y tr'
  end.

(** How a run that ended, or ran out of rounds, leaves its trace: after the
    delay of a batch, after [exit(0)], or at a prompt with no input. *)
Definition ending (cfg : config) (h : option Scheduler.halt)
    (x : Scheduler.state * Scheduler.action) : Prop :=
  match h with
  | None => exists s, x = (s, Scheduler.Sleep (BATCH_DELAY cfg))
  | Some (Scheduler.Exited code) =>
      code = 0%Z /\ exists s, x = (s, Scheduler.Exit 0)
  | Some (Scheduler.Crashed e) =>
      e = Py.EOFError /\
      exists s, x = (s, Scheduler.Input None)
  end.

(** The numbers of the progress lines of a trace, in order. *)
Fixpoint progress_lines (tr : Scheduler.trace) : list (nat * nat) :=
  match tr with
  | nil => nil
  | (_, Scheduler.Progress total completed) :: tr' =>
      (total, completed) :: progress_lines tr'
  | _ :: tr' => progress_lines tr'
  end.

(** The [variantId] of a cart item, as [item.get('variantId', '')] reads it. *)
Definition variant_of (item : list (string * Py.value)) : Py.value :=
  match Py.dict_get "variantId" item with
  | Some v => v
  | None => Py.VStr ""
  end.

(** The item is taken as the main item, or as the contract item: its
    [variantId] is a string with the first marker in it, or with the second
    and not the first. *)
Definition is_main_item (item : list (string * Py.value)) : bool :=
  match variant_of item with
  | Py.VStr s => Py.str_in "farsimi-otakmarkad-ferdamadur" s
  | _ => false
  end.

Definition is_contract_item (item : list (string * Py.value)) : bool :=
  match variant_of item with
  | Py.VStr s => negb (Py.str_in "farsimi-otakmarkad-ferdamadur" s)
                 && Py.str_in "frelsi-oskrad-ferdamadur" s
  | _ => false
  end.

(** An item the loop of [update_cart_item] reads without raising: the
    [variantId] is a string (or absent), and the [id] is there when the item
    is taken. *)
Definition readable_item (item : list (string * Py.value)) : Prop :=
  (exists s, variant_of item = Py.VStr s) /\
  (is_main_item item || is_contract_item item = true ->
   exists id, Py.dict_get "id" item = Some id).

(** The [id] of the last item of the list that passes [test], or [default]. *)
Definition last_id (test : list (string * Py.value) -> bool)
    (cart_items : list (list (string * Py.value))) (default : Py.value) : Py.value :=
  match find test (rev cart_items) with
  | Some item =>
      match Py.dict_get "id" item with
      | Some id => id
      | None => Py.VNone
      end
  | None => default
  end.

(** The two lines [create_cart_and_lock] prints. *)
Definition lock_start_line (repr : Py.value -> string) (phone_number : Py.value)
  : NovaClient.effect :=
  NovaClient.Printed ("[*] [锁定阶段] 正在为号码 " ++ Py.str repr phone_number
                      ++ " 创建独立购物车...").
Definition lock_failed_line : NovaClient.effect :=
  NovaClient.Printed "[-] 购物车创建失败，无法锁定。".

(** The first line [update_cart_item] prints. *)
Definition update_start_line : NovaClient.effect :=
  NovaClient.Printed "[*] [确认订单] 正在更新购物车条目...".

(** The line [update_cart_item] prints when it gives up. *)
Definition update_failed_line (repr : Py.value -> string)
    (main_item_id contract_item_id : Py.value) : NovaClient.effect :=
  NovaClient.Printed ("[-] 自动解析 Item ID 失败。Main: "
                      ++ Py.str repr main_item_id ++ ", Contract: "
                      ++ Py.str repr contract_item_id).

(** The [variantId] a request asks for:
    [payload["variables"]["input"]["item"]["variantId"]]. *)
Definition requested_variant (payload : Py.value) : Py.M Py.value :=
  variables <- Py.getitem_str payload "variables" ;;
  input <- Py.getitem_str variables "input" ;;
  item <- Py.getitem_str input "item" ;;
  Py.getitem_str item "variantId".

(** ** Concrete executions *)

(** A stand-in for the abstract [repr]; no candidate below is a list or a
    dict. *)
Definition repr_stub : Py.value -> string := fun _ => "[...]".

(** The document the API sends for one available number. *)
Definition available (number : string) : NovaClient.http_reply :=
  NovaClient.Response 200
    (Some (Py.VDict
       [("data",
         Py.VDict
           [("availablePhoneNumbers",
             Py.VList
               [Py.VDict [("phoneNumber", Py.VStr number);
                          ("type", Py.VStr "Normal");
                          ("__typename", Py.VStr "PhoneNumber")]])])])).

(** The default rules with ten workers per batch. *)
Definition cfg10 : config := {|
  CONCURRENT_WORKERS := 10;
  BATCH_DELAY := BATCH_DELAY default_config;
  ENABLE_A4 := ENABLE_A4 default_config;
  ENABLE_A3 := ENABLE_A3 default_config;
  ENABLE_ABC := ENABLE_ABC default_config;
  ENABLE_ABCD := ENABLE_ABCD default_config;
  CUSTOM_TARGETS := CUSTOM_TARGETS default_config
|}.

(** The fourth result consumed is a match, the others are ordinary. *)
Definition network_match4 (n : nat) : NovaClient.http_reply :=
  if (n =? 4)%nat then available "5812345" else available "5813579".

Definition operator_enter (n : nat) : option string := Some "".
Definition operator_quit (n : nat) : option string := Some " Q ".

(** One batch of ten, paused at the fourth result. *)
Definition run10 (operator : nat -> option string)
  : Scheduler.trace * option Scheduler.halt :=
  Scheduler.main repr_stub cfg10 network_match4 operator 1.

Definition gate4 : Scheduler.state := {|
  Scheduler.total_attempts := 4;
  Scheduler.completed_in_batch := 4;
  Scheduler.allow_printing := false
|}.

(** No result is a match. *)
Definition network_quiet (n : nat) : NovaClient.http_reply := available "5813579".

(** Two rounds of ten workers without a match, and the state after the
    first of them. *)
Definition quiet2 : Scheduler.trace :=
  fst (Scheduler.main repr_stub cfg10 network_quiet (fun _ => None) 2).

Definition counted10 : Scheduler.state := {|
  Scheduler.total_attempts := 10;
  Scheduler.completed_in_batch := 10;
  Scheduler.allow_printing := true
|}.

(** The document behind the match of [network_match4]. *)
Definition match_document : Py.value :=
  NovaClient.post_graphql (available "5812345").

(** The state in which the fourth progress line is written. *)
Definition counted4 : Scheduler.state := {|
  Scheduler.total_attempts := 4;
  Scheduler.completed_in_batch := 4;
  Scheduler.allow_printing := true
|}.

(** The answer to the first request of [create_cart_and_lock]: a cart with
    its id and its items. *)
Definition cart_created (cart_id items : Py.value) : NovaClient.http_reply :=
  NovaClient.Response 200
    (Some (Py.VDict
       [("data",
         Py.VDict
           [("addToCart",
             Py.VDict
               [("cart", Py.VDict [("id", cart_id); ("items", items)])])])])).

(** An answer with ["addToCart": null]. *)
Definition cart_refused : NovaClient.http_reply :=
  NovaClient.Response 200
    (Some (Py.VDict [("data", Py.VDict [("addToCart", Py.VNone)])])).

(** Two items of a cart, of the variants of the two requests. *)
Definition contract_item : list (string * Py.value) :=
  [("id", Py.VStr "item-1"); ("variantId", Py.VStr "frelsi-oskrad-ferdamadur")].
Definition main_item : list (string * Py.value) :=
  [("id", Py.VStr "item-2"); ("variantId", Py.VStr "farsimi-otakmarkad-ferdamadur-1")].

(** ** Strings *)

Lemma append_assoc (a b c : string) : (a ++ b) ++ c = a ++ (b ++ c).
Proof. induction a as [|x a IH]; simpl; [reflexivity | now rewrite IH]. Qed.

Lemma append_length (a b : string) :
  String.length (a ++ b) = String.length a + String.length b.
Proof. induction a as [|x a IH]; simpl; [reflexivity | now rewrite IH]. Qed.

Lemma starts_with_spec (t s : string) :
  Py.starts_with t s = true <-> exists after, s = t ++ after.
Proof.
  revert s; induction t as [|c t IH]; intros s; simpl.
  - split; [intros _; now exists s | intros _; reflexivity].
  - destruct s as [|c' s].
    + split; [discriminate | intros [after H]; discriminate].
    + rewrite andb_true_iff, IH, Ascii.eqb_eq. split.
      * intros [-> [after ->]]. now exists after.
      * intros [after H]. inversion H. split; [reflexivity | now exists after].
Qed.

Lemma str_in_spec (t s : string) : Py.str_in t s = true <-> occurs t s.
Proof.
  unfold occurs. induction s as [|c s IH].
  - simpl. rewrite orb_false_r, starts_with_spec. split.
    + intros [after H]. now exists "", after.
    + intros [[|x before] [after H]]; simpl in H; [now exists after | discriminate].
  - change (Py.str_in t (String c s))
      with (Py.starts_with t (String c s) || Py.str_in t s).
    rewrite orb_true_iff, IH, starts_with_spec. split.
    + intros [[after H] | [before [after H]]].
      * now exists "", after.
      * exists (String c before), after. simpl. now rewrite H.
    + intros [[|x before] [after H]]; simpl in H.
      * left. now exists after.
      * right. inversion H. now exists before, after.
Qed.

Lemma str_in_false (t s : string) : Py.str_in t s = false <-> ~ occurs t s.
Proof. rewrite <- str_in_spec. now destruct (Py.str_in t s). Qed.

Lemma occurs_nonempty (t s : string) : occurs t s -> t <> "" -> s <> "".
Proof.
  intros [[|x before] [after H]] Ht ->; simpl in H; [|discriminate].
  destruct t; [now apply Ht | discriminate].
Qed.

Lemma repeats_spec (c : ascii) (k : nat) (s : string) :
  Rules.repeats c k s = true <-> exists after, s = run c k ++ after.
Proof.
  revert s; induction k as [|k IH]; intros s; simpl.
  - split; [intros _; now exists s | reflexivity].
  - destruct s as [|c' s].
    + split; [discriminate | intros [after H]; discriminate].
    + rewrite andb_true_iff, IH, Ascii.eqb_eq. split.
      * intros [-> [after ->]]. now exists after.
      * intros [after H]. inversion H. split; [reflexivity | now exists after].
Qed.

Lemma match_run_spec (k : nat) (s : string) :
  Rules.match_run k s = true <->
  exists c after, Py.is_digit c = true /\ s = run c (S k) ++ after.
Proof.
  destruct s as [|c s]; simpl.
  - split; [discriminate | intros (c & after & _ & H); discriminate].
  - rewrite andb_true_iff, repeats_spec. split.
    + intros [Hd [after ->]]. now exists c, after.
    + intros (c' & after & Hd & H). inversion H. subst. split; [assumption | now exists after].
Qed.

Lemma re_search_run_spec (k : nat) (s : string) :
  Rules.re_search_run k s = true <-> has_run (S k) s.
Proof.
  unfold has_run, occurs. induction s as [|x s IH].
  - simpl. split; [discriminate|].
    intros (c & _ & [|y before] & after & H); discriminate.
  - change (Rules.re_search_run k (String x s))
      with (Rules.match_run k (String x s) || Rules.re_search_run k s).
    rewrite orb_true_iff, IH, match_run_spec. split.
    + intros [(c & after & Hd & H) | (c & Hd & before & after & H)].
      * exists c. split; [assumption|]. now exists "", after.
      * exists c. split; [assumption|]. exists (String x before), after.
        simpl. now rewrite H.
    + intros (c & Hd & [|y before] & after & H).
      * left. now exists c, after.
      * right. inversion H. exists c. split; [assumption|]. now exists before, after.
Qed.

Lemma re_search_run_false (k : nat) (s : string) :
  Rules.re_search_run k s = false <-> ~ has_run (S k) s.
Proof. rewrite <- re_search_run_spec. now destruct (Rules.re_search_run k s). Qed.

Lemma run_snoc (c : ascii) (n : nat) : run c (S n) = run c n ++ String c "".
Proof. induction n as [|n IH]; [reflexivity | simpl in *; now rewrite <- IH]. Qed.

Lemma has_run_weaken (n : nat) (s : string) : has_run (S n) s -> has_run n s.
Proof.
  intros (c & Hd & before & after & H). exists c. split; [assumption|].
  exists before, (String c after).
  now rewrite H, run_snoc, append_assoc.
Qed.



Lemma substring_at (before w after : string) :
  substring (String.length before) (String.length w) (before ++ w ++ after) = w.
Proof.
  induction before as [|x before IH]; simpl.
  - induction w as [|c w IHw]; simpl; [now destruct after | now rewrite IHw].
  - exact IH.
Qed.

Lemma substring_split (s : string) :
  forall i k, i + k <= String.length s ->
  exists before after,
    s = before ++ substring i k s ++ after /\
    String.length before = i /\ String.length (substring i k s) = k.
Proof.
  induction s as [|c s IH]; intros i k Hik; simpl in Hik.
  - assert (i = 0) as -> by lia. assert (k = 0) as -> by lia.
    now exists "", "".
  - destruct i as [|i].
    + destruct k as [|k].
      * now exists "", (String c s).
      * destruct (IH 0 k) as (before & after & Hs & Hb & Hl); [lia|].
        destruct before; [|discriminate]. simpl in Hs.
        exists "", after. simpl. rewrite <- Hs, Hl. auto.
    + destruct (IH i k) as (before & after & Hs & Hb & Hl); [lia|].
      exists (String c before), after. simpl. rewrite <- Hs, Hb, Hl. auto.
Qed.

Lemma windows_spec (seq_ : string) (k : nat) (w : string) :
  1 <= k ->
  In w (Rules.windows seq_ k) <-> String.length w = k /\ occurs w seq_.
Proof.
  intros Hk. unfold Rules.windows. rewrite in_map_iff. split.
  - intros (i & <- & Hi). apply in_seq in Hi.
    destruct (substring_split seq_ i k) as (before & after & Hs & _ & Hl); [lia|].
    split; [assumption | now exists before, after].
  - intros [Hl (before & after & Hs)].
    exists (String.length before). split.
    + now rewrite Hs, <- Hl, substring_at.
    + apply in_seq. apply (f_equal String.length) in Hs.
      rewrite !append_length in Hs. lia.
Qed.

Lemma first_window_some (seq_ : string) (k : nat) (s w : string) :
  1 <= k -> Rules.first_window seq_ k s = Some w ->
  String.length w = k /\ occurs w seq_ /\ occurs w s.
Proof.
  intros Hk H. apply find_some in H. destruct H as [Hin Hs].
  apply windows_spec in Hin; [|assumption]. apply str_in_spec in Hs. tauto.
Qed.

Lemma first_window_none (seq_ : string) (k : nat) (s : string) :
  1 <= k ->
  Rules.first_window seq_ k s = None <->
  (forall w, String.length w = k -> occurs w seq_ -> ~ occurs w s).
Proof.
  intros Hk. split.
  - intros H w Hl Ho. apply str_in_false.
    apply (find_none _ _ H). apply windows_spec; auto.
  - intros H. unfold Rules.first_window.
    destruct (find _ _) as [w|] eqn:E; [|reflexivity].
    apply first_window_some in E; [|assumption].
    destruct E as (Hl & Ho & Hs). now destruct (H w Hl Ho).
Qed.

(** The first element that passes a test, and what precedes it. *)
Lemma find_first {A} (f : A -> bool) (l : list A) (x : A) :
  find f l = Some x ->
  exists before after,
    l = (before ++ x :: after)%list /\ f x = true /\
    (forall y, In y before -> f y = false).
Proof.
  induction l as [|a l IH]; simpl; [discriminate|].
  destruct (f a) eqn:Fa.
  - intros [= ->]. exists [], l. repeat split; [assumption | intros y []].
  - intros H. destruct (IH H) as (before & after & -> & Fx & Hb).
    exists (a :: before), after. repeat split; [assumption|].
    intros y [<-|Hy]; auto.
Qed.

Lemma find_target_none (cfg : config) (s : string) :
  find (fun t => Py.str_in t s) (CUSTOM_TARGETS cfg) = None <-> no_target cfg s.
Proof.
  unfold no_target. split.
  - intros H t Ht. apply str_in_false. apply (find_none _ _ H t Ht).
  - intros H. destruct (find _ _) as [t|] eqn:E; [|reflexivity].
    apply find_some in E. destruct E as [Ht Hs]. apply str_in_spec in Hs.
    now destruct (H t Ht).
Qed.

(** ** The rule engine *)

Lemma truthy_str (s : string) : Py.truthy (Py.VStr s) = true <-> s <> "".
Proof.
  simpl. rewrite negb_true_iff. apply String.eqb_neq.
Qed.

Lemma window_none (on : bool) (d : direction) (k : width) (s : string) :
  (if on then Rules.first_window (sequence_of d) (digits k) s else None) = None ->
  on = true ->
  forall w, String.length w = digits k -> occurs w (sequence_of d) -> ~ occurs w s.
Proof.
  intros H ->. apply first_window_none; [destruct k; simpl; lia | exact H].
Qed.

Lemma window_some (on : bool) (d : direction) (k : width) (s w : string) :
  (if on then Rules.first_window (sequence_of d) (digits k) s else None) = Some w ->
  on = true /\ String.length w = digits k /\ occurs w (sequence_of d) /\ occurs w s.
Proof.
  destruct on; [|discriminate]. intros H. split; [reflexivity|].
  apply first_window_some; [destruct k; simpl; lia | exact H].
Qed.

Ltac enabled_cases H :=
  destruct H as [H | [[H ?] | [H ?]]]; simpl in H; try discriminate H.

(** The sequence rules: the first window found in the source's order, or
    none at all. *)
Lemma check_sequences_cases (cfg : config) (s : string) :
  (exists d k w,
      applies cfg s (Sequence d k w) /\
      (forall d' k' w', rank (Sequence d' k' w') < rank (Sequence d k w) ->
                        ~ applies cfg s (Sequence d' k' w')) /\
      Rules.check_sequences cfg s = (true, reason_of (Sequence d k w)))
  \/ ((forall d k w, ~ applies cfg s (Sequence d k w)) /\
      Rules.check_sequences cfg s = (false, Rules.reason_ordinary)).
Proof.
  unfold Rules.check_sequences.
  pose proof (window_none true Forward W5 s) as N1.
  pose proof (window_none true Backward W5 s) as N2.
  pose proof (window_none (ENABLE_ABCD cfg) Forward W4 s) as N3.
  pose proof (window_none (ENABLE_ABCD cfg) Backward W4 s) as N4.
  pose proof (window_none (ENABLE_ABC cfg) Forward W3 s) as N5.
  pose proof (window_none (ENABLE_ABC cfg) Backward W3 s) as N6.
  pose proof (window_some true Forward W5 s) as P1.
  pose proof (window_some true Backward W5 s) as P2.
  pose proof (window_some (ENABLE_ABCD cfg) Forward W4 s) as P3.
  pose proof (window_some (ENABLE_ABCD cfg) Backward W4 s) as P4.
  pose proof (window_some (ENABLE_ABC cfg) Forward W3 s) as P5.
  pose proof (window_some (ENABLE_ABC cfg) Backward W3 s) as P6.
  simpl sequence_of in *. simpl digits in *.
  assert (R : forall d' k' w',
             applies cfg s (Sequence d' k' w') ->
             match d', k' with
             | Forward, W5 => Rules.first_window Rules.forward_seq 5 s <> None
             | Backward, W5 => Rules.first_window Rules.backward_seq 5 s <> None
             | Forward, W4 =>
                 (if ENABLE_ABCD cfg then Rules.first_window Rules.forward_seq 4 s
                  else None) <> None
             | Backward, W4 =>
                 (if ENABLE_ABCD cfg then Rules.first_window Rules.backward_seq 4 s
                  else None) <> None
             | Forward, W3 =>
                 (if ENABLE_ABC cfg then Rules.first_window Rules.forward_seq 3 s
                  else None) <> None
             | Backward, W3 =>
                 (if ENABLE_ABC cfg then Rules.first_window Rules.backward_seq 3 s
                  else None) <> None
             end).
  { intros d' k' w' (He & Hl & Ho & Hs).
    destruct d', k'; simpl in *; intros E; enabled_cases He;
      first [ now apply (N1 E eq_refl w') | now apply (N2 E eq_refl w')
            | now apply (N3 E He w') | now apply (N3 E H w')
            | now apply (N4 E He w') | now apply (N4 E H w')
            | now apply (N5 E He w') | now apply (N5 E H w')
            | now apply (N6 E He w') | now apply (N6 E H w') ]. }
  clear N1 N2 N3 N4 N5 N6.
  destruct (Rules.first_window Rules.forward_seq 5 s) as [w|] eqn:E1.
  { left. exists Forward, W5, w. destruct (P1 w eq_refl) as (_ & ? & ? & ?).
    repeat split; simpl; auto; try (now left).
    intros d' k' w' Hr. destruct d', k'; simpl in Hr; lia. }
  destruct (Rules.first_window Rules.backward_seq 5 s) as [w|] eqn:E2.
  { left. exists Backward, W5, w. destruct (P2 w eq_refl) as (_ & ? & ? & ?).
    repeat split; simpl; auto; try (now left).
    intros d' k' w' Hr Ha. apply R in Ha.
    destruct d', k'; simpl in Hr; try lia; now apply Ha. }
  destruct (if ENABLE_ABCD cfg then Rules.first_window Rules.forward_seq 4 s else None)
    as [w|] eqn:E3.
  { left. exists Forward, W4, w. destruct (P3 w eq_refl) as (? & ? & ? & ?).
    repeat split; simpl; auto; try (right; left; now split).
    intros d' k' w' Hr Ha. apply R in Ha.
    destruct d', k'; simpl in Hr; try lia; now apply Ha. }
  destruct (if ENABLE_ABCD cfg then Rules.first_window Rules.backward_seq 4 s else None)
    as [w|] eqn:E4.
  { left. exists Backward, W4, w. destruct (P4 w eq_refl) as (? & ? & ? & ?).
    repeat split; simpl; auto; try (right; left; now split).
    intros d' k' w' Hr Ha. apply R in Ha.
    destruct d', k'; simpl in Hr; try lia; now apply Ha. }
  destruct (if ENABLE_ABC cfg then Rules.first_window Rules.forward_seq 3 s else None)
    as [w|] eqn:E5.
  { left. exists Forward, W3, w. destruct (P5 w eq_refl) as (? & ? & ? & ?).
    repeat split; simpl; auto; try (right; right; now split).
    intros d' k' w' Hr Ha. apply R in Ha.
    destruct d', k'; simpl in Hr; try lia; now apply Ha. }
  destruct (if ENABLE_ABC cfg then Rules.first_window Rules.backward_seq 3 s else None)
    as [w|] eqn:E6.
  { left. exists Backward, W3, w. destruct (P6 w eq_refl) as (? & ? & ? & ?).
    repeat split; simpl; auto; try (right; right; now split).
    intros d' k' w' Hr Ha. apply R in Ha.
    destruct d', k'; simpl in Hr; try lia; now apply Ha. }
  right. split; [|reflexivity].
  intros d k w Ha. apply R in Ha. destruct d, k; now apply Ha.
Qed.

(** A truthy candidate: the first rule that applies fires and gives the
    reason, or no rule applies and the number is ordinary. *)
Lemma check_number_rules_cases (repr : Py.value -> string) (cfg : config) (v : Py.value) :
  Py.truthy v = true ->
  (exists r, fired cfg (Py.str repr v) r /\
             Rules.check_number_rules repr cfg v = (true, reason_of r))
  \/ ((forall r, ~ applies cfg (Py.str repr v) r) /\
      Rules.check_number_rules repr cfg v = (false, Rules.reason_ordinary)).
Proof.
  intros Hv. unfold Rules.check_number_rules. rewrite Hv. simpl negb. cbv iota.
  set (s := Py.str repr v).
  destruct (find _ (CUSTOM_TARGETS cfg)) as [t|] eqn:E0.
  { left. exists (Literal t). apply find_some in E0. destruct E0 as [Ht Hs].
    apply str_in_spec in Hs. repeat split; auto.
    intros r' Hr. simpl in Hr. lia. }
  apply find_target_none in E0.
  destruct (ENABLE_A4 cfg && Rules.re_search_run 3 s) eqn:E1.
  { left. exists Run4. apply andb_true_iff in E1. destruct E1 as [On Hs].
    apply re_search_run_spec in Hs. repeat split; auto.
    intros [t| | |[|] [| |] w] Hr; simpl in Hr; try lia.
    intros [Ht Ho]. now apply (E0 t). }
  assert (N1 : ~ applies cfg s Run4).
  { intros [On Hs]. apply re_search_run_spec in Hs. now rewrite On, Hs in E1. }
  destruct (ENABLE_A3 cfg && Rules.re_search_run 2 s) eqn:E2.
  { left. exists Run3. apply andb_true_iff in E2. destruct E2 as [On Hs].
    apply re_search_run_spec in Hs. repeat split; auto.
    intros [t| | |[|] [| |] w] Hr; simpl in Hr; try lia; [|exact N1].
    intros [Ht Ho]. now apply (E0 t). }
  assert (N2 : ~ applies cfg s Run3).
  { intros [On Hs]. apply re_search_run_spec in Hs. now rewrite On, Hs in E2. }
  destruct (check_sequences_cases cfg s) as [(d & k & w & Ha & Hfirst & ->) | [Hnone ->]].
  - left. exists (Sequence d k w). repeat split; try apply Ha.
    intros [t| | |d' k' w'] Hr; auto.
    intros [Ht Ho]. now apply (E0 t).
  - right. split; [|reflexivity].
    intros [t| | |d k w]; auto.
    intros [Ht Ho]. now apply (E0 t).
Qed.

Lemma append_inj_l (p a b : string) : p ++ a = p ++ b -> a = b.
Proof. induction p as [|c p IH]; simpl; [auto | intros [= H]; auto]. Qed.

Lemma append_inj_r (a b c : string) : a ++ c = b ++ c -> a = b.
Proof.
  revert b; induction a as [|x a IH]; intros [|y b] H; simpl in H.
  - reflexivity.
  - apply (f_equal String.length) in H. simpl in H. rewrite append_length in H. lia.
  - apply (f_equal String.length) in H. simpl in H. rewrite append_length in H. lia.
  - injection H as -> H. now rewrite (IH b H).
Qed.

Lemma framed_inj (p a b c : string) : p ++ a ++ c = p ++ b ++ c -> a = b.
Proof. intros H. apply append_inj_l in H. now apply append_inj_r in H. Qed.

(** Distinct rules have distinct reason strings. *)
Lemma reason_of_inj (r1 r2 : rule) : reason_of r1 = reason_of r2 -> r1 = r2.
Proof.
  destruct r1 as [t1| | |[|] [| |] w1], r2 as [t2| | |[|] [| |] w2];
    try reflexivity; try (simpl; discriminate);
    intros H; apply framed_inj in H; now subst.
Qed.

Lemma occurs_in_frame (p t q : string) : occurs t (p ++ t ++ q).
Proof. now exists p, q. Qed.

Lemma occurs_empty (t : string) : occurs t "" -> t = "".
Proof.
  intros ([|x before] & after & H); simpl in H; [|discriminate].
  destruct t; [reflexivity | discriminate].
Qed.

Lemma has_run_nonempty (n : nat) (s : string) : has_run (S n) s -> s <> "".
Proof.
  intros (c & _ & Ho) ->. apply occurs_empty in Ho. discriminate.
Qed.

Lemma fired_matches (repr : Py.value -> string) (cfg : config) (v : Py.value) (r : rule) :
  Py.truthy v = true -> applies cfg (Py.str repr v) r ->
  exists r', fired cfg (Py.str repr v) r' /\ rank r' <= rank r /\
             Rules.check_number_rules repr cfg v = (true, reason_of r').
Proof.
  intros Hv Ha.
  destruct (check_number_rules_cases repr cfg v Hv) as [(r' & Hf & E) | [Hnone _]].
  - exists r'. repeat split; try apply Hf; [|exact E].
    destruct (le_lt_dec (rank r') (rank r)) as [L|L]; [exact L|].
    destruct Hf as [_ Hfirst]. now destruct (Hfirst r L).
  - now destruct (Hnone r).
Qed.

(** C1. A candidate in which a configured literal target occurs is a match
    whose reason cites the first such target of the configured list, under
    every setting of the four structural toggles.  The candidate is not
    empty: this follows from the occurrence when no target is the empty
    string, as in the configuration of the source. *)
Theorem literal_target_first (repr : Py.value -> string) (cfg : config) (s : string) :
  s <> "" \/ ~ In "" (CUSTOM_TARGETS cfg) ->
  (exists t, In t (CUSTOM_TARGETS cfg) /\ occurs t s) ->
  exists before t after,
    CUSTOM_TARGETS cfg = (before ++ t :: after)%list /\
    occurs t s /\
    (forall u, In u before -> ~ occurs u s) /\
    occurs t (Rules.reason_custom t) /\
    forall a4 a3 abc abcd,
      Rules.check_number_rules repr (with_toggles cfg a4 a3 abc abcd) (Py.VStr s)
      = (true, Rules.reason_custom t).
Proof.
  intros Hne (t0 & Hin & Hocc).
  assert (Hs : s <> "").
  { destruct Hne as [H|H]; [exact H|]. intros ->.
    apply occurs_empty in Hocc. now subst. }
  destruct (find (fun t => Py.str_in t s) (CUSTOM_TARGETS cfg)) as [t|] eqn:E.
  - destruct (find_first _ _ _ E) as (before & after & Hl & Ht & Hb).
    exists before, t, after. split; [exact Hl|].
    split; [now apply str_in_spec|].
    split; [intros u Hu; apply str_in_false; now apply Hb|].
    split; [apply occurs_in_frame|].
    intros a4 a3 abc abcd. unfold Rules.check_number_rules.
    apply truthy_str in Hs. rewrite Hs. simpl. now rewrite E.
  - apply find_target_none in E. now destruct (E t0 Hin).
Qed.

(** C2. A digit string in which five consecutive characters of
    ["0123456789"] or of ["9876543210"] occur is a match under every setting
    of the four toggles (and every list of literal targets). *)
Theorem five_run_unconditional (repr : Py.value -> string) (cfg : config) (s w : string) :
  step_run 5 w -> occurs w s ->
  forall a4 a3 abc abcd,
    fst (Rules.check_number_rules repr (with_toggles cfg a4 a3 abc abcd) (Py.VStr s))
    = true.
Proof.
  intros [Hl Hw] Hs a4 a3 abc abcd.
  assert (Hne : s <> "").
  { apply (occurs_nonempty w); [exact Hs|]. intros ->. discriminate. }
  apply truthy_str in Hne.
  assert (Ha : exists d, applies (with_toggles cfg a4 a3 abc abcd) s (Sequence d W5 w)).
  { destruct Hw as [Hw|Hw]; [exists Forward | exists Backward];
      (split; [now left | repeat split; assumption]). }
  destruct Ha as [d Ha].
  destruct (fired_matches repr _ (Py.VStr s) _ Hne Ha) as (r' & _ & _ & ->).
  reflexivity.
Qed.

(** C4. With the 4-run rule enabled, a string with four or more consecutive
    occurrences of one digit is a match; when no literal target occurs in it
    the reason is that of the 4-run rule, which is not that of the 3-run
    rule, whatever the 3-run toggle. *)
Theorem four_run_matches (repr : Py.value -> string) (cfg : config) (s : string) :
  ENABLE_A4 cfg = true -> has_run 4 s ->
  fst (Rules.check_number_rules repr cfg (Py.VStr s)) = true /\
  (no_target cfg s ->
   Rules.check_number_rules repr cfg (Py.VStr s) = (true, Rules.reason_a4)) /\
  Rules.reason_a4 <> Rules.reason_a3.
Proof.
  intros On Hr.
  pose proof (has_run_nonempty _ _ Hr) as Hne. apply truthy_str in Hne.
  assert (Ha : applies cfg s Run4) by now split.
  destruct (fired_matches repr cfg (Py.VStr s) _ Hne Ha) as (r' & Hf & Hrank & E).
  rewrite E. split; [reflexivity|]. split; [|discriminate].
  intros Hnt. destruct r' as [t| | |[|] [| |] w]; simpl in Hrank; try lia.
  - destruct Hf as [[Ht Ho] _]. now destruct (Hnt t Ht).
  - reflexivity.
Qed.

(** C5. A string of the ASCII range, as a string of digits is, with three
    but not four consecutive occurrences of one digit, in which no literal
    target occurs and to which no enabled sequence rule applies, is a match
    when the 3-run rule is enabled and is not a match when it is disabled. *)
Theorem three_run_toggle (repr : Py.value -> string) (cfg : config) (s : string) :
  ascii_only s = true ->
  has_run 3 s -> ~ has_run 4 s -> no_target cfg s -> no_sequence cfg s ->
  fst (Rules.check_number_rules repr (with_a3 cfg true) (Py.VStr s)) = true /\
  fst (Rules.check_number_rules repr (with_a3 cfg false) (Py.VStr s)) = false.
Proof.
  intros _ H3 H4 Hnt Hns.
  pose proof (has_run_nonempty _ _ H3) as Hne. apply truthy_str in Hne.
  split.
  - assert (Ha : applies (with_a3 cfg true) s Run3) by now split.
    now destruct (fired_matches repr _ (Py.VStr s) _ Hne Ha) as (r' & _ & _ & ->).
  - destruct (check_number_rules_cases repr (with_a3 cfg false) (Py.VStr s) Hne)
      as [(r & [Ha _] & _) | [_ ->]]; [|reflexivity].
    simpl Py.str in Ha. exfalso.
    destruct r as [t| | |d k w]; simpl in Ha.
    + destruct Ha as [Ht Ho]. now apply (Hnt t).
    + now destruct Ha.
    + destruct Ha; discriminate.
    + destruct Ha as (He & Hl & Ho & Hs).
      apply (Hns (digits k) w); [exact He | | exact Hs].
      split; [exact Hl|]. destruct d; [now left | now right].
Qed.

(** C6. The engine answers "no match" in exactly two cases.  A falsy
    candidate ([None], the empty string) gets the reason of line 73, whatever
    the configuration: no rule is looked at.  A truthy candidate to which no
    rule applies gets the reason of line 120.  No other answer is a "no
    match"; and each of the two cases gives its answer, the second one for a
    candidate whose text is of the ASCII range, as a string of digits is.
    (The spec renders the two reasons in English, "empty input" and
    "ordinary number".) *)
Theorem no_match_two_cases (repr : Py.value -> string) (cfg : config) (v : Py.value) (reason : string) :
  (Rules.check_number_rules repr cfg v = (false, reason) ->
   (Py.truthy v = false /\ reason = Rules.reason_empty) \/
   (Py.truthy v = true /\ (forall r, ~ applies cfg (Py.str repr v) r) /\
    reason = Rules.reason_ordinary)) /\
  (Py.truthy v = false ->
   Rules.check_number_rules repr cfg v = (false, Rules.reason_empty)) /\
  (ascii_only (Py.str repr v) = true ->
   Py.truthy v = true -> (forall r, ~ applies cfg (Py.str repr v) r) ->
   Rules.check_number_rules repr cfg v = (false, Rules.reason_ordinary)).
Proof.
  destruct (Py.truthy v) eqn:Hv.
  - destruct (check_number_rules_cases repr cfg v Hv) as [(r & [Ha _] & E) | [Hnone E]];
      rewrite E; repeat split; try discriminate.
    + intros _ _ Hnone. now destruct (Hnone r).
    + intros [= <-]. right. auto.
  - unfold Rules.check_number_rules. rewrite Hv. simpl. repeat split.
    + intros [= <-]. left. auto.
    + discriminate.
Qed.

(** C7. A match carries the reason of the rule that fired: the returned
    string is [reason_of r] for a rule [r] before which, in the order of
    precedence, no rule applies to the candidate; distinct rules have
    distinct reasons, so the string tells the rule; a run rule cited has its
    toggle on; on a candidate whose text is of the ASCII range, as a string
    of digits is, and for a literal or a sequence rule on any candidate, [r]
    applies; and when [r] is a sequence rule the run cited in the reason is
    of the rule's width and occurs in the candidate. *)
Theorem match_reason_identifies_rule (repr : Py.value -> string) (cfg : config) (v : Py.value) (reason : string) :
  Rules.check_number_rules repr cfg v = (true, reason) ->
  exists r,
    reason = reason_of r /\
    (forall r', reason_of r' = reason -> r' = r) /\
    (forall r', rank r' < rank r -> ~ applies cfg (Py.str repr v) r') /\
    (r = Run4 -> ENABLE_A4 cfg = true) /\
    (r = Run3 -> ENABLE_A3 cfg = true) /\
    (ascii_only (Py.str repr v) = true \/ (r <> Run4 /\ r <> Run3) ->
     fired cfg (Py.str repr v) r) /\
    (forall d k w, r = Sequence d k w ->
       String.length w = digits k /\ occurs w (sequence_of d) /\
       occurs w reason /\ occurs w (Py.str repr v)).
Proof.
  intros E.
  destruct (Py.truthy v) eqn:Hv.
  - destruct (check_number_rules_cases repr cfg v Hv) as [(r & Hf & E') | [_ E']];
      rewrite E' in E; [|discriminate].
    injection E as <-. exists r. split; [reflexivity|].
    split; [intros r'; apply reason_of_inj|].
    split; [apply Hf|].
    split; [intros ->; apply Hf|].
    split; [intros ->; apply Hf|].
    split; [intros _; exact Hf|].
    intros d k w ->. destruct Hf as [(_ & Hl & Ho & Hs) _].
    repeat split; try assumption.
    destruct d, k; apply occurs_in_frame.
  - unfold Rules.check_number_rules in E. rewrite Hv in E. discriminate.
Qed.

(** ** The worker *)

Lemma failed_query_no_candidate (reply : NovaClient.http_reply) (e : Py.exn) :
  NovaClient.post_graphql_try reply = inl e ->
  NovaClient.search_single_number reply = inr (Py.VNone, Py.VNone).
Proof.
  intros H. unfold NovaClient.search_single_number, NovaClient.post_graphql.
  now rewrite H.
Qed.

(** What the [try] block of the worker can return. *)
Lemma worker_task_try_cases (repr : Py.value -> string) (cfg : config)
    (reply : NovaClient.http_reply) (result : Py.value) :
  Worker.worker_task_try repr cfg reply = inr result ->
  result = Worker.retry \/
  exists number response,
    NovaClient.search_single_number reply = inr (number, response) /\
    Py.truthy number = true /\
    fst (Rules.check_number_rules repr cfg number) = true /\
    result = Worker.found number
               (snd (Rules.check_number_rules repr cfg number)) response.
Proof.
  unfold Worker.worker_task_try.
  destruct (NovaClient.search_single_number reply) as [e|[number response]];
    simpl; [discriminate|].
  destruct (Py.truthy number) eqn:Hn; [|intros [= <-]; now left].
  destruct (Rules.check_number_rules repr cfg number) as [[|] reason] eqn:Hc;
    intros [= <-]; [|now left].
  right. exists number, response. rewrite Hc. auto.
Qed.

(** C9. [worker_task] returns for every reply of the network, and what it
    returns is a dict whose ["status"] is ["FOUND"], ["RETRY"] or ["ERROR"];
    when its [try] block raises, the result is the ["ERROR"] dict. *)
Theorem worker_task_total (repr : Py.value -> string) (cfg : config)
    (reply : NovaClient.http_reply) :
  (exists d status,
     Worker.worker_task repr cfg reply = Py.VDict d /\
     Py.dict_get "status" d = Some (Py.VStr status) /\
     (status = "FOUND" \/ status = "RETRY" \/ status = "ERROR")) /\
  (forall e, Worker.worker_task_try repr cfg reply = inl e ->
             Worker.worker_task repr cfg reply = Worker.error).
Proof.
  unfold Worker.worker_task. split.
  - destruct (Worker.worker_task_try repr cfg reply) as [e|result] eqn:E.
    + eexists _, "ERROR". split; [reflexivity|]. split; [reflexivity | auto].
    + apply worker_task_try_cases in E.
      destruct E as [-> | (number & response & _ & _ & _ & ->)].
      * eexists _, "RETRY". split; [reflexivity|]. split; [reflexivity | auto].
      * eexists _, "FOUND". split; [reflexivity|]. split; [reflexivity | auto].
  - now intros e ->.
Qed.

(** C10. A candidate that was fetched and is not a match, and a query that
    failed or brought no candidate, give the same result: the ["RETRY"]
    dict. *)
Theorem no_match_and_no_candidate_alike (repr : Py.value -> string) (cfg : config)
    (reply1 reply2 : NovaClient.http_reply) (number response : Py.value) :
  NovaClient.search_single_number reply1 = inr (number, response) ->
  Py.truthy number = true ->
  fst (Rules.check_number_rules repr cfg number) = false ->
  (exists e, NovaClient.post_graphql_try reply2 = inl e) \/
  NovaClient.search_single_number reply2 = inr (Py.VNone, Py.VNone) ->
  Worker.worker_task repr cfg reply1 = Worker.retry /\
  Worker.worker_task repr cfg reply2 = Worker.retry.
Proof.
  intros H1 Hn Hc H2. unfold Worker.worker_task, Worker.worker_task_try. split.
  - rewrite H1. simpl. rewrite Hn.
    destruct (Rules.check_number_rules repr cfg number) as [[|] reason];
      [discriminate | reflexivity].
  - assert (E : NovaClient.search_single_number reply2 = inr (Py.VNone, Py.VNone)).
    { destruct H2 as [[e He]|H]; [now apply (failed_query_no_candidate _ e) | exact H]. }
    now rewrite E.
Qed.

(** ** The stop token *)

(** How [lstrip] goes on: it is at the end of the string, it drops a white
    space character of one, two or three bytes, or it stops. *)
Lemma lstrip_cases (s : string) :
  s = "" \/
  (exists c1 s1, s = String c1 s1 /\ Py.is_space c1 = true /\
                 Py.lstrip s = Py.lstrip s1) \/
  (exists c1 c2 s2, s = String c1 (String c2 s2) /\ Py.is_space c1 = false /\
                    Py.space2 c1 c2 = true /\ Py.lstrip s = Py.lstrip s2) \/
  (exists c1 c2 c3 s3, s = String c1 (String c2 (String c3 s3)) /\
                       Py.is_space c1 = false /\ Py.space2 c1 c2 = false /\
                       Py.space3 c1 c2 c3 = true /\ Py.lstrip s = Py.lstrip s3) \/
  (s <> "" /\ Py.lstrip s = s).
Proof.
  destruct s as [|c1 s1]; [now left | right].
  destruct (Py.is_space c1) eqn:E1.
  { left. exists c1, s1. simpl. rewrite E1. auto. }
  right. destruct s1 as [|c2 s2].
  { right. right. simpl. rewrite E1. split; [discriminate | reflexivity]. }
  destruct (Py.space2 c1 c2) eqn:E2.
  { left. exists c1, c2, s2. simpl. rewrite E1, E2. auto. }
  right. destruct s2 as [|c3 s3].
  { right. simpl. rewrite E1, E2. split; [discriminate | reflexivity]. }
  destruct (Py.space3 c1 c2 c3) eqn:E3.
  - left. exists c1, c2, c3, s3. simpl. rewrite E1, E2, E3. auto.
  - right. simpl. rewrite E1, E2, E3. split; [discriminate | reflexivity].
Qed.

Lemma all_space_lstrip (s : string) : all_space s = true <-> Py.lstrip s = "".
Proof.
  unfold all_space, Py.blank. destruct (Py.lstrip s); split; auto; discriminate.
Qed.

Lemma lstrip_spec_bounded (n : nat) :
  forall a, String.length a <= n ->
  exists l, a = l ++ Py.lstrip a /\ all_space l = true.
Proof.
  induction n as [|n IH]; intros a Hn.
  - destruct a; [now exists "" | simpl in Hn; lia].
  - destruct (lstrip_cases a)
      as [-> | [(c1 & s1 & -> & E1 & El)
             | [(c1 & c2 & s2 & -> & E1 & E2 & El)
               | [(c1 & c2 & c3 & s3 & -> & E1 & E2 & E3 & El) | [_ El]]]]].
    + now exists "".
    + destruct (IH s1) as (l & Hl & Hs); [simpl in Hn; lia|].
      exists (String c1 l). rewrite El. split; [simpl; now rewrite <- Hl|].
      apply all_space_lstrip. simpl. rewrite E1. now apply all_space_lstrip.
    + destruct (IH s2) as (l & Hl & Hs); [simpl in Hn; lia|].
      exists (String c1 (String c2 l)). rewrite El.
      split; [simpl; now rewrite <- Hl|].
      apply all_space_lstrip. simpl. rewrite E1, E2. now apply all_space_lstrip.
    + destruct (IH s3) as (l & Hl & Hs); [simpl in Hn; lia|].
      exists (String c1 (String c2 (String c3 l))). rewrite El.
      split; [simpl; now rewrite <- Hl|].
      apply all_space_lstrip. simpl. rewrite E1, E2, E3. now apply all_space_lstrip.
    + exists "". rewrite El. auto.
Qed.

Lemma lstrip_spec (a : string) :
  exists l, a = l ++ Py.lstrip a /\ all_space l = true.
Proof. exact (lstrip_spec_bounded (String.length a) a (le_n _)). Qed.

Lemma rstrip_step (c : ascii) (rest : string) :
  Py.rstrip (String c rest)
  = if Py.blank (String c rest) then "" else String c (Py.rstrip rest).
Proof. reflexivity. Qed.

Lemma rstrip_spec (a : string) :
  exists r, a = Py.rstrip a ++ r /\ all_space r = true.
Proof.
  induction a as [|c a (r & Hr & Hs)]; [now exists ""|].
  rewrite rstrip_step. destruct (Py.blank (String c a)) eqn:Eb.
  - now exists (String c a).
  - exists r. simpl. now rewrite <- Hr.
Qed.

Lemma lstrip_spaces_bounded (n : nat) :
  forall l x, String.length l <= n ->
  all_space l = true -> Py.lstrip (l ++ x) = Py.lstrip x.
Proof.
  induction n as [|n IH]; intros l x Hn Hs.
  - destruct l; [reflexivity | simpl in Hn; lia].
  - apply all_space_lstrip in Hs.
    destruct (lstrip_cases l)
      as [-> | [(c1 & s1 & -> & E1 & El)
             | [(c1 & c2 & s2 & -> & E1 & E2 & El)
               | [(c1 & c2 & c3 & s3 & -> & E1 & E2 & E3 & El) | [Hne El]]]]].
    + reflexivity.
    + rewrite El in Hs. simpl. rewrite E1.
      apply IH; [simpl in Hn; lia | now apply all_space_lstrip].
    + rewrite El in Hs. simpl. rewrite E1, E2.
      apply IH; [simpl in Hn; lia | now apply all_space_lstrip].
    + rewrite El in Hs. simpl. rewrite E1, E2, E3.
      apply IH; [simpl in Hn; lia | now apply all_space_lstrip].
    + rewrite El in Hs. contradiction.
Qed.

Lemma lstrip_spaces (l x : string) :
  all_space l = true -> Py.lstrip (l ++ x) = Py.lstrip x.
Proof. exact (lstrip_spaces_bounded (String.length l) l x (le_n _)). Qed.

Lemma rstrip_spaces (r : string) : all_space r = true -> Py.rstrip r = "".
Proof.
  destruct r as [|c r]; [reflexivity|]. intros H. rewrite rstrip_step.
  unfold all_space in H. now rewrite H.
Qed.

(** A letter [c] of the ASCII range that is no white space, before a blank
    tail: nothing is stripped but the tail. *)
Lemma strip_letter (c : ascii) (r : string) :
  (nat_of_ascii c < 128)%nat -> Py.is_space c = false ->
  all_space r = true ->
  Py.rstrip (Py.lstrip (String c r)) = String c "".
Proof.
  intros Hc Es Hr.
  assert (E2 : forall c2, Py.space2 c c2 = false).
  { intros c2. unfold Py.space2.
    destruct (Nat.eqb_spec (nat_of_ascii c) 194); [lia | reflexivity]. }
  assert (E3 : forall c2 c3, Py.space3 c c2 c3 = false).
  { intros c2 c3. unfold Py.space3.
    destruct (Nat.eqb_spec (nat_of_ascii c) 225); [lia|].
    destruct (Nat.eqb_spec (nat_of_ascii c) 226); [lia|].
    destruct (Nat.eqb_spec (nat_of_ascii c) 227); [lia | reflexivity]. }
  assert (El : Py.lstrip (String c r) = String c r).
  { simpl. rewrite Es. destruct r as [|c2 [|c3 s3]]; try reflexivity;
      rewrite E2; try reflexivity. now rewrite E3. }
  rewrite El, rstrip_step. unfold Py.blank. rewrite El.
  now rewrite (rstrip_spaces _ Hr).
Qed.

Lemma lower_is_q (x : string) : Py.lower x = "q" <-> x = "q" \/ x = "Q".
Proof.
  split.
  - destruct x as [|c [|c' x]]; simpl; try discriminate.
    intros [= H]. revert H.
    destruct c as [[] [] [] [] [] [] [] []]; vm_compute; intros H;
      first [discriminate H | now left | now right].
  - intros [-> | ->]; reflexivity.
Qed.

(** The answers that stop the scan: ["q"] or ["Q"] with any white space
    around it. *)
Lemma stop_token_answers (a : string) :
  Py.lower (Py.strip a) = "q" <->
  exists l c r,
    a = l ++ c ++ r /\ (c = "q" \/ c = "Q") /\
    all_space l = true /\ all_space r = true.
Proof.
  rewrite lower_is_q. unfold Py.strip. split.
  - intros H.
    destruct (lstrip_spec a) as (l & Hl & Hls).
    destruct (rstrip_spec (Py.lstrip a)) as (r & Hr & Hrs).
    exists l, (Py.rstrip (Py.lstrip a)), r. rewrite <- Hr. auto.
  - intros (l & c & r & -> & Hc & Hl & Hr).
    rewrite (lstrip_spaces _ _ Hl).
    destruct Hc as [-> | ->];
      [left | right];
      (apply (strip_letter _ r);
       [apply Nat.ltb_lt; reflexivity | reflexivity | exact Hr]).
Qed.

(** ** The scheduler *)

Local Open Scope list_scope.

Lemma cons_split {A} (x y : A) (l pre post : list A) :
  x :: l = pre ++ y :: post ->
  (pre = [] /\ x = y /\ l = post) \/
  (exists pre', pre = x :: pre' /\ l = pre' ++ y :: post).
Proof.
  destruct pre as [|z pre]; simpl; intros [= -> ->]; [left; auto | right; eauto].
Qed.

Lemma app_split {A} (y : A) (l1 l2 pre post : list A) :
  l1 ++ l2 = pre ++ y :: post ->
  (exists post1, l1 = pre ++ y :: post1 /\ post = post1 ++ l2) \/
  (exists pre2, pre = l1 ++ pre2 /\ l2 = pre2 ++ y :: post).
Proof.
  revert pre; induction l1 as [|x l1 IH]; intros pre H; simpl in H.
  - right. now exists pre.
  - apply cons_split in H. destruct H as [(-> & -> & <-) | (pre' & -> & H)].
    + left. now exists l1.
    + destruct (IH _ H) as [(post1 & -> & ->) | (pre2 & -> & ->)].
      * left. now exists post1.
      * right. now exists pre2.
Qed.

(** [main] with an empty pool raises before the loop; with workers it is the
    loop. *)
Lemma main_cases (repr : Py.value -> string) (cfg : config)
    (network : nat -> NovaClient.http_reply) (operator : nat -> option string)
    (rounds : nat) :
  (CONCURRENT_WORKERS cfg = 0 /\
   Scheduler.main repr cfg network operator rounds
   = ([], Some (Scheduler.Crashed Py.ValueError))) \/
  (0 < CONCURRENT_WORKERS cfg /\
   Scheduler.main repr cfg network operator rounds
   = Scheduler.batches repr cfg network operator rounds Scheduler.initial).
Proof.
  unfold Scheduler.main.
  destruct (Nat.eqb_spec (CONCURRENT_WORKERS cfg) 0) as [E|E];
    [left; auto | right; split; [lia | reflexivity]].
Qed.

Lemma no_gate_in_nil (A : Type) (y : A) (pre post : list A) :
  [] = pre ++ y :: post -> False.
Proof. intros H. now apply app_cons_not_nil in H. Qed.

Section SchedulerFacts.
Variable repr : Py.value -> string.
Variable cfg : config.
Variable network : nat -> NovaClient.http_reply.
Variable operator : nat -> option string.

Import Scheduler.

Local Abbreviation consume := (Scheduler.consume operator).
Local Abbreviation collect := (Scheduler.collect repr cfg network operator).
Local Abbreviation batches := (Scheduler.batches repr cfg network operator).
Local Abbreviation result_of n := (Worker.worker_task repr cfg (network n)).
Local Abbreviation gate_at := (gate_at repr cfg network).

Lemma resume_restores (st : state) :
  allow_printing st = true -> set_printing true (set_printing false st) = st.
Proof. destruct st as [t c p]; simpl; now intros ->. Qed.

Lemma eq_str_true (v : Py.value) (s : string) :
  Py.eq_str v s = true -> v = Py.VStr s.
Proof.
  destruct v; simpl; try discriminate. intros H. apply String.eqb_eq in H. now subst.
Qed.

(** One result consumed while printing is allowed: the progress line, then
    nothing more, a crash, or the pause. *)
Lemma consume_cases (result : Py.value) (st : state) :
  allow_printing st = true ->
  let st1 := count st in
  let g := set_printing false st1 in
  let p := (st1, Progress (total_attempts st1) (completed_in_batch st1)) in
  (consume result st = ([p], st1, None)) \/
  (exists st' e, consume result st = ([p], st', Some (Crashed e))) \/
  (Py.getitem_str result "status" = inr (Py.VStr "FOUND") /\
   exists number reason response,
     let shown := (g, ShowMatch number reason response) in
     match operator (total_attempts st1) with
     | None =>
         consume result st = ([p; shown; (g, Input None)], g, Some (Crashed Py.EOFError))
     | Some a =>
         if Py.lower (Py.strip a) =? "q"
         then consume result st
              = ([p; shown; (g, Input (Some a)); (g, Shutdown); (g, Exit 0)],
                 g, Some (Exited 0))
         else consume result st
              = ([p; shown; (g, Input (Some a)); (st1, Resume)], st1, None)
     end).
Proof.
  intros Hp st1 g p. unfold consume, Scheduler.consume. fold st1.
  assert (Hp1 : allow_printing st1 = true) by exact Hp.
  rewrite Hp1. fold p.
  destruct (Py.getitem_str result "status") as [e|status] eqn:Es.
  { right. left. now exists st1, e. }
  destruct (Py.eq_str status "FOUND") eqn:Ef; [|now left].
  apply eq_str_true in Ef. subst status.
  unfold gate. fold g.
  destruct (match_fields result) as [e|[[number reason] response]].
  { right. left. now exists g, e. }
  right. right. split; [reflexivity|]. exists number, reason, response.
  change (total_attempts g) with (total_attempts st1).
  destruct (operator (total_attempts st1)) as [a|]; [|reflexivity].
  destruct (Py.lower (Py.strip a) =? "q"); [reflexivity|].
  unfold g. now rewrite (resume_restores st1 Hp1).
Qed.

Lemma collect_head (pending : nat) (st : state) :
  allow_printing st = true ->
  exists rest,
    fst (fst (collect (S pending) st))
    = (count st, Progress (S (total_attempts st)) (S (completed_in_batch st))) :: rest.
Proof.
  intros Hp. simpl.
  destruct (consume_cases (result_of (S (total_attempts st))) st Hp)
    as [E | [(st2 & e & E) | (_ & n & r & resp & E)]].
  - rewrite E. destruct (collect pending (count st)) as [[tr' st''] h']. simpl. eauto.
  - rewrite E. simpl. eauto.
  - cbv zeta in E. destruct (operator (total_attempts (count st))) as [a|].
    + destruct (Py.lower (Py.strip a) =? "q").
      * rewrite E. simpl. eauto.
      * rewrite E. destruct (collect pending (count st)) as [[tr' st''] h']. simpl. eauto.
    + rewrite E. simpl. eauto.
Qed.

Lemma gate_at_later (total completed pending : nat) (s : state)
    (ans : option string) (post : trace) (h : option halt) :
  gate_at (S total) (S completed) pending s ans post h ->
  gate_at total completed (S pending) s ans post h.
Proof.
  intros (j & Hj & Ht & Hc & Hp & Hf & Hr & Hn).
  exists (S j). repeat split; try assumption; try lia.
  intros post' E Hlt. apply (Hn post' E). lia.
Qed.

Ltac split_head H :=
  apply cons_split in H;
  destruct H as [(-> & H & <-) | (? & -> & H)];
  [try discriminate H|].

(** The [for] loop over a batch. *)
Lemma collect_spec (pending : nat) :
  forall st tr st' h,
    allow_printing st = true ->
    collect pending st = (tr, st', h) ->
    (h = None ->
     total_attempts st' = total_attempts st + pending /\
     completed_in_batch st' = completed_in_batch st + pending /\
     allow_printing st' = true) /\
    (forall s n, ~ In (s, Submit n) tr) /\
    (forall pre s ans post,
        tr = pre ++ (s, Input ans) :: post ->
        gate_at (total_attempts st) (completed_in_batch st) pending s ans post h).
Proof.
  induction pending as [|pending IH]; intros st tr st' h Hp E.
  - simpl in E. injection E as <- <- <-.
    split; [intros _; repeat split; auto; lia|].
    split; [intros s n []|].
    intros pre s ans post H. destruct (no_gate_in_nil _ _ _ _ H).
  - simpl in E.
    destruct (consume_cases (result_of (S (total_attempts st))) st Hp)
      as [C | [(st2 & e & C) | (Hfound & number & reason & response & C)]].
    + rewrite C in E.
      destruct (collect pending (count st)) as [[tr' st''] h'] eqn:E'.
      injection E as <- <- <-.
      destruct (IH (count st) _ _ _ Hp E') as (Hend & Hsub & Hgate).
      split; [intros Hh; destruct (Hend Hh) as (? & ? & ?); simpl in *;
              repeat split; auto; lia|].
      split.
      * intros s n [H|H]; [discriminate | now apply (Hsub s n)].
      * intros pre s ans post H. simpl in H. split_head H.
        apply gate_at_later. exact (Hgate _ _ _ _ H).
    + rewrite C in E. injection E as <- <- <-.
      split; [discriminate|]. split.
      * intros s n [H|[]]; discriminate.
      * intros pre s ans post H. split_head H.
        destruct (no_gate_in_nil _ _ _ _ H).
    + cbv zeta in C.
      destruct (operator (total_attempts (count st))) as [a|] eqn:Eo.
      * destruct (Py.lower (Py.strip a) =? "q") eqn:Eq.
        -- rewrite C in E. injection E as <- <- <-.
           split; [discriminate|]. split.
           ++ intros s n [H|[H|[H|[H|[H|[]]]]]]; discriminate.
           ++ intros pre s ans post H.
              split_head H. split_head H. split_head H.
              ** injection H as <- <-. exists 0.
                 repeat split; simpl; try lia; try exact Hfound.
                 --- now rewrite Eq.
                 --- discriminate.
              ** split_head H. split_head H.
                 destruct (no_gate_in_nil _ _ _ _ H).
        -- rewrite C in E.
           destruct (collect pending (count st)) as [[tr' st''] h'] eqn:E'.
           injection E as <- <- <-.
           destruct (IH (count st) _ _ _ Hp E') as (Hend & Hsub & Hgate).
           split; [intros Hh; destruct (Hend Hh) as (? & ? & ?); simpl in *;
                   repeat split; auto; lia|].
           split.
           ++ intros s n [H|[H|[H|[H|H]]]]; try discriminate. now apply (Hsub s n).
           ++ intros pre s ans post H. simpl in H.
              split_head H. split_head H. split_head H.
              ** injection H as <- <-. exists 0.
                 repeat split; simpl; try lia; try exact Hfound.
                 --- rewrite Eq. rewrite (resume_restores (count st) Hp). eauto.
                 --- intros post' Hpost Hlt. injection Hpost as _ <-.
                     destruct pending as [|pending']; [lia|].
                     destruct (collect_head pending' (count st) Hp) as [rest Hr].
                     rewrite E' in Hr. simpl in Hr. eauto.
              ** split_head H. apply gate_at_later. exact (Hgate _ _ _ _ H).
      * rewrite C in E. injection E as <- <- <-.
        split; [discriminate|]. split.
        -- intros s n [H|[H|[H|[]]]]; discriminate.
        -- intros pre s ans post H.
           split_head H. split_head H. split_head H.
           ++ injection H as <- <-. exists 0.
              repeat split; simpl; try lia; try exact Hfound. discriminate.
           ++ destruct (no_gate_in_nil _ _ _ _ H).
Qed.

Lemma resolved_running (s : state) (ans : option string) (post : trace) :
  resolved s ans post None ->
  exists a post',
    ans = Some a /\ Py.lower (Py.strip a) <> "q" /\
    post = (set_printing true s, Resume) :: post'.
Proof.
  unfold resolved. destruct ans as [a|]; [|intros [_ H]; discriminate].
  destruct (Py.lower (Py.strip a) =? "q")%string eqn:E; [intros [_ H]; discriminate|].
  intros [post' ->]. apply String.eqb_neq in E. now exists a, post'.
Qed.

(** A pause after which the batch went on stays what it was when the trace
    grows at its end. *)
Lemma gate_at_extend (total completed pending : nat) (s : state)
    (ans : option string) (post more : trace) (h : option halt) :
  gate_at total completed pending s ans post None ->
  gate_at total completed pending s ans (post ++ more) h.
Proof.
  intros (j & Hj & Ht & Hc & Hp & Hf & Hr & Hn).
  destruct (resolved_running _ _ _ Hr) as (a & post' & -> & Ha & ->).
  exists j. repeat split; try assumption.
  - simpl. apply String.eqb_neq in Ha. rewrite Ha. eauto.
  - intros post'' E Hlt. simpl in E. injection E as <-.
    destruct (Hn post' eq_refl Hlt) as (s' & rest & ->). simpl. eauto.
Qed.

(** The [while] loop: every prompt of the trace belongs to one batch. *)
Lemma batches_spec (rounds : nat) :
  forall st tr h,
    allow_printing st = true ->
    batches rounds st = (tr, h) ->
    forall pre s ans post,
      tr = pre ++ (s, Input ans) :: post ->
      exists r,
        r < rounds /\
        gate_at (total_attempts st + CONCURRENT_WORKERS cfg * r) 0
                (CONCURRENT_WORKERS cfg) s ans post h.
Proof.
  induction rounds as [|rounds IH]; intros st tr h Hp E pre s ans post H.
  - simpl in E. injection E as <- <-. destruct (no_gate_in_nil _ _ _ _ H).
  - simpl in E.
    destruct (collect (CONCURRENT_WORKERS cfg) (new_batch st))
      as [[tr1 st1] h1] eqn:E1.
    destruct (collect_spec _ (new_batch st) _ _ _ Hp E1) as (Hend & _ & Hgate).
    simpl in Hgate.
    destruct h1 as [h1|].
    + injection E as <- <-. split_head H.
      exists 0. split; [lia|].
      replace (total_attempts st + CONCURRENT_WORKERS cfg * 0)
        with (total_attempts st) by lia.
      exact (Hgate _ _ _ _ H).
    + destruct (batches rounds st1) as [tr2 h2] eqn:E2.
      injection E as <- <-. split_head H.
      apply app_split in H.
      destruct H as [(post1 & H1 & ->) | (pre2 & -> & H2)].
      * exists 0. split; [lia|].
        replace (total_attempts st + CONCURRENT_WORKERS cfg * 0)
          with (total_attempts st) by lia.
        apply gate_at_extend. exact (Hgate _ _ _ _ H1).
      * split_head H2.
        destruct (Hend eq_refl) as (Ht & _ & Hp1). simpl in Ht.
        destruct (IH st1 _ _ Hp1 E2 _ _ _ _ H2) as (r & Hr & Hg).
        exists (S r). split; [lia|].
        replace (total_attempts st + CONCURRENT_WORKERS cfg * S r)
          with (total_attempts st1 + CONCURRENT_WORKERS cfg * r) by lia.
        exact Hg.
Qed.



End SchedulerFacts.

(** ** The claims on concrete executions *)

Local Open Scope string_scope.

Example strip_lower_samples :
  Py.strip "  q " = "q" /\ Py.lower "Q" = "q" /\ Py.strip " a b " = "a b" /\
  Py.lower (Py.strip "") = "" /\ Py.lower (Py.strip "quit") = "quit".
Proof. repeat split. Qed.

(** White space beyond ASCII is stripped as well: a no-break space (U+00A0)
    before the token, an ideographic space (U+3000) after it. *)
Example strip_unicode_samples :
  Py.strip (String (ascii_of_nat 194) (String (ascii_of_nat 160) "q")) = "q" /\
  Py.strip ("Q" ++ String (ascii_of_nat 227)
                     (String (ascii_of_nat 128) (String (ascii_of_nat 128) "")))
  = "Q" /\
  Py.strip (String (ascii_of_nat 194) (String (ascii_of_nat 161) "q"))
  = String (ascii_of_nat 194) (String (ascii_of_nat 161) "q").
Proof. repeat split. Qed.

Example classify_samples (repr : Py.value -> string) :
  Rules.check_number_rules repr default_config (Py.VStr "88812345")
  = (true, Rules.reason_custom "888") /\
  Rules.check_number_rules repr default_config (Py.VStr "77771234")
  = (true, Rules.reason_a4) /\
  Rules.check_number_rules repr (with_toggles default_config false false false false)
    (Py.VStr "12345")
  = (true, Rules.reason_forward5 "12345") /\
  Rules.check_number_rules repr default_config (Py.VStr "13579")
  = (false, Rules.reason_ordinary) /\
  Rules.check_number_rules repr default_config (Py.VStr "")
  = (false, Rules.reason_empty) /\
  Rules.check_number_rules repr default_config Py.VNone
  = (false, Rules.reason_empty).
Proof. repeat split. Qed.

(** The corner that C1 leaves out: with the empty string as a target, the
    empty candidate contains a target and is still "empty". *)
Remark empty_candidate_before_targets (repr : Py.value -> string) :
  occurs "" "" /\
  Rules.check_number_rules repr
    {| CONCURRENT_WORKERS := 100; BATCH_DELAY := 2;
       ENABLE_A4 := true; ENABLE_A3 := true; ENABLE_ABC := false;
       ENABLE_ABCD := true; CUSTOM_TARGETS := [""] |} (Py.VStr "")
  = (false, Rules.reason_empty).
Proof. split; [now exists "", "" | reflexivity]. Qed.

Lemma default_no_target (s : string) :
  forallb (fun t => negb (Py.str_in t s)) (CUSTOM_TARGETS default_config) = true ->
  no_target default_config s.
Proof.
  intros H t Ht. rewrite forallb_forall in H. specialize (H t Ht).
  apply negb_true_iff in H. now apply str_in_false.
Qed.

Lemma literal_target_first_witness :
  Rules.check_number_rules repr_stub default_config (Py.VStr "88812345")
  = (true, Rules.reason_custom "888").
Proof.
  destruct (literal_target_first repr_stub default_config "88812345")
    as (before & t & after & Hl & Ho & Hb & _ & Hc).
  - left. discriminate.
  - exists "888". split; [simpl; auto | now exists "", "12345"].
  - destruct before as [|b before]; simpl in Hl.
    + injection Hl as <- _. exact (Hc true true false true).
    + injection Hl as <- _. destruct (Hb "888"); [now left | now exists "", "12345"].
Defined.

Lemma five_run_unconditional_witness :
  fst (Rules.check_number_rules repr_stub
         (with_toggles default_config false false false false) (Py.VStr "12345"))
  = true.
Proof.
  apply (five_run_unconditional repr_stub default_config "12345" "12345").
  - split; [reflexivity | left; now exists "0", "6789"].
  - now exists "", "".
Defined.

Lemma four_run_matches_witness :
  Rules.check_number_rules repr_stub default_config (Py.VStr "77771234")
  = (true, Rules.reason_a4).
Proof.
  apply (four_run_matches repr_stub default_config "77771234").
  - reflexivity.
  - exists "7"%char. split; [reflexivity | now exists "", "1234"].
  - apply default_no_target. reflexivity.
Defined.

Lemma three_run_toggle_witness :
  fst (Rules.check_number_rules repr_stub (with_a3 default_config true)
         (Py.VStr "72225")) = true /\
  fst (Rules.check_number_rules repr_stub (with_a3 default_config false)
         (Py.VStr "72225")) = false.
Proof.
  apply (three_run_toggle repr_stub default_config "72225").
  - reflexivity.
  - exists "2"%char. split; [reflexivity | now exists "7", "5"].
  - apply (re_search_run_false 3). reflexivity.
  - apply default_no_target. reflexivity.
  - intros k w He [Hl Hw]. destruct He as [-> | [[-> _] | [_ He]]]; [| |discriminate].
    + destruct Hw as [Hw|Hw]; revert w Hl Hw;
        apply first_window_none; try lia; reflexivity.
    + destruct Hw as [Hw|Hw]; revert w Hl Hw;
        apply first_window_none; try lia; reflexivity.
Defined.

Lemma no_match_two_cases_witness :
  ((Py.truthy (Py.VStr "13579") = false /\
    Rules.reason_ordinary = Rules.reason_empty) \/
   (Py.truthy (Py.VStr "13579") = true /\
    (forall r, ~ applies default_config (Py.str repr_stub (Py.VStr "13579")) r) /\
    Rules.reason_ordinary = Rules.reason_ordinary)) /\
  Rules.check_number_rules repr_stub default_config Py.VNone
  = (false, Rules.reason_empty) /\
  Rules.check_number_rules repr_stub
    (with_toggles default_config false false false false) (Py.VStr "1234")
  = (false, Rules.reason_ordinary).
Proof.
  split; [|split].
  - apply (proj1 (no_match_two_cases repr_stub default_config (Py.VStr "13579")
                    Rules.reason_ordinary)).
    reflexivity.
  - apply (proj1 (proj2 (no_match_two_cases repr_stub default_config Py.VNone ""))).
    reflexivity.
  - apply (proj2 (proj2 (no_match_two_cases repr_stub
                           (with_toggles default_config false false false false)
                           (Py.VStr "1234") ""))); try reflexivity.
    intros r Ha.
    assert (Hm : fst (Rules.check_number_rules repr_stub
                        (with_toggles default_config false false false false)
                        (Py.VStr "1234")) = false) by reflexivity.
    destruct (fired_matches repr_stub _ (Py.VStr "1234") r eq_refl Ha)
      as (r' & _ & _ & E).
    rewrite E in Hm. discriminate.
Defined.

Lemma match_reason_identifies_rule_witness :
  exists r,
    Rules.reason_forward5 "12345" = reason_of r /\
    (forall r', reason_of r' = Rules.reason_forward5 "12345" -> r' = r) /\
    (forall r', rank r' < rank r -> ~ applies default_config "5812345" r') /\
    (r = Run4 -> ENABLE_A4 default_config = true) /\
    (r = Run3 -> ENABLE_A3 default_config = true) /\
    (ascii_only "5812345" = true \/ (r <> Run4 /\ r <> Run3) ->
     fired default_config "5812345" r) /\
    (forall d k w, r = Sequence d k w ->
       String.length w = digits k /\ occurs w (sequence_of d) /\
       occurs w (Rules.reason_forward5 "12345") /\ occurs w "5812345").
Proof.
  apply (match_reason_identifies_rule repr_stub default_config (Py.VStr "5812345")).
  reflexivity.
Defined.

Lemma worker_task_total_witness :
  Worker.worker_task_try repr_stub default_config
    (NovaClient.Response 200 (Some (Py.VStr "no data")))
  = inl Py.TypeError /\
  Worker.worker_task repr_stub default_config
    (NovaClient.Response 200 (Some (Py.VStr "no data")))
  = Worker.error.
Proof.
  split; [reflexivity|].
  apply (proj2 (worker_task_total repr_stub default_config _) Py.TypeError).
  reflexivity.
Defined.

Lemma no_match_and_no_candidate_alike_witness :
  Worker.worker_task repr_stub default_config (available "5813579") = Worker.retry /\
  Worker.worker_task repr_stub default_config (NovaClient.NoResponse Py.Timeout)
  = Worker.retry.
Proof.
  eapply (no_match_and_no_candidate_alike repr_stub default_config
            (available "5813579") (NovaClient.NoResponse Py.Timeout)).
  - reflexivity.
  - reflexivity.
  - reflexivity.
  - left. exists Py.Timeout. reflexivity.
Defined.

Local Open Scope list_scope.

Example run10_enter :
  fst (run10 operator_enter)
  = firstn 6 (fst (run10 operator_enter))
    ++ (gate4, Scheduler.Input (Some ""%string)) :: skipn 7 (fst (run10 operator_enter))
  /\ snd (run10 operator_enter) = None
  /\ List.length (fst (run10 operator_enter)) = 15.
Proof. vm_compute. repeat split. Qed.




(** ** Further properties of the rule engine *)

Local Open Scope string_scope.

Lemma occurs_trans (t s s' : string) : occurs t s -> occurs s s' -> occurs t s'.
Proof.
  intros (b1 & a1 & ->) (b2 & a2 & ->).
  exists (b2 ++ b1), (a1 ++ a2). now rewrite !append_assoc.
Qed.

Lemma occurs_length (t s : string) :
  occurs t s -> String.length t <= String.length s.
Proof. intros (b & a & ->). rewrite !append_length. lia. Qed.

Lemma run_length (c : ascii) (n : nat) : String.length (run c n) = n.
Proof. induction n as [|n IH]; simpl; [reflexivity | now rewrite IH]. Qed.

(** A truthy candidate is a match exactly when some rule applies to it. *)
Lemma matched_iff_applies (repr : Py.value -> string) (cfg : config) (v : Py.value) :
  Py.truthy v = true ->
  fst (Rules.check_number_rules repr cfg v) = true <->
  exists r, applies cfg (Py.str repr v) r.
Proof.
  intros Hv.
  destruct (check_number_rules_cases repr cfg v Hv) as [(r & [Ha _] & ->) | [Hnone ->]];
    simpl; split; try discriminate; try reflexivity.
  - intros _. now exists r.
  - intros [r Ha]. now destruct (Hnone r).
Qed.

Lemma matched_truthy (repr : Py.value -> string) (cfg : config) (v : Py.value) :
  fst (Rules.check_number_rules repr cfg v) = true -> Py.truthy v = true.
Proof.
  unfold Rules.check_number_rules. destruct (Py.truthy v); [reflexivity | discriminate].
Qed.

Lemma applies_extends (cfg cfg' : config) (s : string) (r : rule) :
  extends cfg cfg' -> applies cfg s r -> applies cfg' s r.
Proof.
  intros (H4 & H3 & Habc & Habcd & Ht). destruct r as [t| | |d k w]; simpl.
  - intros [Hin Ho]. split; [now apply Ht | exact Ho].
  - intros [On Hr]. auto.
  - intros [On Hr]. auto.
  - intros (He & Hrest). split; [|exact Hrest].
    destruct He as [He | [[He On] | [He On]]];
      [now left | right; left; auto | right; right; auto].
Qed.

Lemma applies_superstring (cfg : config) (s s' : string) (r : rule) :
  occurs s s' -> applies cfg s r -> applies cfg s' r.
Proof.
  intros Hs. destruct r as [t| | |d k w]; simpl.
  - intros [Hin Ho]. split; [exact Hin | now apply (occurs_trans t s)].
  - intros [On (c & Hd & Ho)]. split; [exact On|].
    exists c. split; [exact Hd | now apply (occurs_trans _ s)].
  - intros [On (c & Hd & Ho)]. split; [exact On|].
    exists c. split; [exact Hd | now apply (occurs_trans _ s)].
  - intros (He & Hl & Ho & Hw). repeat split; try assumption.
    now apply (occurs_trans w s).
Qed.

(** X1. Switching rules on and adding literal targets never loses a match. *)
Theorem more_rules_keep_matches (repr : Py.value -> string) (cfg cfg' : config)
    (v : Py.value) :
  extends cfg cfg' ->
  fst (Rules.check_number_rules repr cfg v) = true ->
  fst (Rules.check_number_rules repr cfg' v) = true.
Proof.
  intros He Hm. pose proof (matched_truthy _ _ _ Hm) as Hv.
  apply (matched_iff_applies repr cfg v Hv) in Hm. destruct Hm as [r Ha].
  apply (matched_iff_applies repr cfg' v Hv). exists r.
  now apply (applies_extends cfg).
Qed.

(** X2. Every rule looks for a pattern somewhere in the number: a string in
    which a matching string occurs is a match too. *)
Theorem superstring_matches (repr : Py.value -> string) (cfg : config) (s s' : string) :
  occurs s s' ->
  fst (Rules.check_number_rules repr cfg (Py.VStr s)) = true ->
  fst (Rules.check_number_rules repr cfg (Py.VStr s')) = true.
Proof.
  intros Ho Hm. pose proof (matched_truthy _ _ _ Hm) as Hv.
  assert (Hv' : Py.truthy (Py.VStr s') = true).
  { apply truthy_str. apply truthy_str in Hv. intros ->.
    apply occurs_empty in Ho. contradiction. }
  apply (matched_iff_applies repr cfg _ Hv) in Hm. destruct Hm as [r Ha].
  apply (matched_iff_applies repr cfg _ Hv'). exists r.
  now apply (applies_superstring cfg s).
Qed.

(** X3. Apart from the literal targets, a match needs three characters, and
    four when the two rules of width three are off. *)
Theorem structural_match_length (repr : Py.value -> string) (cfg : config) (s : string) :
  fst (Rules.check_number_rules repr cfg (Py.VStr s)) = true ->
  no_target cfg s ->
  3 <= String.length s /\
  (ENABLE_A3 cfg = false -> ENABLE_ABC cfg = false -> 4 <= String.length s).
Proof.
  intros Hm Hnt. pose proof (matched_truthy _ _ _ Hm) as Hv.
  apply (matched_iff_applies repr cfg _ Hv) in Hm. destruct Hm as [r Ha].
  simpl Py.str in Ha. destruct r as [t| | |d k w]; simpl in Ha.
  - destruct Ha as [Hin Ho]. now destruct (Hnt t Hin).
  - destruct Ha as [_ (c & _ & Ho)]. apply occurs_length in Ho.
    rewrite run_length in Ho. lia.
  - destruct Ha as [On (c & _ & Ho)]. apply occurs_length in Ho.
    rewrite run_length in Ho. split; [lia | intros Off; congruence].
  - destruct Ha as (He & Hl & _ & Ho). apply occurs_length in Ho. rewrite Hl in Ho.
    split; [destruct k; simpl in *; lia|].
    intros _ Off. destruct k; simpl in *; try lia.
    destruct He as [He | [[He _] | [_ On]]]; try discriminate; congruence.
Qed.

Lemma sequence_chars_digits (d : direction) (c : ascii) :
  occurs (String c "") (sequence_of d) -> Py.is_digit c = true.
Proof.
  intros Ho.
  assert (Hin : In (String c "") (Rules.windows (sequence_of d) 1)).
  { apply windows_spec; [lia|]. now split. }
  destruct d; simpl in Hin;
    repeat (destruct Hin as [Hin|Hin]; [injection Hin as <-; reflexivity|]);
    destruct Hin.
Qed.

Lemma applies_has_digit (cfg : config) (s : string) (r : rule) :
  applies cfg s r ->
  (exists t, r = Literal t) \/
  exists c, Py.is_digit c = true /\ occurs (String c "") s.
Proof.
  destruct r as [t| | |d k w]; simpl.
  - intros _. left. now exists t.
  - intros [_ (c & Hd & Ho)]. right. exists c. split; [exact Hd|].
    apply (occurs_trans _ (run c 4)); [now exists "", (run c 3) | exact Ho].
  - intros [_ (c & Hd & Ho)]. right. exists c. split; [exact Hd|].
    apply (occurs_trans _ (run c 3)); [now exists "", (run c 2) | exact Ho].
  - intros (_ & Hl & Hseq & Ho). right.
    destruct w as [|c w]; [destruct k; discriminate|].
    assert (Hc : occurs (String c "") (String c w)) by now exists "", w.
    exists c. split.
    + apply (sequence_chars_digits d). now apply (occurs_trans _ (String c w)).
    + now apply (occurs_trans _ (String c w)).
Qed.

(** X4. A candidate whose text is of the ASCII range and without a digit
    (the [str] of a JSON [true], say) is a match only through a literal
    target. *)
Theorem no_digit_no_structural_match (repr : Py.value -> string) (cfg : config)
    (v : Py.value) :
  ascii_only (Py.str repr v) = true ->
  digit_free (Py.str repr v) -> no_target cfg (Py.str repr v) ->
  fst (Rules.check_number_rules repr cfg v) = false.
Proof.
  intros _ Hdf Hnt.
  destruct (fst (Rules.check_number_rules repr cfg v)) eqn:Hm; [|reflexivity].
  pose proof (matched_truthy _ _ _ Hm) as Hv.
  apply (matched_iff_applies repr cfg _ Hv) in Hm. destruct Hm as [r Ha].
  destruct (applies_has_digit _ _ _ Ha) as [[t ->] | (c & Hd & Ho)].
  - destruct Ha as [Hin Ho]. now destruct (Hnt t Hin).
  - rewrite (Hdf c Ho) in Hd. discriminate.
Qed.

Lemma no_digit_no_structural_match_witness :
  fst (Rules.check_number_rules repr_stub default_config (Py.VBool true)) = false.
Proof.
  apply no_digit_no_structural_match.
  - reflexivity.
  - intros c Ho. apply str_in_spec in Ho. simpl in Ho.
    rewrite !orb_false_r in Ho. rewrite !andb_true_r in Ho.
    repeat (apply orb_true_iff in Ho; destruct Ho as [Ho|Ho]);
      apply Ascii.eqb_eq in Ho; now subst.
  - apply default_no_target. reflexivity.
Defined.

Lemma init_of_four (w : string) :
  String.length w = 4 ->
  exists w3 c, w = w3 ++ String c "" /\ String.length w3 = 3.
Proof.
  destruct w as [|a [|b [|c [|d [|e w]]]]]; try discriminate. intros _.
  now exists (String a (String b (String c ""))), d.
Qed.

(** X5. The rules of width three cover those of width four: with the 3-run
    rule on, four equal digits in a row are a match whatever the 4-run
    toggle (reported as a 3-run when it is off and no literal target
    occurs), and with the 3-digit sequence rule on, an ascending or
    descending run of four is a match whatever the 4-digit toggle. *)
Theorem width_three_covers_width_four (repr : Py.value -> string) (cfg : config)
    (s : string) :
  (ENABLE_A3 cfg = true -> has_run 4 s ->
   fst (Rules.check_number_rules repr cfg (Py.VStr s)) = true /\
   (ENABLE_A4 cfg = false -> no_target cfg s ->
    Rules.check_number_rules repr cfg (Py.VStr s) = (true, Rules.reason_a3))) /\
  (ENABLE_ABC cfg = true -> forall w, step_run 4 w -> occurs w s ->
   fst (Rules.check_number_rules repr cfg (Py.VStr s)) = true).
Proof.
  split.
  - intros On Hr.
    pose proof (has_run_nonempty _ _ Hr) as Hne. apply truthy_str in Hne.
    assert (Ha : applies cfg s Run3) by (split; [exact On | now apply has_run_weaken]).
    destruct (fired_matches repr cfg (Py.VStr s) _ Hne Ha) as (r' & Hf & Hrank & E).
    rewrite E. split; [reflexivity|].
    intros Off Hnt. destruct r' as [t| | |[|] [| |] w]; simpl in Hrank; try lia.
    + destruct Hf as [[Hin Ho] _]. now destruct (Hnt t Hin).
    + destruct Hf as [[On4 _] _]. simpl in On4. congruence.
    + reflexivity.
  - intros On w [Hl Hseq] Ho.
    destruct (init_of_four w Hl) as (w3 & c & -> & Hl3).
    assert (H3 : occurs w3 (w3 ++ String c "")) by now exists "", (String c "").
    assert (Hne : Py.truthy (Py.VStr s) = true).
    { apply truthy_str. intros ->. apply occurs_empty in Ho.
      destruct w3; discriminate. }
    assert (Ha : exists d, applies cfg s (Sequence d W3 w3)).
    { destruct Hseq as [Hseq|Hseq]; [exists Forward | exists Backward];
        (split; [right; right; now split|]); repeat split; try assumption;
        try (now apply (occurs_trans w3 (w3 ++ String c ""))). }
    destruct Ha as [d Ha].
    apply (matched_iff_applies repr cfg _ Hne). eauto.
Qed.

Lemma width_three_covers_width_four_witness :
  Rules.check_number_rules repr_stub
    (with_toggles default_config false true false true) (Py.VStr "57777")
  = (true, Rules.reason_a3).
Proof.
  apply (width_three_covers_width_four repr_stub
           (with_toggles default_config false true false true) "57777").
  - reflexivity.
  - exists "7"%char. split; [reflexivity | now exists "5", ""].
  - reflexivity.
  - intros t Ht. apply str_in_false. simpl in Ht.
    repeat (destruct Ht as [<-|Ht]; [reflexivity|]). destruct Ht.
Defined.

(** ** Further properties of the client *)

Lemma raise_for_status_cases (st : Z) :
  (error_status st /\ NovaClient.raise_for_status st = inl Py.HTTPError) \/
  (~ error_status st /\ NovaClient.raise_for_status st = inr tt).
Proof.
  unfold NovaClient.raise_for_status, error_status.
  destruct (400 <=? st)%Z eqn:E1; destruct (st <? 600)%Z eqn:E2; simpl;
    try apply Z.leb_le in E1; try apply Z.leb_gt in E1;
    try apply Z.ltb_lt in E2; try apply Z.ltb_ge in E2;
    [left | right | right | right]; split; auto; lia.
Qed.

Lemma post_graphql_answer (reply : NovaClient.http_reply) (v : Py.value) :
  NovaClient.post_graphql reply = v -> v <> Py.VNone ->
  exists st, reply = NovaClient.Response st (Some v) /\ ~ error_status st.
Proof.
  unfold NovaClient.post_graphql, NovaClient.post_graphql_try.
  destruct reply as [e|st body]; simpl; [intros <- H; now destruct H|].
  destruct (raise_for_status_cases st) as [[Hs ->] | [Hs ->]]; simpl;
    [intros <- H; now destruct H|].
  destruct body as [v'|]; simpl; [|intros <- H; now destruct H].
  intros <- _. now exists st.
Qed.

(** X6. [post_graphql] answers [None] for every failure of the transport,
    every status code from 400 to 599 and every body that is not JSON, and
    also for a body that is the JSON [null]; in every other case it answers
    the decoded body, whatever the status code. *)
Theorem post_graphql_none (reply : NovaClient.http_reply) :
  (NovaClient.post_graphql reply = Py.VNone <->
   match reply with
   | NovaClient.NoResponse _ => True
   | NovaClient.Response st body =>
       error_status st \/ body = None \/ body = Some Py.VNone
   end) /\
  (forall v, NovaClient.post_graphql reply = v -> v <> Py.VNone ->
     exists st, reply = NovaClient.Response st (Some v) /\ ~ error_status st).
Proof.
  unfold NovaClient.post_graphql, NovaClient.post_graphql_try.
  destruct reply as [e|st body]; simpl.
  - split; [tauto|]. intros v <- H. now destruct H.
  - destruct (raise_for_status_cases st) as [[Hs ->] | [Hs ->]]; simpl.
    + split; [tauto|]. intros v <- H. now destruct H.
    + destruct body as [v|]; simpl.
      * split.
        -- split; [intros ->; auto|]. intros [H|[H|H]]; [tauto | discriminate | now injection H].
        -- intros v' <- _. now exists st.
      * split; [tauto|]. intros v <- H. now destruct H.
Qed.

Lemma bind_inl {A B} (m : Py.M A) (k : A -> Py.M B) (e : Py.exn) :
  Py.bind m k = inl e -> m = inl e \/ exists a, m = inr a /\ k a = inl e.
Proof. destruct m as [e'|a]; simpl; [intros [= ->]; now left | right; eauto]. Qed.

Lemma bind_inr {A B} (m : Py.M A) (k : A -> Py.M B) (b : B) :
  Py.bind m k = inr b -> exists a, m = inr a /\ k a = inr b.
Proof. destruct m as [e'|a]; simpl; [discriminate | eauto]. Qed.

Lemma contains_raises (k : string) (v : Py.value) (e : Py.exn) :
  Py.contains k v = inl e -> e = Py.TypeError.
Proof. destruct v; simpl; intros [= <-]; reflexivity. Qed.

Lemma getitem_str_raises (v : Py.value) (k : string) (e : Py.exn) :
  Py.getitem_str v k = inl e -> e = Py.TypeError \/ e = Py.KeyError.
Proof.
  destruct v as [|b|z|s|l|d]; simpl; try (intros [= <-]; now left).
  destruct (Py.dict_get k d); [discriminate | intros [= <-]; now right].
Qed.

Lemma len_raises (v : Py.value) (e : Py.exn) :
  Py.len v = inl e -> e = Py.TypeError.
Proof. destruct v; simpl; intros [= <-]; reflexivity. Qed.

(** The element [0] of a value that is truthy and has a length. *)
Lemma getitem_0_guarded (v : Py.value) (n : nat) (e : Py.exn) :
  Py.truthy v = true -> Py.len v = inr n -> Py.getitem_0 v = inl e ->
  e = Py.KeyError.
Proof.
  destruct v as [|b|z|s|l|d]; simpl; try discriminate.
  - destruct s; simpl; discriminate.
  - destruct l; simpl; discriminate.
  - intros _ _ [= <-]. reflexivity.
Qed.

Ltac bind_raises H :=
  apply bind_inl in H; destruct H as [H | (? & ? & H)].

(** X7. The only exceptions [search_single_number] lets out are [TypeError]
    and [KeyError]: the element [0] is read from a list or string known to
    be non-empty, and what the transport raises stays in [post_graphql]. *)
Theorem search_single_number_exceptions (reply : NovaClient.http_reply) (e : Py.exn) :
  NovaClient.search_single_number reply = inl e ->
  e = Py.TypeError \/ e = Py.KeyError.
Proof.
  unfold NovaClient.search_single_number.
  set (data := NovaClient.post_graphql reply). intros H.
  bind_raises H.
  - destruct (Py.truthy data); [|discriminate H].
    bind_raises H; [left; now apply (contains_raises _ _ _ H)|].
    destruct x; [|discriminate H].
    bind_raises H; [now apply (getitem_str_raises _ _ _ H)|].
    left. now apply (contains_raises _ _ _ H).
  - destruct x; [|discriminate H].
    bind_raises H; [now apply (getitem_str_raises _ _ _ H)|].
    bind_raises H; [now apply (getitem_str_raises _ _ _ H)|].
    bind_raises H.
    + destruct (Py.truthy x0); [|discriminate H].
      bind_raises H; [left; now apply (len_raises _ _ H) | discriminate H].
    + destruct x1; [|discriminate H].
      match goal with
      | E : (if Py.truthy ?v then _ else _) = inr true |- _ =>
          destruct (Py.truthy v) eqn:Ht; [|discriminate E];
          apply bind_inr in E; destruct E as (n & Hlen & _)
      end.
      bind_raises H; [right; now apply (getitem_0_guarded _ _ _ Ht Hlen H)|].
      bind_raises H; [now apply (getitem_str_raises _ _ _ H) | discriminate H].
Qed.

Lemma post_graphql_ok (st : Z) (v : Py.value) :
  ~ error_status st ->
  NovaClient.post_graphql (NovaClient.Response st (Some v)) = v.
Proof.
  intros Hs. unfold NovaClient.post_graphql, NovaClient.post_graphql_try.
  destruct (raise_for_status_cases st) as [[H _] | [_ ->]]; [contradiction | reflexivity].
Qed.

Lemma dict_get_truthy (k : string) (d : list (string * Py.value)) (v : Py.value) :
  Py.dict_get k d = Some v -> Py.truthy (Py.VDict d) = true.
Proof. destruct d; [discriminate | reflexivity]. Qed.

(** X8. From a document of the expected shape [search_single_number] takes
    the [phoneNumber] of the first element of the list and returns it with
    the whole document; the other elements play no part. *)
Theorem search_takes_first_number (st : Z) (d inner : list (string * Py.value))
    (first : Py.value) (rest : list Py.value) (number : Py.value) :
  ~ error_status st ->
  Py.dict_get "data" d = Some (Py.VDict inner) ->
  Py.dict_get "availablePhoneNumbers" inner = Some (Py.VList (first :: rest)) ->
  Py.getitem_str first "phoneNumber" = inr number ->
  NovaClient.search_single_number (NovaClient.Response st (Some (Py.VDict d)))
  = inr (number, Py.VDict d).
Proof.
  intros Hs Hd Hi Hn. unfold NovaClient.search_single_number.
  rewrite (post_graphql_ok st _ Hs), (dict_get_truthy _ _ _ Hd).
  simpl. rewrite Hd. simpl. rewrite Hi. simpl. rewrite Hn. reflexivity.
Qed.

(** X9. A document without the key ["data"], a ["data"] object without the
    key ["availablePhoneNumbers"], and a list of numbers that is falsy
    (empty, or [null]) all give [(None, None)], without an exception. *)
Theorem search_no_candidate (st : Z) (d : list (string * Py.value)) :
  ~ error_status st ->
  Py.dict_get "data" d = None \/
  (exists inner,
      Py.dict_get "data" d = Some (Py.VDict inner) /\
      (Py.dict_get "availablePhoneNumbers" inner = None \/
       exists numbers_list,
         Py.dict_get "availablePhoneNumbers" inner = Some numbers_list /\
         Py.truthy numbers_list = false)) ->
  NovaClient.search_single_number (NovaClient.Response st (Some (Py.VDict d)))
  = inr (Py.VNone, Py.VNone).
Proof.
  intros Hs H. unfold NovaClient.search_single_number.
  rewrite (post_graphql_ok st _ Hs).
  destruct (Py.truthy (Py.VDict d)); [|reflexivity].
  destruct H as [Hd | (inner & Hd & [Hi | (nl & Hi & Hf)])];
    simpl; rewrite Hd; simpl; [reflexivity | |]; rewrite Hi; simpl;
    [reflexivity | now rewrite Hf].
Qed.


(** What [search_single_number] returns: the pair of [None], or a number
    with the document that [post_graphql] gave. *)
Lemma search_returns (reply : NovaClient.http_reply) (number raw : Py.value) :
  NovaClient.search_single_number reply = inr (number, raw) ->
  (number = Py.VNone /\ raw = Py.VNone) \/
  (raw = NovaClient.post_graphql reply /\ raw <> Py.VNone).
Proof.
  unfold NovaClient.search_single_number.
  set (data := NovaClient.post_graphql reply). intros H.
  apply bind_inr in H. destruct H as ([|] & Hc & H); [|injection H as <- <-; now left].
  apply bind_inr in H. destruct H as (inner & _ & H).
  apply bind_inr in H. destruct H as (nl & _ & H).
  apply bind_inr in H. destruct H as ([|] & _ & H); [|injection H as <- <-; now left].
  apply bind_inr in H. destruct H as (first & _ & H).
  apply bind_inr in H. destruct H as (pn & _ & H).
  injection H as <- <-. right. split; [reflexivity|].
  intros E. rewrite E in Hc. discriminate Hc.
Qed.

(** ** Further properties of the worker *)

(** X11. A ["FOUND"] result is genuine: the query was answered with a
    status code outside 400-599 and a JSON document, the result carries
    that document and the number [search_single_number] took from it, the
    number passes [check_number_rules], and the reason is the one it gave. *)
Theorem found_is_genuine (repr : Py.value -> string) (cfg : config)
    (reply : NovaClient.http_reply) :
  Py.getitem_str (Worker.worker_task repr cfg reply) "status"
  = inr (Py.VStr "FOUND") ->
  exists st document number reason,
    reply = NovaClient.Response st (Some document) /\ ~ error_status st /\
    NovaClient.search_single_number reply = inr (number, document) /\
    Rules.check_number_rules repr cfg number = (true, reason) /\
    Worker.worker_task repr cfg reply
    = Py.VDict [("status", Py.VStr "FOUND"); ("number", number);
                ("reason", Py.VStr reason); ("response", document)].
Proof.
  unfold Worker.worker_task.
  destruct (Worker.worker_task_try repr cfg reply) as [e|result] eqn:E;
    [discriminate|].
  apply worker_task_try_cases in E.
  destruct E as [-> | (number & response & Hs & Hn & Hc & ->)]; [discriminate|].
  intros _.
  destruct (search_returns _ _ _ Hs) as [[-> _] | [Hraw Hne]]; [discriminate|].
  destruct (post_graphql_answer reply response (eq_sym Hraw) Hne)
    as (st & -> & Hst).
  exists st, response, number,
    (snd (Rules.check_number_rules repr cfg number)).
  repeat split; try assumption.
  destruct (Rules.check_number_rules repr cfg number) as [m r].
  simpl in *. now subst.
Qed.

(** ** Further properties of the scheduler *)

Local Open Scope list_scope.

Lemma chain_app {A} (R : A -> A -> Prop) (x : A) (l1 l2 : list A) :
  chain R x (l1 ++ l2) <-> chain R x l1 /\ chain R (final x l1) l2.
Proof.
  revert x; induction l1 as [|y l1 IH]; intros x; simpl; [tauto|].
  rewrite IH. tauto.
Qed.

Lemma final_app {A} (x : A) (l1 l2 : list A) :
  final x (l1 ++ l2) = final (final x l1) l2.
Proof. revert x; induction l1 as [|y l1 IH]; intros x; simpl; auto. Qed.

(** In a chain every entry but the first follows its neighbour. *)
Lemma chain_neighbours {A} (R : A -> A -> Prop) (x : A) (tr pre post : list A) (y z : A) :
  chain R x tr -> x :: tr = pre ++ y :: z :: post -> R y z.
Proof.
  revert x tr; induction pre as [|w pre IH]; intros x tr Hc E; simpl in E.
  - injection E as -> ->. now destruct Hc.
  - injection E as -> E. destruct tr as [|x' tr]; [now destruct pre|].
    destruct Hc as [_ Hc]. exact (IH _ _ Hc E).
Qed.

Lemma chain_before {A} (R : A -> A -> Prop) (x : A) (tr pre post : list A) (y : A) :
  chain R x tr -> x :: tr = pre ++ y :: post ->
  (pre = [] /\ y = x) \/ exists pre' z, pre = pre' ++ [z] /\ R z y.
Proof.
  intros Hc E. destruct pre as [|w pre] using rev_ind.
  - left. simpl in E. injection E as -> _. auto.
  - right. exists pre, w. split; [reflexivity|].
    rewrite <- app_assoc in E. simpl in E.
    exact (chain_neighbours R x tr pre post w y Hc E).
Qed.

Lemma final_split {A} (x : A) (tr : list A) :
  exists pre, x :: tr = pre ++ [final x tr].
Proof.
  revert x; induction tr as [|y tr IH]; intros x; simpl.
  - now exists [].
  - destruct (IH y) as [pre E]. exists (x :: pre). simpl. now rewrite E.
Qed.

Lemma found_is_found (number : Py.value) (reason : string) (response : Py.value) :
  is_found (Worker.found number reason response).
Proof. reflexivity. Qed.

(** The three shapes of a worker's result. *)
Lemma worker_result_cases (repr : Py.value -> string) (cfg : config)
    (reply : NovaClient.http_reply) :
  (~ is_found (Worker.worker_task repr cfg reply) /\
   (Worker.worker_task repr cfg reply = Worker.error \/
    Worker.worker_task repr cfg reply = Worker.retry)) \/
  exists number reason response,
    Worker.worker_task repr cfg reply = Worker.found number reason response /\
    Rules.check_number_rules repr cfg number = (true, reason).
Proof.
  unfold Worker.worker_task.
  destruct (Worker.worker_task_try repr cfg reply) as [e|result] eqn:E.
  - left. split; [discriminate | now left].
  - apply worker_task_try_cases in E.
    destruct E as [-> | (number & response & _ & _ & Hc & ->)].
    + left. split; [discriminate | now right].
    + right. exists number, (snd (Rules.check_number_rules repr cfg number)), response.
      split; [reflexivity|].
      destruct (Rules.check_number_rules repr cfg number) as [m r]. simpl in *. now subst.
Qed.

Lemma final_last {A} (x : A) (tr pre : list A) (y : A) :
  x :: tr = pre ++ [y] -> final x tr = y.
Proof.
  revert x pre; induction tr as [|z tr IH]; intros x pre E.
  - destruct pre as [|w [|w' pre]]; simpl in E; try discriminate.
    now injection E as ->.
  - destruct pre as [|w pre]; simpl in E; [discriminate|].
    injection E as -> E. simpl. exact (IH _ _ E).
Qed.

Section SchedulerSteps.
Variable repr : Py.value -> string.
Variable cfg : config.
Variable network : nat -> NovaClient.http_reply.
Variable operator : nat -> option string.

Import Scheduler.

Local Abbreviation consume := (Scheduler.consume operator).
Local Abbreviation collect := (Scheduler.collect repr cfg network operator).
Local Abbreviation batches := (Scheduler.batches repr cfg network operator).
Local Abbreviation result_of n := (Worker.worker_task repr cfg (network n)).
Local Abbreviation step := (step repr cfg network operator).
Local Abbreviation ready := (ready repr cfg network operator).
Local Abbreviation N := (CONCURRENT_WORKERS cfg).
Local Abbreviation D := (BATCH_DELAY cfg).

(** One result of a worker consumed while printing is allowed. *)
Lemma consume_worker (st : state) :
  allow_printing st = true ->
  let st1 := count st in
  let g := set_printing false st1 in
  let result := result_of (total_attempts st1) in
  (~ is_found result /\ consume result st = ([progress_of st1], st1, None)) \/
  (exists number reason response,
     result = Worker.found number reason response /\
     Rules.check_number_rules repr cfg number = (true, reason) /\
     let shown := (g, ShowMatch number (Py.VStr reason) response) in
     consume result st =
     match operator (total_attempts st1) with
     | None => ([progress_of st1; shown; (g, Input None)], g,
                Some (Crashed Py.EOFError))
     | Some a =>
         if (Py.lower (Py.strip a) =? "q")%string
         then ([progress_of st1; shown; (g, Input (Some a)); (g, Shutdown);
                (g, Exit 0)], g, Some (Exited 0))
         else ([progress_of st1; shown; (g, Input (Some a)); (st1, Resume)],
               st1, None)
     end).
Proof.
  intros Hp st1 g result.
  destruct (worker_result_cases repr cfg (network (total_attempts st1)))
    as [[Hnf [E|E]] | (number & reason & response & E & Hc)].
  - left. split; [exact Hnf|]. unfold result. rewrite E.
    unfold Scheduler.consume. fold st1. simpl. rewrite Hp. reflexivity.
  - left. split; [exact Hnf|]. unfold result. rewrite E.
    unfold Scheduler.consume. fold st1. simpl. rewrite Hp. reflexivity.
  - right. exists number, reason, response. split; [exact E|]. split; [exact Hc|].
    unfold result. rewrite E.
    unfold Scheduler.consume, gate. fold st1. fold g. simpl. rewrite Hp.
    change (S (total_attempts st)) with (total_attempts st1).
    destruct (operator (total_attempts st1)) as [a|]; [|reflexivity].
    destruct (Py.lower (Py.strip a) =? "q")%string; [reflexivity|].
    unfold g. now rewrite (resume_restores st1 Hp).
Qed.

Lemma ready_after_progress (st : state) :
  ~ is_found (result_of (total_attempts st)) -> ready (progress_of st) st.
Proof.
  intros Hnf. split; intros H; [now apply step_next_result | now apply step_batch_done].
Qed.

Lemma ready_after_resume (st : state) : ready (st, Resume) st.
Proof.
  split; intros H; [now apply step_after_resume | now apply step_resume_done].
Qed.

Lemma ready_after_submit (st : state) :
  0 < N -> ready (st, Submit N) (new_batch st).
Proof.
  intros Hw. split; simpl; intros H; [now apply step_first_result | lia].
Qed.

(** The [for] loop over a batch walks the state machine. *)
Lemma collect_chain (pending : nat) :
  forall st tr st' h x,
    allow_printing st = true ->
    completed_in_batch st + pending = N ->
    ready x st ->
    collect pending st = (tr, st', h) ->
    chain step x tr /\
    match h with
    | None =>
        step (final x tr) (st', Sleep D) /\ allow_printing st' = true /\
        total_attempts st' = total_attempts st + pending
    | Some _ => ending cfg h (final x tr)
    end.
Proof.
  induction pending as [|pending IH]; intros st tr st' h x Hp Hn Hx E.
  - simpl in E. injection E as <- <- <-. simpl.
    split; [exact I|]. split; [apply Hx; lia|]. split; [exact Hp | lia].
  - simpl in E. pose proof (consume_worker st Hp) as W. cbv zeta in W.
    change (total_attempts (count st)) with (S (total_attempts st)) in W.
    assert (Hx1 : step x (progress_of (count st))) by (apply Hx; lia).
    destruct W as [[Hnf W] | (number & reason & response & Er & Hc & W)].
    + rewrite W in E.
      destruct (collect pending (count st)) as [[tr' st''] h'] eqn:E'.
      injection E as <- <- <-.
      assert (Hn1 : completed_in_batch (count st) + pending = N) by (simpl; lia).
      destruct (IH (count st) _ _ _ (progress_of (count st)) Hp Hn1
                  (ready_after_progress (count st) Hnf) E') as [Hch Hend].
      split; [simpl; auto|].
      destruct h'; [exact Hend|].
      destruct Hend as (? & ? & Ht). simpl in Ht. repeat split; auto. lia.
    + assert (Hm : step (progress_of (count st))
                     (set_printing false (count st),
                      ShowMatch number (Py.VStr reason) response))
        by now apply step_match.
      pose proof (step_prompt repr cfg network operator
                    (set_printing false (count st)) number (Py.VStr reason) response)
        as Hpr.
      change (total_attempts (set_printing false (count st)))
        with (S (total_attempts st)) in Hpr.
      destruct (operator (S (total_attempts st))) as [a|].
      * destruct (Py.lower (Py.strip a) =? "q")%string eqn:Eq.
        -- rewrite W in E. injection E as <- <- <-.
           apply String.eqb_eq in Eq. simpl.
           repeat split; auto; try (now apply step_stop); try apply step_exit.
           eauto.
        -- rewrite W in E.
           destruct (collect pending (count st)) as [[tr' st''] h'] eqn:E'.
           injection E as <- <- <-.
           apply String.eqb_neq in Eq.
           assert (Hre : step (set_printing false (count st), Input (Some a))
                           (count st, Resume)).
           { rewrite <- (resume_restores (count st) Hp) at 2. now apply step_resume. }
           assert (Hn1 : completed_in_batch (count st) + pending = N) by (simpl; lia).
           destruct (IH (count st) _ _ _ (count st, Resume) Hp Hn1
                       (ready_after_resume (count st)) E') as [Hch Hend].
           split; [simpl; auto|].
           destruct h'; [exact Hend|].
           destruct Hend as (? & ? & Ht). simpl in Ht. repeat split; auto. lia.
      * rewrite W in E. injection E as <- <- <-. simpl.
        repeat split; auto. eauto.
Qed.

(** The [while] loop walks the state machine. *)
Lemma batches_chain (rounds : nat) :
  0 < N ->
  forall st tr h,
    allow_printing st = true ->
    batches (S rounds) st = (tr, h) ->
    exists tr',
      tr = (st, Submit N) :: tr' /\
      chain step (st, Submit N) tr' /\
      ending cfg h (final (st, Submit N) tr').
Proof.
  intros Hw.
  induction rounds as [|rounds IH]; intros st tr h Hp E.
  - simpl in E.
    destruct (collect N (new_batch st)) as [[tr1 st1] h1] eqn:E1.
    destruct (collect_chain N (new_batch st) _ _ _ (st, Submit N) Hp eq_refl
                (ready_after_submit st Hw) E1) as [Hch Hend].
    destruct h1 as [h1|]; injection E as <- <-.
    + exists tr1. auto.
    + destruct Hend as (Hs & _ & _).
      exists (tr1 ++ [(st1, Sleep D)]). split; [reflexivity|]. split.
      * apply chain_app. simpl. auto.
      * rewrite final_app. simpl. eauto.
  - change (batches (S (S rounds)) st)
      with (let st0 := new_batch st in
            let submitted := (st, Submit N) in
            match collect N st0 with
            | (tr, st', Some h) => (submitted :: tr, Some h)
            | (tr, st', None) =>
                let '(tr', h) := batches (S rounds) st' in
                (submitted :: tr ++ (st', Sleep D) :: tr', h)
            end) in E.
    cbv zeta in E.
    destruct (collect N (new_batch st)) as [[tr1 st1] h1] eqn:E1.
    destruct (collect_chain N (new_batch st) _ _ _ (st, Submit N) Hp eq_refl
                (ready_after_submit st Hw) E1) as [Hch Hend].
    destruct h1 as [h1|].
    + injection E as <- <-. exists tr1. auto.
    + destruct Hend as (Hs & Hp1 & _).
      destruct (batches (S rounds) st1) as [tr2 h2] eqn:E2.
      injection E as <- <-.
      destruct (IH st1 _ _ Hp1 E2) as (tr2' & -> & Hch2 & Hend2).
      exists (tr1 ++ (st1, Sleep D) :: (st1, Submit N) :: tr2').
      split; [reflexivity|]. split.
      * apply chain_app. simpl. repeat split; auto. apply step_next_batch.
      * rewrite final_app. simpl. exact Hend2.
Qed.

Ltac step_cases H :=
  inversion H; clear H; unfold progress_of in *; subst;
  repeat match goal with
         | E : (_, _) = (_, _) |- _ => injection E as ? ?; subst
         end;
  try discriminate.

Lemma found_inj (n n' : Py.value) (r r' : string) (d d' : Py.value) :
  Worker.found n r d = Worker.found n' r' d' -> n = n' /\ r = r' /\ d = d'.
Proof. unfold Worker.found. intros [= -> -> ->]. auto. Qed.

Lemma found_checked (t : nat) (number : Py.value) (reason : string) (response : Py.value) :
  result_of t = Worker.found number reason response ->
  Rules.check_number_rules repr cfg number = (true, reason).
Proof.
  intros E.
  destruct (worker_result_cases repr cfg (network t))
    as [[Hnf _] | (n' & r' & d' & E' & Hc)].
  - destruct Hnf. rewrite E. apply found_is_found.
  - rewrite E in E'. apply found_inj in E'. destruct E' as (-> & -> & ->). exact Hc.
Qed.

(** X12. The loop of [main] refines the scheduler's state machine: with a
    pool of at least one worker, a run of at least one round starts by
    submitting a batch in the initial state and every later entry of its
    trace follows the one before it by [step]; a run that has not ended when
    its rounds are used up has the delay of a batch as its last entry. *)
Theorem main_walks_state_machine (rounds : nat) :
  0 < N ->
  exists tr,
    fst (Scheduler.main repr cfg network operator (S rounds))
    = (initial, Submit N) :: tr /\
    chain step (initial, Submit N) tr /\
    (snd (Scheduler.main repr cfg network operator (S rounds)) = None ->
     exists s, final (initial, Submit N) tr = (s, Sleep D)).
Proof.
  intros Hw.
  destruct (main_cases repr cfg network operator (S rounds)) as [[X _] | [_ ->]];
    [lia|].
  destruct (batches (S rounds) initial) as [tr h] eqn:E.
  destruct (batches_chain rounds Hw initial tr h eq_refl E) as (tr' & -> & Hc & He).
  exists tr'. split; [reflexivity|]. split; [exact Hc|].
  simpl. intros ->. exact He.
Qed.

(** X13. How the process ends.  It exits only with code 0 and only after a
    prompt answered ["q"] or ["Q"] with any white space around it, the last
    entries being that answer, the shutdown and the exit.  An [EOFError]
    ends it only at a prompt that found the stream closed.  And no result
    of a worker makes the loop raise [KeyError] or [TypeError]: the fields
    it reads are there. *)
Theorem halt_reasons (rounds : nat) (h : halt) :
  snd (Scheduler.main repr cfg network operator rounds) = Some h ->
  h <> Crashed Py.KeyError /\ h <> Crashed Py.TypeError /\
  (forall code, h = Exited code ->
   code = 0%Z /\
   exists pre s a l c r,
     fst (Scheduler.main repr cfg network operator rounds)
     = pre ++ [(s, Input (Some a)); (s, Shutdown); (s, Exit 0)] /\
     a = (l ++ c ++ r)%string /\ (c = "q"%string \/ c = "Q"%string) /\
     all_space l = true /\ all_space r = true) /\
  (h = Crashed Py.EOFError ->
   exists pre s,
     fst (Scheduler.main repr cfg network operator rounds)
     = pre ++ [(s, Input None)] /\
     operator (total_attempts s) = None).
Proof.
  destruct (main_cases repr cfg network operator rounds) as [[_ ->] | [Hw ->]].
  { simpl. intros [= <-]. repeat split; try discriminate. }
  destruct rounds as [|rounds]; [discriminate|].
  destruct (batches (S rounds) initial) as [tr h'] eqn:E.
  destruct (batches_chain rounds Hw initial tr h' eq_refl E) as (tr' & -> & Hc & He).
  simpl. intros ->. unfold ending in He.
  destruct (final_split (initial, Submit N) tr') as [pre Hsplit].
  destruct h as [code|e].
  - destruct He as [-> [s Hf]]. rewrite Hf in Hsplit.
    split; [discriminate|]. split; [discriminate|]. split; [|discriminate].
    intros code' [= <-]. split; [reflexivity|].
    destruct (chain_before _ _ _ _ _ _ Hc Hsplit) as [[_ X] | (pre1 & z & -> & Hz)];
      [discriminate X|].
    step_cases Hz.
    rewrite <- app_assoc in Hsplit. simpl in Hsplit.
    destruct (chain_before _ _ _ _ _ _ Hc Hsplit) as [[_ X] | (pre2 & z & -> & Hz)];
      [discriminate X|].
    step_cases Hz.
    rewrite <- app_assoc in Hsplit. simpl in Hsplit.
    match goal with
    | Hq : Py.lower (Py.strip ?a) = _ |- _ =>
        apply stop_token_answers in Hq; destruct Hq as (l & c & r & Ha & Hcq & Hl & Hr);
        exists pre2, s, a, l, c, r
    end.
    auto.
  - destruct He as [-> [s Hf]]. rewrite Hf in Hsplit.
    split; [discriminate|]. split; [discriminate|]. split; [discriminate|].
    intros _.
    destruct (chain_before _ _ _ _ _ _ Hc Hsplit) as [[_ X] | (pre1 & z & -> & Hz)];
      [discriminate X|].
    step_cases Hz.
    exists (pre1 ++ [(s, ShowMatch number reason response)]), s.
    match goal with
    | Ho : operator _ = None |- _ => rewrite Ho; split; [exact Hsplit | reflexivity]
    end.
Qed.

(** The trace of [main]: empty when the pool is empty or no round is run,
    a walk of the state machine otherwise. *)
Lemma main_trace (rounds : nat) :
  (fst (Scheduler.main repr cfg network operator rounds) = [] /\
   (0 < N -> snd (Scheduler.main repr cfg network operator rounds) = None)) \/
  exists tr,
    fst (Scheduler.main repr cfg network operator rounds)
    = (initial, Submit N) :: tr /\
    chain step (initial, Submit N) tr /\
    ending cfg (snd (Scheduler.main repr cfg network operator rounds))
      (final (initial, Submit N) tr).
Proof.
  destruct (main_cases repr cfg network operator rounds) as [[X ->] | [Hw ->]].
  { left. split; [reflexivity | lia]. }
  destruct rounds as [|rounds]; [left; now split | right].
  destruct (batches (S rounds) initial) as [tr h] eqn:E.
  destruct (batches_chain rounds Hw initial tr h eq_refl E) as (tr' & -> & Hc & He).
  now exists tr'.
Qed.

(** An entry that does not end a trace has a successor. *)
Lemma not_last (h : option halt) (x : state * action) (tr pre post : trace)
    (s : state) (a : action) :
  ending cfg h (final x tr) ->
  x :: tr = pre ++ (s, a) :: post ->
  (forall d, a <> Sleep d) -> a <> Exit 0 -> a <> Input None ->
  exists z post', post = z :: post'.
Proof.
  intros He E Hs Hx Hi. destruct post as [|z post']; [|eauto].
  apply final_last in E. rewrite E in He. unfold ending in He.
  destruct h as [[code|e]|].
  - destruct He as [_ [s' [= _ ->]]]. now destruct Hx.
  - destruct He as [_ [s' [= _ ->]]]. now destruct Hi.
  - destruct He as [s' [= _ ->]]. now destruct (Hs D).
Qed.

(** X14. What the operator is shown is genuine: every number displayed is
    the number of the ["FOUND"] result just counted, it passes
    [check_number_rules] with the reason displayed, the progress line is
    switched off while it is on display, and the prompt comes next. *)
Theorem shown_match_is_genuine (rounds : nat) (pre : trace) (s : state)
    (number reason response : Py.value) (post : trace) :
  fst (Scheduler.main repr cfg network operator rounds)
  = pre ++ (s, ShowMatch number reason response) :: post ->
  exists r post',
    reason = Py.VStr r /\
    result_of (total_attempts s) = Worker.found number r response /\
    Rules.check_number_rules repr cfg number = (true, r) /\
    allow_printing s = false /\
    post = (s, Input (operator (total_attempts s))) :: post'.
Proof.
  intros E.
  destruct (main_trace rounds) as [[H _] | (tr & H & Hc & He)]; rewrite H in E;
    [destruct (no_gate_in_nil _ _ _ _ E)|].
  destruct (chain_before _ _ _ _ _ _ Hc E) as [[_ X] | (pre1 & z & -> & Hz)];
    [discriminate X|].
  destruct (not_last _ _ _ _ _ _ _ He E) as (z' & post' & ->); try discriminate.
  assert (Hz' : step (s, ShowMatch number reason response) z').
  { exact (chain_neighbours _ _ _ _ _ _ _ Hc E). }
  step_cases Hz. step_cases Hz'.
  match goal with
  | Hr : result_of _ = Worker.found _ ?r _ |- _ =>
      exists r, post'; repeat split; auto; exact (found_checked _ _ _ _ Hr)
  end.
Qed.

(** X15. Pacing: every batch is submitted with [CONCURRENT_WORKERS] workers,
    and every batch but the first comes straight after the delay of
    [BATCH_DELAY]. *)
Theorem batch_follows_delay (rounds : nat) (pre : trace) (s : state) (n : nat)
    (post : trace) :
  fst (Scheduler.main repr cfg network operator rounds)
  = pre ++ (s, Submit n) :: post ->
  n = N /\
  ((pre = [] /\ s = initial) \/ exists pre', pre = pre' ++ [(s, Sleep D)]).
Proof.
  intros E.
  destruct (main_trace rounds) as [[H _] | (tr & H & Hc & He)]; rewrite H in E;
    [destruct (no_gate_in_nil _ _ _ _ E)|].
  destruct (chain_before _ _ _ _ _ _ Hc E) as [[-> X] | (pre1 & z & -> & Hz)].
  - injection X as -> ->. auto.
  - step_cases Hz. split; [reflexivity|]. right. now exists pre1.
Qed.

(** X16. No match is passed over: the progress line of a result carries
    the counters of its state, and if that result is ["FOUND"] the match is
    displayed and the prompt shown straight after it; if it is not, the
    next entry is the next progress line or the delay. *)
Theorem found_result_is_shown (rounds : nat) (pre : trace) (s : state) (t c : nat)
    (post : trace) :
  fst (Scheduler.main repr cfg network operator rounds)
  = pre ++ (s, Progress t c) :: post ->
  t = total_attempts s /\ c = completed_in_batch s /\
  (is_found (result_of t) ->
   exists number reason response post',
     result_of t = Worker.found number reason response /\
     post = (set_printing false s, ShowMatch number (Py.VStr reason) response)
            :: (set_printing false s, Input (operator t)) :: post') /\
  (~ is_found (result_of t) ->
   exists post',
     post = progress_of (count s) :: post' \/ post = (s, Sleep D) :: post').
Proof.
  intros E.
  destruct (main_trace rounds) as [[H _] | (tr & H & Hc & He)]; rewrite H in E;
    [destruct (no_gate_in_nil _ _ _ _ E)|].
  destruct (chain_before _ _ _ _ _ _ Hc E) as [[_ X] | (pre1 & z & -> & Hz)];
    [discriminate X|].
  destruct (not_last _ _ _ _ _ _ _ He E) as (z' & post' & ->); try discriminate.
  assert (Hz' : step (s, Progress t c) z').
  { exact (chain_neighbours _ _ _ _ _ _ _ Hc E). }
  assert (Ht : t = total_attempts s /\ c = completed_in_batch s).
  { step_cases Hz; auto. }
  destruct Ht as [-> ->]. split; [reflexivity|]. split; [reflexivity|].
  change (s, Progress (total_attempts s) (completed_in_batch s))
    with (progress_of s) in *.
  split.
  - intros Hf.
    assert (Hshow : exists number reason response,
               result_of (total_attempts s) = Worker.found number reason response /\
               z' = (set_printing false s, ShowMatch number (Py.VStr reason) response)).
    { step_cases Hz'; try contradiction. eauto. }
    destruct Hshow as (number & reason & response & Hr & ->).
    assert (E2 : (initial, Submit N) :: tr
                 = (pre1 ++ [z; progress_of s])
                   ++ (set_printing false s,
                       ShowMatch number (Py.VStr reason) response) :: post').
    { rewrite E. rewrite <- !app_assoc. reflexivity. }
    destruct (not_last _ _ _ _ _ _ _ He E2) as (z2 & post2 & ->); try discriminate.
    pose proof (chain_neighbours _ _ _ _ _ _ _ Hc E2) as Hz2.
    step_cases Hz2. exists number, reason, response, post2. auto.
  - intros Hnf. exists post'.
    step_cases Hz'; auto.
    match goal with
    | Hr : result_of _ = Worker.found _ _ _ |- _ =>
        destruct Hnf; rewrite Hr; apply found_is_found
    end.
Qed.

(** X17. When no worker ever reports a match, the loop of a pool of at
    least one worker never pauses and never ends: whatever the number of
    rounds, the process is still running and its trace holds nothing but
    submissions, progress lines and delays. *)
Theorem no_match_no_pause (rounds : nat) :
  0 < N ->
  (forall n, ~ is_found (result_of n)) ->
  snd (Scheduler.main repr cfg network operator rounds) = None /\
  forall s a,
    In (s, a) (fst (Scheduler.main repr cfg network operator rounds)) ->
    (exists n, a = Submit n) \/ (exists t c, a = Progress t c) \/
    (exists d, a = Sleep d).
Proof.
  intros Hw Hnone.
  set (quiet := fun x : state * action =>
                  (exists n, snd x = Submit n) \/ (exists t c, snd x = Progress t c) \/
                  (exists d, snd x = Sleep d)).
  assert (Hstep : forall x y, quiet x -> step x y -> quiet y).
  { intros x y Hq Hs. unfold quiet in *.
    step_cases Hs; simpl in *; eauto;
      try (destruct Hq as [[? X] | [[? [? X]] | [? X]]]; discriminate X).
    match goal with
    | Hr : result_of ?t = Worker.found _ _ _ |- _ =>
        destruct (Hnone t); rewrite Hr; apply found_is_found
    end. }
  assert (Hchain : forall tr x, quiet x -> chain step x tr ->
                     quiet (final x tr) /\ forall y, In y tr -> quiet y).
  { induction tr as [|y tr IH]; intros x Hq Hc; simpl.
    - split; [exact Hq | intros y []].
    - destruct Hc as [Hs Hc]. pose proof (Hstep _ _ Hq Hs) as Hy.
      destruct (IH y Hy Hc) as [Hf Hall]. split; [exact Hf|].
      intros z [<-|Hz]; auto. }
  destruct (main_trace rounds) as [[H Hrun] | (tr & H & Hc & He)].
  - split; [exact (Hrun Hw) | rewrite H; intros s a []].
  - assert (Hq0 : quiet (initial, Submit N)) by (left; now exists N).
    destruct (Hchain tr _ Hq0 Hc) as [Hf Hall]. split.
    + unfold ending in He.
      destruct (snd (Scheduler.main repr cfg network operator rounds))
        as [[code|e]|]; [| |reflexivity].
      * destruct He as [_ [s Hs]]. rewrite Hs in Hf.
        destruct Hf as [[? X] | [[? [? X]] | [? X]]]; discriminate X.
      * destruct He as [_ [s Hs]]. rewrite Hs in Hf.
        destruct Hf as [[? X] | [[? [? X]] | [? X]]]; discriminate X.
    + intros s a Hin. rewrite H in Hin.
      destruct Hin as [X|Hin]; [injection X as <- <-; left; now exists N|].
      exact (Hall _ Hin).
Qed.

Lemma progress_lines_app (a b : trace) :
  progress_lines (a ++ b) = progress_lines a ++ progress_lines b.
Proof.
  induction a as [|[s [ | | | | | | | ]] a IH]; simpl; auto. now rewrite IH.
Qed.

Lemma map_seq_succ {A} (f : nat -> A) (n : nat) :
  map f (seq 0 (S n)) = f 0 :: map (fun j => f (S j)) (seq 0 n).
Proof. simpl. now rewrite <- seq_shift, map_map. Qed.

(** The progress lines of a batch, up to the point where it stopped. *)
Lemma collect_progress (pending : nat) :
  forall st tr st' h,
    allow_printing st = true ->
    collect pending st = (tr, st', h) ->
    exists rest,
      map (fun j => (total_attempts st + S j, completed_in_batch st + S j))
          (seq 0 pending)
      = progress_lines tr ++ rest /\
      (h = None ->
       rest = [] /\ allow_printing st' = true /\
       total_attempts st' = total_attempts st + pending).
Proof.
  induction pending as [|pending IH]; intros st tr st' h Hp E.
  - simpl in E. injection E as <- <- <-. exists []. simpl.
    repeat split; auto.
  - rewrite map_seq_succ. simpl in E.
    pose proof (consume_worker st Hp) as W. cbv zeta in W.
    change (total_attempts (count st)) with (S (total_attempts st)) in W.
    assert (Hshift :
              map (fun j => (total_attempts st + S (S j), completed_in_batch st + S (S j)))
                  (seq 0 pending)
              = map (fun j => (total_attempts (count st) + S j,
                               completed_in_batch (count st) + S j))
                    (seq 0 pending)).
    { apply map_ext. intros j. simpl. f_equal; lia. }
    rewrite Hshift.
    replace (total_attempts st + 1, completed_in_batch st + 1)
      with (S (total_attempts st), S (completed_in_batch st))
      by (f_equal; lia).
    destruct W as [[Hnf W] | (number & reason & response & Er & Hc & W)].
    + rewrite W in E.
      destruct (collect pending (count st)) as [[tr' st''] h'] eqn:E'.
      injection E as <- <- <-.
      destruct (IH (count st) _ _ _ Hp E') as (rest & Hr & Hend).
      exists rest. rewrite Hr. split; [reflexivity|].
      intros Hh. destruct (Hend Hh) as (? & ? & Ht). simpl in Ht.
      repeat split; auto. lia.
    + destruct (operator (S (total_attempts st))) as [a|].
      * destruct (Py.lower (Py.strip a) =? "q")%string.
        -- rewrite W in E. injection E as <- <- <-. simpl.
           eexists. split; [reflexivity | discriminate].
        -- rewrite W in E.
           destruct (collect pending (count st)) as [[tr' st''] h'] eqn:E'.
           injection E as <- <- <-.
           destruct (IH (count st) _ _ _ Hp E') as (rest & Hr & Hend).
           exists rest. rewrite Hr. split; [reflexivity|].
           intros Hh. destruct (Hend Hh) as (? & ? & Ht). simpl in Ht.
           repeat split; auto. lia.
      * rewrite W in E. injection E as <- <- <-. simpl.
        eexists. split; [reflexivity | discriminate].
Qed.

Lemma batches_progress (rounds : nat) :
  forall st a tr h,
    allow_printing st = true ->
    total_attempts st = N * a ->
    batches rounds st = (tr, h) ->
    exists rest,
      flat_map (fun r => map (fun j => (N * r + S j, S j)) (seq 0 N)) (seq a rounds)
      = progress_lines tr ++ rest /\
      (h = None -> rest = []).
Proof.
  induction rounds as [|rounds IH]; intros st a tr h Hp Ht E.
  - simpl in E. injection E as <- <-. now exists [].
  - simpl in E.
    destruct (collect N (new_batch st)) as [[tr1 st1] h1] eqn:E1.
    destruct (collect_progress N (new_batch st) _ _ _ Hp E1) as (rest1 & Hr1 & Hend1).
    simpl in Hr1. rewrite Ht in Hr1.
    change (seq a (S rounds)) with (a :: seq (S a) rounds).
    simpl flat_map. rewrite Hr1.
    destruct h1 as [h1|].
    + injection E as <- <-. simpl. rewrite <- app_assoc.
      eexists. split; [reflexivity | discriminate].
    + destruct (Hend1 eq_refl) as (-> & Hp1 & Ht1). simpl in Ht1.
      destruct (batches rounds st1) as [tr2 h2] eqn:E2.
      injection E as <- <-.
      assert (Ht1' : total_attempts st1 = N * S a) by lia.
      destruct (IH st1 (S a) _ _ Hp1 Ht1' E2) as (rest & Hr & Hend).
      exists rest. rewrite Hr. simpl.
      rewrite progress_lines_app. simpl. rewrite app_nil_r, <- app_assoc.
      split; [reflexivity | exact Hend].
Qed.

(** X18. Every result gets its progress line, pause or no pause: the
    progress lines of a run are, in order, those of the attempts
    [N * r + j] with the batch counter [j] from 1 to [N] in each round [r];
    a run that ended has written a prefix of them, a run still going all of
    them. *)
Theorem progress_lines_numbered (rounds : nat) :
  exists rest,
    flat_map (fun r => map (fun j => (N * r + S j, S j)) (seq 0 N)) (seq 0 rounds)
    = progress_lines (fst (Scheduler.main repr cfg network operator rounds)) ++ rest /\
    (snd (Scheduler.main repr cfg network operator rounds) = None -> rest = []).
Proof.
  destruct (main_cases repr cfg network operator rounds) as [[X ->] | [_ ->]].
  - exists []. split; [|reflexivity]. rewrite X. simpl.
    induction (seq 0 rounds) as [|r l IH]; [reflexivity | exact IH].
  - destruct (batches rounds initial) as [tr h] eqn:E.
    assert (Ht : total_attempts initial = N * 0) by (simpl; lia).
    exact (batches_progress rounds initial 0 tr h eq_refl Ht E).
Qed.

End SchedulerSteps.

(** ** The checkout methods *)

Local Open Scope string_scope.

Lemma cart_ids_raises (init_data : Py.value) (e : Py.exn) :
  NovaClient.cart_ids init_data = inl e -> e = Py.TypeError \/ e = Py.KeyError.
Proof.
  unfold NovaClient.cart_ids. intros H.
  bind_raises H.
  - destruct (Py.truthy init_data); [|discriminate H].
    bind_raises H; [left; now apply (contains_raises _ _ _ H)|].
    destruct x; [|discriminate H].
    bind_raises H; [now apply (getitem_str_raises _ _ _ H)|].
    left. now apply (contains_raises _ _ _ H).
  - destruct x; [|discriminate H].
    bind_raises H; [now apply (getitem_str_raises _ _ _ H)|].
    bind_raises H; [now apply (getitem_str_raises _ _ _ H)|].
    bind_raises H; [now apply (getitem_str_raises _ _ _ H)|].
    bind_raises H; [now apply (getitem_str_raises _ _ _ H)|].
    bind_raises H; [now apply (getitem_str_raises _ _ _ H)|].
    match type of H with
    | (if Py.truthy ?v then _ else _) = _ =>
        destruct (Py.truthy v) eqn:Ht; [|discriminate H]
    end.
    bind_raises H.
    + match type of H with
      | Py.getitem_0 ?v = _ =>
          destruct v as [|b|z|s|l|d]; simpl in *; try discriminate;
          try (injection H as <-; auto)
      end.
      * destruct s; simpl in *; discriminate.
      * destruct l; simpl in *; discriminate.
    + bind_raises H; [now apply (getitem_str_raises _ _ _ H) | discriminate H].
Qed.

(** X19. What the result of [create_cart_and_lock] tells its caller.  A
    result [(None, None)] means that no lock request was sent: only the
    first request went out and the failure line was printed.  Any other
    result has a truthy cart id, read from the answer to the first request,
    and then exactly one lock request was sent, for that cart and that
    number, and the first component is what [post_graphql] gave for it,
    [None] included: the lock itself is not checked. *)
Theorem lock_result_meaning (repr : Py.value -> string)
    (init_reply lock_reply : NovaClient.http_reply) (phone_number : Py.value)
    (log : list NovaClient.effect) (lock_data cart_id : Py.value) :
  NovaClient.create_cart_and_lock repr init_reply lock_reply phone_number
  = (log, inr (lock_data, cart_id)) ->
  (cart_id = Py.VNone /\ lock_data = Py.VNone /\
   log = [lock_start_line repr phone_number;
          NovaClient.Posted NovaClient.init_payload; lock_failed_line]) \/
  (Py.truthy cart_id = true /\
   lock_data = NovaClient.post_graphql lock_reply /\
   exists item_id,
     NovaClient.cart_ids (NovaClient.post_graphql init_reply)
     = inr (cart_id, item_id) /\
     log = [lock_start_line repr phone_number;
            NovaClient.Posted NovaClient.init_payload;
            NovaClient.Posted (NovaClient.lock_payload phone_number item_id cart_id)]).
Proof.
  unfold NovaClient.create_cart_and_lock, NovaClient.io_bind, NovaClient.print,
    NovaClient.post, NovaClient.lift, NovaClient.io_ret.
  destruct (NovaClient.cart_ids (NovaClient.post_graphql init_reply))
    as [e|[cid iid]] eqn:E; simpl; [discriminate|].
  destruct (Py.truthy cid) eqn:Ht; simpl; intros [= <- <- <-].
  - right. repeat split; auto. now exists iid.
  - left. auto.
Qed.

(** X20. The exceptions of [create_cart_and_lock] are not caught: a
    [TypeError] or a [KeyError], and no other, leaves the method when the
    answer to the first request has an unexpected shape, and then the first
    request is the only one sent. *)
Theorem lock_exceptions (repr : Py.value -> string)
    (init_reply lock_reply : NovaClient.http_reply) (phone_number : Py.value)
    (log : list NovaClient.effect) (e : Py.exn) :
  NovaClient.create_cart_and_lock repr init_reply lock_reply phone_number
  = (log, inl e) ->
  (e = Py.TypeError \/ e = Py.KeyError) /\
  log = [lock_start_line repr phone_number;
         NovaClient.Posted NovaClient.init_payload].
Proof.
  unfold NovaClient.create_cart_and_lock, NovaClient.io_bind, NovaClient.print,
    NovaClient.post, NovaClient.lift, NovaClient.io_ret.
  destruct (NovaClient.cart_ids (NovaClient.post_graphql init_reply))
    as [e'|[cid iid]] eqn:E; simpl.
  - intros [= <- <-]. split; [now apply (cart_ids_raises _ _ E) | reflexivity].
  - destruct (Py.truthy cid); simpl; discriminate.
Qed.

(** X21. The two kinds of failure of the first request fare differently.
    When the transport fails, the status is an error or the body is not
    JSON, the method prints the failure line and returns [(None, None)].
    When the server answers with ["addToCart": null], the subscript
    [['cart']] raises [TypeError] out of the method. *)
Theorem lock_first_request_failures (repr : Py.value -> string)
    (init_reply lock_reply : NovaClient.http_reply) (phone_number : Py.value) :
  ((exists e, NovaClient.post_graphql_try init_reply = inl e) ->
   NovaClient.create_cart_and_lock repr init_reply lock_reply phone_number
   = ([lock_start_line repr phone_number;
       NovaClient.Posted NovaClient.init_payload; lock_failed_line],
      inr (Py.VNone, Py.VNone))) /\
  (forall st d inner,
      init_reply = NovaClient.Response st (Some (Py.VDict d)) ->
      ~ error_status st ->
      Py.dict_get "data" d = Some (Py.VDict inner) ->
      Py.dict_get "addToCart" inner = Some Py.VNone ->
      NovaClient.create_cart_and_lock repr init_reply lock_reply phone_number
      = ([lock_start_line repr phone_number;
          NovaClient.Posted NovaClient.init_payload], inl Py.TypeError)).
Proof.
  split.
  - intros [e He].
    unfold NovaClient.create_cart_and_lock, NovaClient.io_bind, NovaClient.print,
      NovaClient.post, NovaClient.lift, NovaClient.io_ret, NovaClient.post_graphql.
    rewrite He. reflexivity.
  - intros st d inner -> Hs Hd Ha.
    unfold NovaClient.create_cart_and_lock, NovaClient.io_bind, NovaClient.print,
      NovaClient.post, NovaClient.lift, NovaClient.io_ret.
    rewrite (post_graphql_ok st _ Hs).
    assert (E : NovaClient.cart_ids (Py.VDict d) = inl Py.TypeError).
    { unfold NovaClient.cart_ids. rewrite (dict_get_truthy _ _ _ Hd).
      simpl. rewrite Hd. simpl. rewrite Ha. reflexivity. }
    rewrite E. reflexivity.
Qed.

(** X22. From an answer of the expected shape the method takes the id of
    the cart and the id of the first item of the cart ([None] when the cart
    has no item), and locks the number in that cart. *)
Theorem lock_uses_cart_and_first_item (repr : Py.value -> string)
    (lock_reply : NovaClient.http_reply) (phone_number : Py.value) (st : Z)
    (d inner added cart : list (string * Py.value)) (cart_id items : Py.value) :
  ~ error_status st ->
  Py.dict_get "data" d = Some (Py.VDict inner) ->
  Py.dict_get "addToCart" inner = Some (Py.VDict added) ->
  Py.dict_get "cart" added = Some (Py.VDict cart) ->
  Py.dict_get "id" cart = Some cart_id ->
  Py.truthy cart_id = true ->
  Py.dict_get "items" cart = Some items ->
  forall item_id,
    (items = Py.VList [] /\ item_id = Py.VNone) \/
    (exists first rest,
        items = Py.VList (Py.VDict first :: rest) /\
        Py.dict_get "id" first = Some item_id) ->
    NovaClient.create_cart_and_lock repr
      (NovaClient.Response st (Some (Py.VDict d))) lock_reply phone_number
    = ([lock_start_line repr phone_number;
        NovaClient.Posted NovaClient.init_payload;
        NovaClient.Posted (NovaClient.lock_payload phone_number item_id cart_id)],
       inr (NovaClient.post_graphql lock_reply, cart_id)).
Proof.
  intros Hs Hd Ha Hc Hi Ht Hit item_id Hitems.
  unfold NovaClient.create_cart_and_lock, NovaClient.io_bind, NovaClient.print,
    NovaClient.post, NovaClient.lift, NovaClient.io_ret.
  rewrite (post_graphql_ok st _ Hs).
  assert (E : NovaClient.cart_ids (Py.VDict d) = inr (cart_id, item_id)).
  { unfold NovaClient.cart_ids. rewrite (dict_get_truthy _ _ _ Hd).
    simpl. rewrite Hd. simpl. rewrite Ha. simpl. rewrite Hc. simpl.
    rewrite Hi. simpl. rewrite Hit. simpl.
    destruct Hitems as [[-> ->] | (first & rest & -> & Hf)]; simpl;
      [reflexivity | now rewrite Hf]. }
  rewrite E. simpl. rewrite Ht. reflexivity.
Qed.

Lemma scan_item_raises (ids : Py.value * Py.value) (item : list (string * Py.value))
    (e : Py.exn) :
  NovaClient.scan_item ids item = inl e -> e = Py.TypeError \/ e = Py.KeyError.
Proof.
  unfold NovaClient.scan_item. intros H.
  bind_raises H; [left; now apply (contains_raises _ _ _ H)|].
  destruct x.
  - bind_raises H; [now apply (getitem_str_raises _ _ _ H) | discriminate H].
  - bind_raises H; [left; now apply (contains_raises _ _ _ H)|].
    destruct x; [|discriminate H].
    bind_raises H; [now apply (getitem_str_raises _ _ _ H) | discriminate H].
Qed.

Lemma scan_items_raises (cart_items : list (list (string * Py.value))) :
  forall ids e,
    NovaClient.scan_items cart_items ids = inl e ->
    e = Py.TypeError \/ e = Py.KeyError.
Proof.
  induction cart_items as [|item rest IH]; intros ids e H; simpl in H;
    [discriminate H|].
  bind_raises H; [now apply (scan_item_raises _ _ _ H) | exact (IH _ _ H)].
Qed.

(** X23. What [update_cart_item] tells its caller.  If it returns, either
    the loop found a truthy id for the main item and for the contract item,
    one request was sent with the two ids and the result is what
    [post_graphql] gave for it; or one of the two ids is missing or falsy,
    no request was sent and the result is [None].  If it raises, the
    exception is a [TypeError] or a [KeyError] of the loop and no request
    was sent. *)
Theorem update_result_meaning (repr : Py.value -> string)
    (reply : NovaClient.http_reply) (cart_id : Py.value)
    (cart_items : list (list (string * Py.value))) (phone_number email : Py.value)
    (log : list NovaClient.effect) (outcome : Py.M Py.value) :
  NovaClient.update_cart_item repr reply cart_id cart_items phone_number email
  = (log, outcome) ->
  (exists main_item_id contract_item_id,
      NovaClient.scan_items cart_items (Py.VNone, Py.VNone)
      = inr (main_item_id, contract_item_id) /\
      ((Py.truthy main_item_id = true /\ Py.truthy contract_item_id = true /\
        log = [update_start_line;
               NovaClient.Posted
                 (NovaClient.update_payload cart_id main_item_id contract_item_id
                    phone_number email)] /\
        outcome = inr (NovaClient.post_graphql reply)) \/
       ((Py.truthy main_item_id = false \/ Py.truthy contract_item_id = false) /\
        log = [update_start_line;
               update_failed_line repr main_item_id contract_item_id] /\
        outcome = inr Py.VNone))) \/
  (exists e, outcome = inl e /\ (e = Py.TypeError \/ e = Py.KeyError) /\
             log = [update_start_line]).
Proof.
  unfold NovaClient.update_cart_item, NovaClient.io_bind, NovaClient.print,
    NovaClient.post, NovaClient.lift, NovaClient.io_ret.
  destruct (NovaClient.scan_items cart_items (Py.VNone, Py.VNone))
    as [e|[m c]] eqn:E; simpl.
  - intros [= <- <-]. right. exists e. split; [reflexivity|].
    split; [exact (scan_items_raises _ _ _ E) | reflexivity].
  - left. exists m, c. split; [reflexivity|].
    destruct (Py.truthy m) eqn:Hm; destruct (Py.truthy c) eqn:Hc; simpl in H;
      injection H as <- <-; auto 10.
Qed.

Lemma find_snoc {A} (f : A -> bool) (l : list A) (x : A) :
  find f (l ++ [x])%list
  = match find f l with
    | Some y => Some y
    | None => if f x then Some x else None
    end.
Proof.
  induction l as [|a l IH]; simpl; [reflexivity|].
  destruct (f a); [reflexivity | exact IH].
Qed.

Lemma last_id_cons (test : list (string * Py.value) -> bool)
    (item : list (string * Py.value)) (rest : list (list (string * Py.value)))
    (default : Py.value) :
  last_id test (item :: rest) default
  = last_id test rest
      (if test item
       then match Py.dict_get "id" item with Some id => id | None => Py.VNone end
       else default).
Proof.
  unfold last_id. simpl rev. rewrite find_snoc.
  destruct (find test (rev rest)); [reflexivity|].
  destruct (test item); reflexivity.
Qed.

Lemma scan_item_readable (ids : Py.value * Py.value) (item : list (string * Py.value)) :
  readable_item item ->
  NovaClient.scan_item ids item
  = inr (let id := match Py.dict_get "id" item with
                   | Some id => id
                   | None => Py.VNone
                   end in
         if is_main_item item then (id, snd ids)
         else if is_contract_item item then (fst ids, id)
         else ids).
Proof.
  intros [[s Hv] Hid]. unfold NovaClient.scan_item, is_main_item, is_contract_item in *.
  fold (variant_of item). rewrite Hv in *. simpl.
  destruct (Py.str_in "farsimi-otakmarkad-ferdamadur" s) eqn:Em; simpl in *.
  - destruct (Hid eq_refl) as [id ->]. reflexivity.
  - destruct (Py.str_in "frelsi-oskrad-ferdamadur" s) eqn:Ec; simpl in *;
      [|reflexivity].
    destruct (Hid eq_refl) as [id ->]. reflexivity.
Qed.

Lemma scan_items_readable (cart_items : list (list (string * Py.value))) :
  Forall readable_item cart_items ->
  forall main_item_id contract_item_id,
    NovaClient.scan_items cart_items (main_item_id, contract_item_id)
    = inr (last_id is_main_item cart_items main_item_id,
           last_id is_contract_item cart_items contract_item_id).
Proof.
  induction 1 as [|item rest Hr _ IH]; intros m c; [reflexivity|].
  simpl. rewrite (scan_item_readable _ _ Hr). simpl.
  rewrite !last_id_cons.
  assert (Hx : is_main_item item = true -> is_contract_item item = false).
  { unfold is_main_item, is_contract_item.
    destruct (variant_of item); try discriminate. now intros ->. }
  destruct (is_main_item item) eqn:Em.
  - rewrite (Hx eq_refl). apply IH.
  - destruct (is_contract_item item); apply IH.
Qed.

(** X24. Which items [update_cart_item] takes.  Over items it can read, the
    main item is the last one of the list whose [variantId] has the first
    marker in it, the contract item is the last one whose [variantId] has the
    second marker and not the first, and the request is sent exactly when
    the ids of both are truthy. *)
Theorem update_takes_last_items (repr : Py.value -> string)
    (reply : NovaClient.http_reply) (cart_id : Py.value)
    (cart_items : list (list (string * Py.value))) (phone_number email : Py.value) :
  Forall readable_item cart_items ->
  let main_item_id := last_id is_main_item cart_items Py.VNone in
  let contract_item_id := last_id is_contract_item cart_items Py.VNone in
  NovaClient.update_cart_item repr reply cart_id cart_items phone_number email
  = if Py.truthy main_item_id && Py.truthy contract_item_id
    then ([update_start_line;
           NovaClient.Posted
             (NovaClient.update_payload cart_id main_item_id contract_item_id
                phone_number email)],
          inr (NovaClient.post_graphql reply))
    else ([update_start_line;
           update_failed_line repr main_item_id contract_item_id],
          inr Py.VNone).
Proof.
  intros Hr m c.
  unfold NovaClient.update_cart_item, NovaClient.io_bind, NovaClient.print,
    NovaClient.post, NovaClient.lift, NovaClient.io_ret.
  rewrite (scan_items_readable _ Hr). fold m c. simpl.
  destruct (Py.truthy m); destruct (Py.truthy c); reflexivity.
Qed.

(** X25. The two methods agree on the variants.  A cart that holds an item
    of the variant asked for by the first request of [create_cart_and_lock]
    and an item of the variant asked for by its lock request, in either
    order and with truthy ids, is accepted by [update_cart_item]: the item
    of the lock request is the main item, the other the contract item. *)
Theorem update_accepts_locked_cart (repr : Py.value -> string)
    (reply : NovaClient.http_reply) (cart_id phone_number email : Py.value)
    (number item_id locked_cart : Py.value)
    (contract_item main_item : list (string * Py.value)) (id1 id2 : Py.value)
    (cart_items : list (list (string * Py.value))) :
  requested_variant NovaClient.init_payload = inr (variant_of contract_item) ->
  requested_variant (NovaClient.lock_payload number item_id locked_cart)
  = inr (variant_of main_item) ->
  Py.dict_get "id" contract_item = Some id1 -> Py.truthy id1 = true ->
  Py.dict_get "id" main_item = Some id2 -> Py.truthy id2 = true ->
  cart_items = [contract_item; main_item] \/ cart_items = [main_item; contract_item] ->
  NovaClient.update_cart_item repr reply cart_id cart_items phone_number email
  = ([update_start_line;
      NovaClient.Posted (NovaClient.update_payload cart_id id2 id1 phone_number email)],
     inr (NovaClient.post_graphql reply)).
Proof.
  intros Hv1 Hv2 Hi1 Ht1 Hi2 Ht2 Hitems.
  injection Hv1 as Hv1. injection Hv2 as Hv2. symmetry in Hv1, Hv2.
  assert (Hc : is_main_item contract_item = false /\ is_contract_item contract_item = true).
  { unfold is_main_item, is_contract_item. rewrite Hv1. split; reflexivity. }
  assert (Hm : is_main_item main_item = true).
  { unfold is_main_item. rewrite Hv2. reflexivity. }
  destruct Hc as [Hc1 Hc2].
  assert (Hr1 : readable_item contract_item).
  { split; [eexists; exact Hv1 | intros _; now exists id1]. }
  assert (Hr2 : readable_item main_item).
  { split; [eexists; exact Hv2 | intros _; now exists id2]. }
  assert (Hr : Forall readable_item cart_items).
  { destruct Hitems as [-> | ->];
      (apply Forall_cons; [assumption|]; apply Forall_cons; [assumption|];
       apply Forall_nil). }
  unfold NovaClient.update_cart_item, NovaClient.io_bind, NovaClient.print,
    NovaClient.post, NovaClient.lift, NovaClient.io_ret.
  rewrite (scan_items_readable _ Hr).
  assert (E : last_id is_main_item cart_items Py.VNone = id2 /\
              last_id is_contract_item cart_items Py.VNone = id1).
  { assert (Hx : is_contract_item main_item = false).
    { unfold is_main_item, is_contract_item in *.
      destruct (variant_of main_item); try reflexivity. now rewrite Hm. }
    destruct Hitems as [-> | ->]; unfold last_id; simpl;
      rewrite ?Hm, ?Hc1, ?Hc2, ?Hx, ?Hi1, ?Hi2; auto. }
  destruct E as [-> ->]. simpl. rewrite Ht1, Ht2. reflexivity.
Qed.

(** ** The further properties on concrete executions *)

Lemma more_rules_keep_matches_witness :
  fst (Rules.check_number_rules repr_stub
         (with_toggles default_config true true true true) (Py.VStr "5771234"))
  = true.
Proof.
  apply (more_rules_keep_matches repr_stub default_config).
  - repeat split; auto. intros t Ht. exact Ht.
  - reflexivity.
Defined.

Lemma superstring_matches_witness :
  fst (Rules.check_number_rules repr_stub default_config (Py.VStr "3547777")) = true.
Proof.
  apply (superstring_matches repr_stub default_config "7777" "3547777").
  - now exists "354", "".
  - reflexivity.
Defined.

Lemma structural_match_length_witness :
  3 <= String.length "5777" /\
  (ENABLE_A3 default_config = false -> ENABLE_ABC default_config = false ->
   4 <= String.length "5777").
Proof.
  apply (structural_match_length repr_stub default_config "5777").
  - reflexivity.
  - apply default_no_target. reflexivity.
Defined.

Lemma search_single_number_exceptions_witness :
  Py.KeyError = Py.TypeError \/ Py.KeyError = Py.KeyError.
Proof.
  apply (search_single_number_exceptions
           (NovaClient.Response 200
              (Some (Py.VDict
                 [("data",
                   Py.VDict [("availablePhoneNumbers",
                              Py.VList [Py.VDict [("type", Py.VStr "Normal")]])])])))).
  reflexivity.
Defined.

Lemma search_takes_first_number_witness :
  NovaClient.search_single_number
    (NovaClient.Response 200
       (Some (Py.VDict
          [("data",
            Py.VDict [("availablePhoneNumbers",
                       Py.VList [Py.VDict [("phoneNumber", Py.VStr "5812345")];
                                 Py.VDict [("phoneNumber", Py.VStr "7777777")]])])])))
  = inr (Py.VStr "5812345",
         Py.VDict
          [("data",
            Py.VDict [("availablePhoneNumbers",
                       Py.VList [Py.VDict [("phoneNumber", Py.VStr "5812345")];
                                 Py.VDict [("phoneNumber", Py.VStr "7777777")]])])]).
Proof.
  eapply search_takes_first_number.
  - unfold error_status. lia.
  - reflexivity.
  - reflexivity.
  - reflexivity.
Defined.

Lemma search_no_candidate_witness :
  NovaClient.search_single_number
    (NovaClient.Response 200
       (Some (Py.VDict
          [("data", Py.VDict [("availablePhoneNumbers", Py.VList [])])])))
  = inr (Py.VNone, Py.VNone).
Proof.
  apply search_no_candidate.
  - unfold error_status. lia.
  - right. eexists. split; [reflexivity|]. right. eexists. split; reflexivity.
Defined.


Lemma found_is_genuine_witness :
  exists st document number reason,
    available "5812345" = NovaClient.Response st (Some document) /\
    ~ error_status st /\
    NovaClient.search_single_number (available "5812345") = inr (number, document) /\
    Rules.check_number_rules repr_stub default_config number = (true, reason) /\
    Worker.worker_task repr_stub default_config (available "5812345")
    = Py.VDict [("status", Py.VStr "FOUND"); ("number", number);
                ("reason", Py.VStr reason); ("response", document)].
Proof.
  apply (found_is_genuine repr_stub default_config (available "5812345")).
  reflexivity.
Defined.

Local Open Scope list_scope.

Lemma halt_reasons_witness :
  exists pre s a l c r,
    fst (run10 operator_quit)
    = pre ++ [(s, Scheduler.Input (Some a)); (s, Scheduler.Shutdown);
              (s, Scheduler.Exit 0)] /\
    a = (l ++ c ++ r)%string /\ (c = "q"%string \/ c = "Q"%string) /\
    all_space l = true /\ all_space r = true.
Proof.
  destruct (halt_reasons repr_stub cfg10 network_match4 operator_quit 1
              (Scheduler.Exited 0) eq_refl) as (_ & _ & H & _).
  exact (proj2 (H 0%Z eq_refl)).
Defined.

Lemma main_walks_state_machine_witness :
  exists tr,
    fst (Scheduler.main repr_stub cfg10 network_match4 operator_enter 1)
    = (Scheduler.initial, Scheduler.Submit (CONCURRENT_WORKERS cfg10)) :: tr /\
    chain (step repr_stub cfg10 network_match4 operator_enter)
      (Scheduler.initial, Scheduler.Submit (CONCURRENT_WORKERS cfg10)) tr /\
    (snd (Scheduler.main repr_stub cfg10 network_match4 operator_enter 1) = None ->
     exists s,
       final (Scheduler.initial, Scheduler.Submit (CONCURRENT_WORKERS cfg10)) tr
       = (s, Scheduler.Sleep (BATCH_DELAY cfg10))).
Proof.
  apply (main_walks_state_machine repr_stub cfg10 network_match4 operator_enter 0).
  apply Nat.ltb_lt. reflexivity.
Defined.

Lemma shown_match_is_genuine_witness :
  exists r post',
    Py.VStr (Rules.reason_forward5 "12345") = Py.VStr r /\
    Worker.worker_task repr_stub cfg10
      (network_match4 (Scheduler.total_attempts gate4))
    = Worker.found (Py.VStr "5812345") r match_document /\
    Rules.check_number_rules repr_stub cfg10 (Py.VStr "5812345") = (true, r) /\
    Scheduler.allow_printing gate4 = false /\
    skipn 6 (fst (run10 operator_enter))
    = (gate4, Scheduler.Input (operator_enter (Scheduler.total_attempts gate4)))
      :: post'.
Proof.
  apply (shown_match_is_genuine repr_stub cfg10 network_match4 operator_enter 1
           (firstn 5 (fst (run10 operator_enter)))).
  vm_compute. reflexivity.
Defined.

Lemma batch_follows_delay_witness :
  10 = CONCURRENT_WORKERS cfg10 /\
  ((firstn 12 quiet2 = [] /\ counted10 = Scheduler.initial) \/
   exists pre',
     firstn 12 quiet2 = pre' ++ [(counted10, Scheduler.Sleep (BATCH_DELAY cfg10))]).
Proof.
  apply (batch_follows_delay repr_stub cfg10 network_quiet (fun _ => None) 2
           (firstn 12 quiet2) counted10 10 (skipn 13 quiet2)).
  vm_compute. reflexivity.
Defined.

Lemma found_result_is_shown_witness :
  exists number reason response post',
    Worker.worker_task repr_stub cfg10 (network_match4 4)
    = Worker.found number reason response /\
    skipn 5 (fst (run10 operator_enter))
    = (Scheduler.set_printing false counted4,
       Scheduler.ShowMatch number (Py.VStr reason) response)
      :: (Scheduler.set_printing false counted4,
          Scheduler.Input (operator_enter 4)) :: post'.
Proof.
  apply (found_result_is_shown repr_stub cfg10 network_match4 operator_enter 1
           (firstn 4 (fst (run10 operator_enter))) counted4 4 4
           (skipn 5 (fst (run10 operator_enter)))).
  - vm_compute. reflexivity.
  - reflexivity.
Defined.

Lemma no_match_no_pause_witness :
  snd (Scheduler.main repr_stub cfg10 network_quiet operator_quit 3) = None /\
  forall s a,
    In (s, a) (fst (Scheduler.main repr_stub cfg10 network_quiet operator_quit 3)) ->
    (exists n, a = Scheduler.Submit n) \/ (exists t c, a = Scheduler.Progress t c) \/
    (exists d, a = Scheduler.Sleep d).
Proof.
  apply (no_match_no_pause repr_stub cfg10 network_quiet operator_quit 3).
  - apply Nat.ltb_lt. reflexivity.
  - intros n. discriminate.
Defined.

Lemma lock_result_meaning_witness :
  (Py.VStr "cart-7" = Py.VNone /\ Py.VNone = Py.VNone /\
   [lock_start_line repr_stub (Py.VStr "5812345");
    NovaClient.Posted NovaClient.init_payload;
    NovaClient.Posted
      (NovaClient.lock_payload (Py.VStr "5812345") (Py.VStr "item-1") (Py.VStr "cart-7"))]
   = [lock_start_line repr_stub (Py.VStr "5812345");
      NovaClient.Posted NovaClient.init_payload; lock_failed_line]) \/
  (Py.truthy (Py.VStr "cart-7") = true /\
   Py.VNone = NovaClient.post_graphql (NovaClient.NoResponse Py.Timeout) /\
   exists item_id,
     NovaClient.cart_ids
       (NovaClient.post_graphql
          (cart_created (Py.VStr "cart-7") (Py.VList [Py.VDict contract_item])))
     = inr (Py.VStr "cart-7", item_id) /\
     [lock_start_line repr_stub (Py.VStr "5812345");
      NovaClient.Posted NovaClient.init_payload;
      NovaClient.Posted
        (NovaClient.lock_payload (Py.VStr "5812345") (Py.VStr "item-1") (Py.VStr "cart-7"))]
     = [lock_start_line repr_stub (Py.VStr "5812345");
        NovaClient.Posted NovaClient.init_payload;
        NovaClient.Posted
          (NovaClient.lock_payload (Py.VStr "5812345") item_id (Py.VStr "cart-7"))]).
Proof.
  apply (lock_result_meaning repr_stub
           (cart_created (Py.VStr "cart-7") (Py.VList [Py.VDict contract_item]))
           (NovaClient.NoResponse Py.Timeout) (Py.VStr "5812345")).
  reflexivity.
Defined.

Lemma lock_exceptions_witness :
  (Py.TypeError = Py.TypeError \/ Py.TypeError = Py.KeyError) /\
  [lock_start_line repr_stub (Py.VStr "5812345");
   NovaClient.Posted NovaClient.init_payload]
  = [lock_start_line repr_stub (Py.VStr "5812345");
     NovaClient.Posted NovaClient.init_payload].
Proof.
  apply (lock_exceptions repr_stub cart_refused (NovaClient.NoResponse Py.Timeout)
           (Py.VStr "5812345")).
  reflexivity.
Defined.

Lemma lock_first_request_failures_witness :
  NovaClient.create_cart_and_lock repr_stub (NovaClient.Response 503 None)
    (available "unused") (Py.VStr "5812345")
  = ([lock_start_line repr_stub (Py.VStr "5812345");
      NovaClient.Posted NovaClient.init_payload; lock_failed_line],
     inr (Py.VNone, Py.VNone)) /\
  NovaClient.create_cart_and_lock repr_stub cart_refused
    (available "unused") (Py.VStr "5812345")
  = ([lock_start_line repr_stub (Py.VStr "5812345");
      NovaClient.Posted NovaClient.init_payload], inl Py.TypeError).
Proof.
  split.
  - apply (proj1 (lock_first_request_failures repr_stub (NovaClient.Response 503 None)
                    (available "unused") (Py.VStr "5812345"))).
    exists Py.HTTPError. reflexivity.
  - eapply (proj2 (lock_first_request_failures repr_stub cart_refused
                     (available "unused") (Py.VStr "5812345"))).
    + reflexivity.
    + unfold error_status. lia.
    + reflexivity.
    + reflexivity.
Defined.

Lemma lock_uses_cart_and_first_item_witness :
  NovaClient.create_cart_and_lock repr_stub
    (cart_created (Py.VStr "cart-7") (Py.VList [Py.VDict contract_item; Py.VDict main_item]))
    (NovaClient.NoResponse Py.Timeout) (Py.VStr "5812345")
  = ([lock_start_line repr_stub (Py.VStr "5812345");
      NovaClient.Posted NovaClient.init_payload;
      NovaClient.Posted
        (NovaClient.lock_payload (Py.VStr "5812345") (Py.VStr "item-1") (Py.VStr "cart-7"))],
     inr (NovaClient.post_graphql (NovaClient.NoResponse Py.Timeout), Py.VStr "cart-7")).
Proof.
  eapply (lock_uses_cart_and_first_item repr_stub).
  - unfold error_status. lia.
  - reflexivity.
  - reflexivity.
  - reflexivity.
  - reflexivity.
  - reflexivity.
  - reflexivity.
  - right. eexists _, _. split; reflexivity.
Defined.

Lemma update_result_meaning_witness :
  (exists main_item_id contract_item_id,
      NovaClient.scan_items [main_item] (Py.VNone, Py.VNone)
      = inr (main_item_id, contract_item_id) /\
      ((Py.truthy main_item_id = true /\ Py.truthy contract_item_id = true /\
        [update_start_line; update_failed_line repr_stub (Py.VStr "item-2") Py.VNone]
        = [update_start_line;
           NovaClient.Posted
             (NovaClient.update_payload (Py.VStr "cart-7") main_item_id contract_item_id
                (Py.VStr "5812345") NovaClient.default_email)] /\
        (inr Py.VNone : Py.M Py.value)
        = inr (NovaClient.post_graphql (available "unused"))) \/
       ((Py.truthy main_item_id = false \/ Py.truthy contract_item_id = false) /\
        [update_start_line; update_failed_line repr_stub (Py.VStr "item-2") Py.VNone]
        = [update_start_line;
           update_failed_line repr_stub main_item_id contract_item_id] /\
        (inr Py.VNone : Py.M Py.value) = inr Py.VNone))) \/
  (exists e, (inr Py.VNone : Py.M Py.value) = inl e /\
             (e = Py.TypeError \/ e = Py.KeyError) /\
             [update_start_line; update_failed_line repr_stub (Py.VStr "item-2") Py.VNone]
             = [update_start_line]).
Proof.
  apply (update_result_meaning repr_stub (available "unused") (Py.VStr "cart-7")
           [main_item] (Py.VStr "5812345") NovaClient.default_email).
  reflexivity.
Defined.

Lemma update_takes_last_items_witness :
  NovaClient.update_cart_item repr_stub (NovaClient.NoResponse Py.Timeout)
    (Py.VStr "cart-7") [main_item; contract_item; main_item]
    (Py.VStr "5812345") NovaClient.default_email
  = ([update_start_line;
      NovaClient.Posted
        (NovaClient.update_payload (Py.VStr "cart-7") (Py.VStr "item-2")
           (Py.VStr "item-1") (Py.VStr "5812345") NovaClient.default_email)],
     inr Py.VNone).
Proof.
  apply (update_takes_last_items repr_stub (NovaClient.NoResponse Py.Timeout)
           (Py.VStr "cart-7") [main_item; contract_item; main_item]).
  repeat (apply Forall_cons; [split; [eexists; reflexivity | intros _; eexists; reflexivity]|]).
  apply Forall_nil.
Defined.

Lemma update_accepts_locked_cart_witness :
  NovaClient.update_cart_item repr_stub (NovaClient.NoResponse Py.Timeout)
    (Py.VStr "cart-7") [main_item; contract_item]
    (Py.VStr "5812345") NovaClient.default_email
  = ([update_start_line;
      NovaClient.Posted
        (NovaClient.update_payload (Py.VStr "cart-7") (Py.VStr "item-2")
           (Py.VStr "item-1") (Py.VStr "5812345") NovaClient.default_email)],
     inr (NovaClient.post_graphql (NovaClient.NoResponse Py.Timeout))).
Proof.
  apply (update_accepts_locked_cart repr_stub (NovaClient.NoResponse Py.Timeout)
           (Py.VStr "cart-7") (Py.VStr "5812345") NovaClient.default_email
           (Py.VStr "5812345") (Py.VStr "item-1") (Py.VStr "cart-7")
           contract_item main_item (Py.VStr "item-1") (Py.VStr "item-2")).
  - reflexivity.
  - reflexivity.
  - reflexivity.
  - reflexivity.
  - reflexivity.
  - reflexivity.
  - now right.
Defined.
